(** * Vitess: workflow server, vtadmin workflow list and vtbackup pruning

    A shallow embedding of the parts of the repository that the
    specification of the VReplication workflow orchestrator talks about:

    - [vterrors]   : go/vt/vterrors (error values, [Wrap], [Code]);
    - [vtbackup]   : go/cmd/vtbackup/cli ([pruneBackups], [parseBackupTime]);
    - [vtadmin]    : web/vtadmin Workflows.tsx (throttled stream display);
    - [workflow]   : go/vt/vtctl/workflow/server.go (traffic switching,
                     delete, complete and mirror verbs).

    Definitions come first, the theorems about them follow. *)

From Stdlib Require Import String Ascii List ZArith Lia Bool QArith Lqa.
Import ListNotations.
Local Open Scope string_scope.
Local Open Scope Z_scope.

(* ===================================================================== *)
(** * Part I: definitions                                                 *)
(* ===================================================================== *)

(** ** Go basics shared by the Go packages *)

Module golang.

(** [time.Duration] is an int64 count of nanoseconds. *)
Definition Duration := Z.
Definition Nanosecond : Duration := 1.
Definition Millisecond : Duration := 1000000.
Definition Second : Duration := 1000000000.
Definition Minute : Duration := 60 * Second.

Definition minDuration : Duration := - 2 ^ 63.
Definition maxDuration : Duration := 2 ^ 63 - 1.

(** *** float64

    A float64 is kept as the rational that it stands for.  [n / d]
    rounded to the nearest integer, a tie to the even one, for
    [0 <= n]: *)
Definition roundHalfEven (n : Z) (d : positive) : Z :=
  let q := n / Z.pos d in
  let r := n mod Z.pos d in
  match 2 * r ?= Z.pos d with
  | Lt => q
  | Gt => q + 1
  | Eq => if Z.even q then q else q + 1
  end.

(** The exponent [e] of a positive rational [n / d]:
    [2 ^ e <= n / d < 2 ^ (e + 1)]. *)
Definition exponent (n : Z) (d : positive) : Z :=
  let e0 := Z.log2 n - Z.log2 (Z.pos d) in
  if (if 0 <=? e0 then Z.pos d * 2 ^ e0 <=? n else Z.pos d <=? n * 2 ^ (- e0))
  then e0 else e0 - 1.

(** The float64 nearest to a rational, which is what a conversion to
    float64 and each operation on float64 values return: 53 significant
    bits, round to nearest, ties to even.  The seconds of an int64
    duration are far from the subnormal numbers and from overflow, which
    are left out. *)
Definition float64 (x : Q) : Q :=
  let n := Z.abs (Qnum x) in
  let d := Qden x in
  if n =? 0 then 0%Q
  else
    let e := exponent n d in
    (* the significand, in units of [2 ^ (e - 52)] *)
    let m := if e <=? 52 then roundHalfEven (n * 2 ^ (52 - e)) d
             else roundHalfEven n (d * Z.to_pos (2 ^ (e - 52))) in
    let r := if e <=? 52 then Qmake m (Z.to_pos (2 ^ (52 - e)))
             else Qmake (m * 2 ^ (e - 52)) 1 in
    if Qnum x <? 0 then Qopp r else r.

(** [Duration.Seconds]: [sec := d / Second; nsec := d % Second;
    return float64(sec) + float64(nsec)/1e9].  Go's integer division
    truncates toward zero; [float64(sec)] and [float64(nsec)] are exact,
    the division and the addition round. *)
Definition Seconds (d : Duration) : Q :=
  float64 (inject_Z (Z.quot d Second)
           + float64 (inject_Z (Z.rem d Second) / inject_Z Second))%Q.

(** [a < b] on the numbers above. *)
Definition Qltb (a b : Q) : bool :=
  (Qnum a * Z.pos (Qden b) <? Qnum b * Z.pos (Qden a))%Z.

(** The conversion [int64(f)] truncates toward zero. *)
Definition int64_of_Q (q : Q) : Z := Z.quot (Qnum q) (Z.pos (Qden q)).

(** [strings.Join]. *)
Fixpoint Join (elems : list string) (sep : string) : string :=
  match elems with
  | [] => ""
  | [x] => x
  | x :: rest => x ++ sep ++ Join rest sep
  end.

(** [strings.Split(s, sep)] for a one character separator: the result
    always has one more element than there are separators in [s]. *)
Fixpoint Split (s : string) (sep : ascii) : list string :=
  match s with
  | EmptyString => [""]
  | String c rest =>
      if Ascii.eqb c sep then "" :: Split rest sep
      else match Split rest sep with
           | [] => [String c ""]
           | hd :: tl => String c hd :: tl
           end
  end.

(** [slices.Sort] on strings (the order is that of the bytes) and
    [slices.Equal]. *)
Fixpoint insertSorted (x : string) (l : list string) : list string :=
  match l with
  | [] => [x]
  | y :: rest => if String.leb x y then x :: l else y :: insertSorted x rest
  end.

Fixpoint Sort (l : list string) : list string :=
  match l with
  | [] => []
  | x :: rest => insertSorted x (Sort rest)
  end.

Fixpoint Equal (a b : list string) : bool :=
  match a, b with
  | [], [] => true
  | x :: a', y :: b' => String.eqb x y && Equal a' b'
  | _, _ => false
  end.

(** [strings.TrimSpace(s) == ""] for a string of ASCII characters. *)
Definition isSpace (c : ascii) : bool :=
  let n := nat_of_ascii c in
  ((n =? 32) || ((9 <=? n) && (n <=? 13)))%nat.

Fixpoint isBlank (s : string) : bool :=
  match s with
  | EmptyString => true
  | String c rest => isSpace c && isBlank rest
  end.

(** [strings.HasSuffix]. *)
Definition HasSuffix (s suffix : string) : bool :=
  let n := String.length s in
  let m := String.length suffix in
  (m <=? n)%nat && String.eqb (substring (n - m) m s) suffix.

(** Decimal rendering of an integer, as [%d] and [%v] print it. *)
Fixpoint digits (fuel : nat) (n : Z) (acc : string) : string :=
  match fuel with
  | O => acc
  | S fuel' =>
      let d := ascii_of_nat (48 + Z.to_nat (n mod 10)) in
      if n <? 10 then String d acc
      else digits fuel' (n / 10) (String d acc)
  end.

(** A string between double quotes, as [%q] prints one that needs no
    escapes. *)
Definition quote (s : string) : string :=
  String (ascii_of_nat 34) (s ++ String (ascii_of_nat 34) "").

Definition Itoa (n : Z) : string :=
  if n <? 0 then "-" ++ digits (S (Z.to_nat (Z.log2 (- n)))) (- n) ""
  else digits (S (Z.to_nat (Z.log2 n))) n "".

(** [strings.Count(s, sep)] for a one character separator. *)
Fixpoint Count (s : string) (sep : ascii) : nat :=
  match s with
  | EmptyString => O
  | String c rest => if Ascii.eqb c sep then Datatypes.S (Count rest sep) else Count rest sep
  end.

End golang.

(** ** go/vt/proto/vtrpc: canonical error codes *)

Module vtrpcpb.

Inductive Code : Set :=
| Code_OK | Code_CANCELED | Code_UNKNOWN | Code_INVALID_ARGUMENT
| Code_DEADLINE_EXCEEDED | Code_NOT_FOUND | Code_ALREADY_EXISTS
| Code_PERMISSION_DENIED | Code_RESOURCE_EXHAUSTED
| Code_FAILED_PRECONDITION | Code_ABORTED | Code_OUT_OF_RANGE
| Code_UNIMPLEMENTED | Code_INTERNAL | Code_UNAVAILABLE | Code_DATA_LOSS.

(** [==] on codes. *)
Definition Code_eqb (a b : Code) : bool :=
  match a, b with
  | Code_OK, Code_OK | Code_CANCELED, Code_CANCELED | Code_UNKNOWN, Code_UNKNOWN
  | Code_INVALID_ARGUMENT, Code_INVALID_ARGUMENT
  | Code_DEADLINE_EXCEEDED, Code_DEADLINE_EXCEEDED | Code_NOT_FOUND, Code_NOT_FOUND
  | Code_ALREADY_EXISTS, Code_ALREADY_EXISTS | Code_PERMISSION_DENIED, Code_PERMISSION_DENIED
  | Code_RESOURCE_EXHAUSTED, Code_RESOURCE_EXHAUSTED
  | Code_FAILED_PRECONDITION, Code_FAILED_PRECONDITION | Code_ABORTED, Code_ABORTED
  | Code_OUT_OF_RANGE, Code_OUT_OF_RANGE | Code_UNIMPLEMENTED, Code_UNIMPLEMENTED
  | Code_INTERNAL, Code_INTERNAL | Code_UNAVAILABLE, Code_UNAVAILABLE
  | Code_DATA_LOSS, Code_DATA_LOSS => true
  | _, _ => false
  end.

End vtrpcpb.

(** ** go/vt/vterrors *)

Module vterrors.
Import vtrpcpb.

(** A non-nil Go [error] value.  [fundamental] and [wrapping] are the two
    struct types of the package; [errorString] stands for the values
    made by [errors.New] and [fmt.Errorf], which carry no code;
    the two context errors are the special cases of [Code]. *)
Inductive error : Type :=
| fundamental (msg : string) (code : Code)
| wrapping (cause : error) (msg : string)
| errorString (msg : string)
| contextCanceled
| contextDeadlineExceeded.

(** A Go value of interface type [error]: [None] is [nil]. *)
Definition goerror := option error.

(** [New] and [Errorf] (the message is formatted by the caller). *)
Definition New (code : Code) (message : string) : goerror :=
  Some (fundamental message code).

Definition Errorf (code : Code) (formatted : string) : goerror :=
  Some (fundamental formatted code).

(** The [Error() string] methods. *)
Fixpoint Error (e : error) : string :=
  match e with
  | fundamental msg _ => msg
  | wrapping cause msg => msg ++ ": " ++ Error cause
  | errorString msg => msg
  | contextCanceled => "context canceled"
  | contextDeadlineExceeded => "context deadline exceeded"
  end.

(** [Wrap]: "If err is nil, Wrap returns nil." *)
Definition Wrap (err : goerror) (message : string) : goerror :=
  match err with
  | None => None
  | Some e => Some (wrapping e message)
  end.

Definition Wrapf (err : goerror) (formatted : string) : goerror :=
  Wrap err formatted.

(** [Cause]: only [wrapping] implements the causer interface. *)
Definition Cause (e : error) : goerror :=
  match e with
  | wrapping cause _ => Some cause
  | _ => None
  end.

(** [Code] on a non-nil error: the code of a [fundamental], else the
    code of the cause, else the special cases, else UNKNOWN. *)
Fixpoint CodeOf (e : error) : Code :=
  match e with
  | fundamental _ code => code
  | wrapping cause _ => CodeOf cause
  | contextCanceled => Code_CANCELED
  | contextDeadlineExceeded => Code_DEADLINE_EXCEEDED
  | errorString _ => Code_UNKNOWN
  end.

(** [Code]: "If err is nil, it returns ok." *)
Definition Code (err : goerror) : vtrpcpb.Code :=
  match err with
  | None => Code_OK
  | Some e => CodeOf e
  end.

(** [RootCause]. *)
Fixpoint RootCause (e : error) : error :=
  match e with
  | wrapping cause _ => RootCause cause
  | _ => e
  end.

(** [err != nil]. *)
Definition notNil (err : goerror) : bool :=
  match err with
  | Some _ => true
  | None => false
  end.

(** How [%v] prints an error value inside a format string. *)
Definition show (err : goerror) : string :=
  match err with
  | None => "<nil>"
  | Some e => Error e
  end.

(** [Equals]: "true iff the error message and the code returned by
    Code() are equal". *)
Definition Equals (a b : goerror) : bool :=
  match a, b with
  | None, None => true
  | Some x, Some y => String.eqb (Error x) (Error y) && Code_eqb (CodeOf x) (CodeOf y)
  | _, _ => false
  end.

(** [TruncateError]; [len] counts bytes, and so does the slice
    [oldErr.Error()[:max-12]]. *)
Definition TruncateError (oldErr : goerror) (max : Z) : goerror :=
  match oldErr with
  | None => None
  | Some e =>
      if (max <=? 0) || (Z.of_nat (String.length (Error e)) <=? max) then oldErr
      else if max <=? 12 then New (CodeOf e) "[TRUNCATED]"
      else New (CodeOf e) (substring 0 (Z.to_nat (max - 12)) (Error e) ++ " [TRUNCATED]")
  end.

(** An error wrapped once for every message of a list, the first
    message innermost. *)
Definition wrapAll (e : error) (messages : list string) : error :=
  fold_left wrapping messages e.

End vterrors.

(** ** go/cmd/vtbackup/cli: pruning of old backups *)

Module vtbackup.
Import golang vterrors.

(** [backupstorage.BackupHandle], of which only [Name()] is used. *)
Record BackupHandle := { Name : string }.

(** The [backupstorage.BackupStorage] interface, as far as
    [pruneBackups] uses it.  [S] is the state of the storage location;
    a failed [RemoveBackup] may still have changed it. *)
Class BackupStorage (S : Type) := {
  ListBackups : S -> string -> list BackupHandle * goerror;
  RemoveBackup : S -> string -> string -> S * goerror
}.

(** The command line flags read by [pruneBackups]. *)
Record Flags := {
  minRetentionTime : Duration;
  minRetentionCount : Z
}.

(** What the function can observe and change: the storage location and
    the wall clock.  [clock k] is the reading of the k-th call of
    [time.Now]; [removed] records the names given to the calls of
    [RemoveBackup] that returned no error, oldest call first. *)
Record World (S : Type) := {
  storage : S;
  ticks : nat;
  removed : list string
}.
Arguments storage {S}. Arguments ticks {S}. Arguments removed {S}.

Section Prune.
Context {S : Type} `{BackupStorage S}.

(** [time.Parse(mysqlctl.BackupTimestampFormat, _)]: the layout and the
    parser live outside this package; the result is a time in
    nanoseconds since the epoch, or an error. *)
Variable timeParse : string -> Z * goerror.
Variable clock : nat -> Z.
Variable flags : Flags.

(** [parseBackupTime]: names are "date.time.tablet-alias". *)
Definition parseBackupTime (name : string) : Z * goerror :=
  let parts := Split name "." in
  match parts with
  | [p0; p1; _] =>
      let '(backupTime, err) := timeParse (p0 ++ "." ++ p1) in
      match err with
      | Some e =>
          (0, Some (errorString ("can't parse timestamp from backup " ++ quote name ++ ": " ++ Error e)))
      | None => (backupTime, None)
      end
  | _ =>
      (0, Some (errorString ("backup name not in expected format (date.time.tablet-alias): " ++ name)))
  end.

(** [time.Since(t)] is [time.Now().Sub(t)], which saturates at the
    ends of the int64 range. *)
Definition Since (w : World S) (t : Z) : Duration * World S :=
  let d := clock (ticks w) - t in
  let d := if d <? minDuration then minDuration
           else if maxDuration <? d then maxDuration else d in
  (d, {| storage := storage w; ticks := Datatypes.S (ticks w); removed := removed w |}).

(** The body of [for _, backup := range backups], with the running
    value of [numBackups]. *)
Fixpoint pruneLoop (backupDir : string) (backups : list BackupHandle)
         (numBackups : Z) (w : World S) : goerror * World S :=
  match backups with
  | [] => (None, w)
  | backup :: rest =>
      let '(backupTime, err) := parseBackupTime (Name backup) in
      match err with
      | Some e => (Some e, w)
      | None =>
          let '(age, w1) := Since w backupTime in
          if age <? minRetentionTime flags then
            (* The oldest remaining backup is not old enough to prune. *)
            (None, w1)
          else
            let '(st, rerr) := RemoveBackup (storage w1) backupDir (Name backup) in
            match rerr with
            | Some e =>
                (Some (errorString ("couldn't remove backup " ++ Name backup ++ " from "
                                      ++ backupDir ++ ": " ++ Error e)),
                 {| storage := st; ticks := ticks w1; removed := removed w1 |})
            | None =>
                let w2 := {| storage := st; ticks := ticks w1;
                             removed := (removed w1 ++ [Name backup])%list |} in
                (* We successfully removed one backup. *)
                let numBackups := numBackups - 1 in
                if numBackups =? minRetentionCount flags then (None, w2)
                else pruneLoop backupDir rest numBackups w2
            end
      end
  end.

Definition pruneBackups (backupDir : string) (w : World S) : goerror * World S :=
  if minRetentionTime flags =? 0 then
    (* Pruning of old backups is disabled. *)
    (None, w)
  else
    let '(backups, err) := ListBackups (storage w) backupDir in
    match err with
    | Some e => (Some (errorString ("can't list backups: " ++ Error e)), w)
    | None =>
        let numBackups := Z.of_nat (List.length backups) in
        if numBackups <=? minRetentionCount flags then (None, w)
        else pruneLoop backupDir backups numBackups w
    end.

End Prune.

(** A storage location held in memory: the list of backups, oldest
    first; [RemoveBackup] fails on a name that is not there. *)
Fixpoint removeNamed (name : string) (l : list BackupHandle) : option (list BackupHandle) :=
  match l with
  | [] => None
  | b :: rest =>
      if String.eqb (Name b) name then Some rest
      else match removeNamed name rest with
           | Some rest' => Some (b :: rest')
           | None => None
           end
  end.

#[export] Instance memoryStorage : BackupStorage (list BackupHandle) := {
  ListBackups := fun st _ => (st, None);
  RemoveBackup := fun st _ name =>
    match removeNamed name st with
    | Some st' => (st', None)
    | None => (st, Some (errorString "no such backup"))
    end
}.

(** Test data: a stand-in for the timestamp parser (the longer the date
    part, the younger the backup) and a location with five backups. *)
Definition stampParse (s : string) : Z * goerror :=
  match Split s "." with
  | [d; _] => (Z.of_nat (String.length d) * 10000 * Second, None)
  | _ => (0, Some (errorString "bad stamp"))
  end.

Definition fiveBackups : list BackupHandle :=
  [ {| Name := "a.0.x" |}; {| Name := "bb.0.x" |}; {| Name := "ccc.0.x" |};
    {| Name := "dddd.0.x" |}; {| Name := "eeeee.0.x" |} ].

(** ** [shouldBackup] and [lastCompleteBackup] *)

(** The duration that [Since] returns for the time [t] at the [k]-th
    reading of the clock. *)
Definition ageAt (clock : nat -> Z) (k : nat) (t : Z) : Duration :=
  let d := clock k - t in
  if d <? minDuration then minDuration
  else if maxDuration <? d then maxDuration else d.

(** The flags and package variables read by [shouldBackup]. *)
Record BackupFlags := {
  minBackupInterval : Duration;
  initialBackup : bool;
  allowFirstBackup : bool;
  initKeyspace : string;
  initShard : string
}.

(** What the topology server answers to [shouldBackup]: the error of
    [GetShard], the result of [GetTabletMapForShard] (alias and
    [IsInServingGraph] of every tablet, in the order in which the range
    over the map visits them) and [topo.IsErrType(_, topo.NoNode)]. *)
Record Topo := {
  getShard : goerror;
  getTabletMapForShard : list (string * bool) * goerror;
  isNoNode : error -> bool
}.

Section Backup.
Context {S : Type} `{BackupStorage S}.
Variable timeParse : string -> Z * goerror.
Variable clock : nat -> Z.
(** [mysqlctl.GetBackupManifest]: the error, if the MANIFEST of the
    backup cannot be read. *)
Variable getBackupManifest : BackupHandle -> goerror.
Variable bflags : BackupFlags.
Variable topo : Topo.

(** [checkBackupComplete]. *)
Definition checkBackupComplete (backup : BackupHandle) : goerror :=
  match getBackupManifest backup with
  | Some e => Some (errorString ("can't get backup MANIFEST: " ++ Error e))
  | None => None
  end.

(** The loop [for i := len(backups) - 1; i >= 0; i--] of
    [lastCompleteBackup], over the backups from the last to the first. *)
Fixpoint lastCompleteFrom (fromLast : list BackupHandle) : option BackupHandle :=
  match fromLast with
  | [] => None
  | backup :: rest =>
      match checkBackupComplete backup with
      | Some _ => lastCompleteFrom rest (* Ignoring backup because it's incomplete *)
      | None => Some backup
      end
  end.

Definition lastCompleteBackup (backups : list BackupHandle) : option BackupHandle :=
  if (List.length backups =? 0)%nat then None
  else lastCompleteFrom (rev backups).

(** The loop over the tablets of the shard: the alias of the first one
    met that is in the serving graph. *)
Fixpoint firstServing (tablets : list (string * bool)) : option string :=
  match tablets with
  | [] => None
  | (tabletAlias, isInServingGraph) :: rest =>
      if isInServingGraph then Some tabletAlias else firstServing rest
  end.

(** [shouldBackup] (vtbackup.go:805).  In the [default] case of the
    switch the message is formatted with [err], the error of
    [ListBackups], which is nil there, and not with [shardErr]. *)
Definition shouldBackup (backupDir : string) (w : World S) : (bool * goerror) * World S :=
  let shardName := initKeyspace bflags ++ "/" ++ initShard bflags in
  (* Look for the most recent, complete backup. *)
  let '(backups, err) := ListBackups (storage w) backupDir in
  match err with
  | Some e => ((false, Some (errorString ("can't list backups: " ++ Error e))), w)
  | None =>
      let lastBackup := lastCompleteBackup backups in
      if initialBackup bflags then
        (* Check preconditions for initial_backup mode. *)
        match lastBackup with
        | Some _ => ((false, None), w)
        | None =>
            match getShard topo with
            | None =>
                let '(tablets, terr) := getTabletMapForShard topo in
                match terr with
                | Some e =>
                    ((false,
                      Some (errorString
                              ("failed to check whether shard " ++ shardName
                                 ++ " has serving tablets before doing initial backup: "
                                 ++ Error e))), w)
                | None =>
                    match firstServing tablets with
                    | Some tabletAlias =>
                        ((false,
                          Some (errorString
                                  ("refusing to upload initial backup of empty database: the shard "
                                     ++ shardName
                                     ++ " already has at least one tablet that may be serving ("
                                     ++ tabletAlias
                                     ++ "); you must take a backup from a live tablet instead"))),
                         w)
                    | None => ((true, None), w)
                    end
                end
            | Some shardErr =>
                if isNoNode topo shardErr then
                  (* The shard doesn't exist, so we know no tablets are running. *)
                  ((true, None), w)
                else
                  ((false,
                    Some (errorString
                            ("failed to check whether shard " ++ shardName
                               ++ " exists before doing initial backup: " ++ show err))), w)
            end
        end
      else if (List.length backups =? 0)%nat && negb (allowFirstBackup bflags) then
        ((false,
          Some (errorString
                  "no existing backups to restore from; backup is not possible since --initial_backup flag was not enabled")),
         w)
      else
        match lastBackup with
        | None =>
            if allowFirstBackup bflags then ((true, None), w)
            else
              ((false,
                Some (errorString
                        "no complete backups to restore from; backup is not possible since --initial_backup flag was not enabled")),
               w)
        | Some last =>
            (* Has it been long enough since the last complete backup? *)
            if minBackupInterval bflags =? 0 then ((true, None), w)
            else
              let '(lastBackupTime, perr) := parseBackupTime timeParse (Name last) in
              match perr with
              | Some e =>
                  ((false, Some (errorString ("can't check last backup time: " ++ Error e))), w)
              | None =>
                  let '(elapsedTime, w1) := Since clock w lastBackupTime in
                  if elapsedTime <? minBackupInterval bflags
                  then ((false, None), w1) (* It hasn't been long enough yet. *)
                  else ((true, None), w1)
              end
        end
  end.

End Backup.

End vtbackup.

(** ** web/vtadmin: the workflow list (Workflows.tsx) *)

Module vtadmin.
Import golang.

(** A JavaScript number: [NaN] or a finite value, kept exact.  The
    values met here are integers, integers divided by 1000 and their
    differences with 60. *)
Inductive jsnumber : Type :=
| NaN
| Num (q : Q).

(** [a > b] and [a - b]: a comparison with [NaN] is false. *)
Definition js_gt (a b : jsnumber) : bool :=
  match a, b with
  | Num x, Num y => Qltb y x
  | _, _ => false
  end.

Definition js_lt (a b : jsnumber) : bool := js_gt b a.

Definition js_sub (a b : jsnumber) : jsnumber :=
  match a, b with
  | Num x, Num y => Num (x - y)
  | _, _ => NaN
  end.

Definition js_div (a b : jsnumber) : jsnumber :=
  match a, b with
  | Num x, Num y => if Qeq_bool y 0 then NaN else Num (x / y)
  | _, _ => NaN
  end.

(** A property that may be missing ([undefined]), [null] or present. *)
Inductive optional (A : Type) : Type :=
| undefined
| null
| present (a : A).
Arguments undefined {A}. Arguments null {A}. Arguments present {A} a.

(** Optional chaining [o?.f]: [undefined] when [o] is [null] or
    [undefined]. *)
Definition chain {A B : Type} (o : optional A) (f : A -> optional B) : optional B :=
  match o with
  | present a => f a
  | _ => undefined
  end.

(** [x !== null && x !== undefined]. *)
Definition isPresent {A : Type} (o : optional A) : bool :=
  match o with
  | present _ => true
  | _ => false
  end.

(** [Number(x)] for the [(number|Long|null)] field [seconds]:
    [Number(undefined)] is [NaN], [Number(null)] is 0. *)
Definition Number (o : optional Z) : jsnumber :=
  match o with
  | undefined => NaN
  | null => Num 0
  | present z => Num (inject_Z z)
  end.

(** [vttime.ITime], [Workflow.Stream.IThrottlerStatus] and
    [Workflow.IStream], with the fields the list reads. *)
Record ITime := {
  seconds : optional Z;
  nanoseconds : optional Z
}.

Record IThrottlerStatus := {
  component_throttled : optional string;
  time_throttled : optional ITime
}.

Record IStream := {
  state : optional string;
  throttler_status : optional IThrottlerStatus
}.

Definition ThrottleThresholdSeconds : Z := 60.

(** [stream?.throttler_status?.time_throttled]. *)
Definition timeThrottled (stream : IStream) : optional ITime :=
  chain (throttler_status stream) time_throttled.

(** The condition of the [if] inside the loop over the streams of a
    Running or Copying group.  [now] is [Date.now()], in milliseconds. *)
Definition throttledRecently (now : Z) (stream : IStream) : bool :=
  isPresent (timeThrottled stream) &&
  js_gt (Number (chain (timeThrottled stream) seconds))
        (js_sub (js_div (Num (inject_Z now)) (Num 1000))
                (Num (inject_Z ThrottleThresholdSeconds))).

(** [o?.toString()] on a string that may be missing. *)
Definition toStringOf (o : optional string) : optional string :=
  chain o (fun s => present s).

(** The loop: [numThrottled] and the app of the first throttled stream. *)
Fixpoint countThrottled (now : Z) (streams : list IStream)
         (numThrottled : Z) (throttledApp : optional string) : Z * optional string :=
  match streams with
  | [] => (numThrottled, throttledApp)
  | stream :: rest =>
      if throttledRecently now stream then
        let numThrottled := numThrottled + 1 in
        let throttledApp :=
          if numThrottled =? 1
          then toStringOf (chain (throttler_status stream) component_throttled)
          else throttledApp in
        countThrottled now rest numThrottled throttledApp
      else countThrottled now rest numThrottled throttledApp
  end.

(** [toLocaleLowerCase] on the ASCII state names. *)
Definition lowerAscii (c : ascii) : ascii :=
  let n := nat_of_ascii c in
  if ((65 <=? n) && (n <=? 90))%nat then ascii_of_nat (n + 32) else c.

Fixpoint toLowerCase (s : string) : string :=
  match s with
  | EmptyString => EmptyString
  | String c rest => String (lowerAscii c) (toLowerCase rest)
  end.

(** What one cell of the Streams column shows for a group of streams in
    one state: the state given to the pip, the count and the tooltip. *)
Record StreamPip := {
  pipState : string;
  pipCount : Z;
  pipTooltip : string;
  pipThrottled : Z
}.

Definition showApp (o : optional string) : string :=
  match o with
  | present s => s
  | undefined => "undefined"
  | null => "null"
  end.

(** The body of the callback given to
    [['Error', 'Copying', 'Running', 'Stopped'].map] when the state is
    a key of [row.streams], whose value is [streams]. *)
Definition renderStreamState (now : Z) (streamState : string) (streams : list IStream)
  : StreamPip :=
  let streamCount := Z.of_nat (List.length streams) in
  let '(numThrottled, throttledApp, streamDescription, streamState) :=
    if String.eqb streamState "Error" then
      (0, present "", "failed", streamState)
    else if String.eqb streamState "Running" || String.eqb streamState "Copying" then
      let '(numThrottled, throttledApp) := countThrottled now streams 0 (present "") in
      (numThrottled, throttledApp, toLowerCase streamState,
       if 0 <? numThrottled then "Throttled" else streamState)
    else
      (0, present "", toLowerCase streamState, streamState) in
  {| pipState := streamState;
     pipCount := streamCount;
     pipTooltip :=
       Join [ Itoa streamCount; streamDescription;
              (if streamCount =? 1 then "stream" else "streams");
              (if 0 <? numThrottled
               then "(" ++ Itoa numThrottled ++ " throttled in " ++ showApp throttledApp ++ ")"
               else "") ] " ";
     pipThrottled := numThrottled |}.






(** Test data. *)
Definition streamThrottledAt (st : string) (sec : Z) : IStream :=
  {| state := present st;
     throttler_status :=
       present {| component_throttled := present "vcopier";
                  time_throttled :=
                    present {| seconds := present sec; nanoseconds := present 0 |} |} |}.


Definition streamNeverThrottled (st : string) : IStream :=
  {| state := present st; throttler_status := undefined |}.

End vtadmin.

(** ** go/vt/vtctl/workflow: data model *)

Module workflow.
Import golang vtrpcpb vterrors.

(** [topodatapb.TabletType]. *)
Inductive TabletType : Set :=
| TabletType_UNKNOWN | TabletType_PRIMARY | TabletType_REPLICA
| TabletType_RDONLY | TabletType_SPARE | TabletType_EXPERIMENTAL
| TabletType_BACKUP | TabletType_RESTORE | TabletType_DRAINED.

Definition TabletType_eqb (a b : TabletType) : bool :=
  match a, b with
  | TabletType_UNKNOWN, TabletType_UNKNOWN
  | TabletType_PRIMARY, TabletType_PRIMARY
  | TabletType_REPLICA, TabletType_REPLICA
  | TabletType_RDONLY, TabletType_RDONLY
  | TabletType_SPARE, TabletType_SPARE
  | TabletType_EXPERIMENTAL, TabletType_EXPERIMENTAL
  | TabletType_BACKUP, TabletType_BACKUP
  | TabletType_RESTORE, TabletType_RESTORE
  | TabletType_DRAINED, TabletType_DRAINED => true
  | _, _ => false
  end.

(** [binlogdatapb.VReplicationWorkflowType] and [MigrationType]. *)
Inductive VReplicationWorkflowType : Set :=
| VReplicationWorkflowType_Materialize
| VReplicationWorkflowType_MoveTables
| VReplicationWorkflowType_CreateLookupIndex
| VReplicationWorkflowType_Migrate
| VReplicationWorkflowType_Reshard
| VReplicationWorkflowType_OnlineDDL.

Inductive MigrationType : Set :=
| MigrationType_TABLES
| MigrationType_SHARDS.

(** Modelled from the spec: the constants of the string type [Type]
    of the package (state.go is not among the sources); the workflow
    types are named MoveTables, Reshard and Migrate there. *)
Definition TypeMoveTables : string := "MoveTables".
Definition TypeReshard : string := "Reshard".
Definition TypeMigrate : string := "Migrate".

(** Modelled from the spec: the constant [Frozen], the message of a
    frozen stream ("message=FROZEN"). *)
Definition Frozen : string := "FROZEN".

(** Modelled from the spec: [TrafficSwitchDirection], forward and
    backward, in the order of their declaration. *)
Definition TrafficSwitchDirection := Z.
Definition DirectionForward : TrafficSwitchDirection := 0.
Definition DirectionBackward : TrafficSwitchDirection := 1.

(** Constants of server.go. *)
Definition DefaultTimeout : Duration := 30 * Second.
Definition cannotSwitchError : string := "workflow has errors".
Definition cannotSwitchCopyIncomplete : string := "copy is still in progress".
Definition cannotSwitchHighLag (lag allowed : Z) : string :=
  "replication lag " ++ Itoa lag ++ "s is higher than allowed lag " ++ Itoa allowed ++ "s".
Definition cannotSwitchFailedTabletRefresh (details : string) : string :=
  "could not refresh all of the tablets involved in the operation:" ++ String (ascii_of_nat 10) details.
Definition cannotSwitchFrozen : string := "workflow is frozen".
Definition lockTablesCycles : Z := 2.
Definition lockTablesCycleDelay : Duration := 100 * Millisecond.

Definition ErrWorkflowCompleteNotFullySwitched : error :=
  errorString "cannot complete workflow because you have not yet switched all read and write traffic".
Definition ErrWorkflowDeleteWritesSwitched : error :=
  errorString "cannot delete workflow because you have already switched write traffic".

(** [topo.ShardInfo], with what the verbs read of it. *)
Record ShardInfo := {
  si_Keyspace : string;
  si_ShardName : string;
  IsPrimaryServing : bool
}.

(** The [trafficSwitcher] built for a workflow (traffic_switcher.go is
    not among the sources).  [multiTenant], [partial] and the two shard
    lists hold what the methods [IsMultiTenantMigration],
    [IsPartialMigration], [SourceShards] and [TargetShards] return;
    [sourceUnsharded] holds the test
    [SourceKeyspaceSchema() != nil && .Keyspace != nil && !.Keyspace.Sharded]. *)
Record trafficSwitcher := {
  ts_workflow : string;
  reverseWorkflow : string;
  id : Z;
  targetKeyspace : string;
  sourceKeyspace : string;
  frozen : bool;
  workflowType : VReplicationWorkflowType;
  migrationType : MigrationType;
  isPartialMigration : bool;
  multiTenant : bool;
  tenantId : string;
  tables : list string;
  sourceShards : list ShardInfo;
  targetShards : list ShardInfo;
  sourceUnsharded : bool;
  force : bool;
  keepRoutingRules : bool
}.

Definition MigrationType_ (ts : trafficSwitcher) : MigrationType := migrationType ts.
Definition IsMultiTenantMigration (ts : trafficSwitcher) : bool := multiTenant ts.
Definition IsPartialMigration (ts : trafficSwitcher) : bool := isPartialMigration ts.
Definition TargetKeyspaceName (ts : trafficSwitcher) : string := targetKeyspace ts.
Definition SourceKeyspaceName (ts : trafficSwitcher) : string := sourceKeyspace ts.
Definition WorkflowName (ts : trafficSwitcher) : string := ts_workflow ts.
Definition Tables (ts : trafficSwitcher) : list string := tables ts.
Definition SourceShards (ts : trafficSwitcher) : list ShardInfo := sourceShards ts.
Definition TargetShards (ts : trafficSwitcher) : list ShardInfo := targetShards ts.

Definition set_force (ts : trafficSwitcher) (b : bool) : trafficSwitcher :=
  {| ts_workflow := ts_workflow ts; reverseWorkflow := reverseWorkflow ts; id := id ts;
     targetKeyspace := targetKeyspace ts; sourceKeyspace := sourceKeyspace ts;
     frozen := frozen ts; workflowType := workflowType ts;
     migrationType := migrationType ts; isPartialMigration := isPartialMigration ts;
     multiTenant := multiTenant ts; tenantId := tenantId ts; tables := tables ts;
     sourceShards := sourceShards ts; targetShards := targetShards ts;
     sourceUnsharded := sourceUnsharded ts; force := b;
     keepRoutingRules := keepRoutingRules ts |}.

Definition set_keepRoutingRules (ts : trafficSwitcher) (b : bool) : trafficSwitcher :=
  {| ts_workflow := ts_workflow ts; reverseWorkflow := reverseWorkflow ts; id := id ts;
     targetKeyspace := targetKeyspace ts; sourceKeyspace := sourceKeyspace ts;
     frozen := frozen ts; workflowType := workflowType ts;
     migrationType := migrationType ts; isPartialMigration := isPartialMigration ts;
     multiTenant := multiTenant ts; tenantId := tenantId ts; tables := tables ts;
     sourceShards := sourceShards ts; targetShards := targetShards ts;
     sourceUnsharded := sourceUnsharded ts; force := force ts;
     keepRoutingRules := b |}.

(** The workflow [State] snapshot (state.go), as [getWorkflowState]
    fills it. *)
Record State := {
  Workflow : string;
  SourceKeyspace : string;
  TargetKeyspace : string;
  WorkflowType : string;
  ReplicaCellsSwitched : list string;
  ReplicaCellsNotSwitched : list string;
  RdonlyCellsSwitched : list string;
  RdonlyCellsNotSwitched : list string;
  WritesSwitched : bool;
  IsPartialMigration_ : bool;
  ShardsAlreadySwitched : list string;
  ShardsNotYetSwitched : list string;
  IsReverse : bool
}.

(** [vtctldatapb.Workflow], with what [canSwitch] reads.  A Go map is
    ranged over in no fixed order: [ShardStreams] lists the entries in
    the order in which the loop happens to meet them. *)
Record Workflow_Stream := { Stream_State : string; Message : string }.
Record Workflow_ShardStream := { Streams : list Workflow_Stream }.
Record Workflow_ := {
  MaxVReplicationTransactionLag : Z;
  ShardStreams : list (string * Workflow_ShardStream)
}.

(** [vttime.Duration]. *)
Record vttime_Duration := { Duration_seconds : Z; Duration_nanos : Z }.

(** [topodatapb.ShardRoutingRule]. *)
Record ShardRoutingRule := { FromKeyspace : string; ToKeyspace : string; Shard : string }.

(** ** Requests and responses (vtctldatapb) *)

Module WorkflowSwitchTrafficRequest.
Record t := {
  Keyspace : string;
  Workflow : string;
  Cells : list string;
  TabletTypes : list TabletType;
  MaxReplicationLagAllowed : option vttime_Duration;
  EnableReverseReplication : bool;
  Direction : Z;
  Timeout : option vttime_Duration;
  DryRun : bool;
  InitializeTargetSequences : bool;
  Shards : list string;
  Force : bool
}.
End WorkflowSwitchTrafficRequest.

Module WorkflowSwitchTrafficResponse.
Record t := {
  Summary : string;
  StartState : string;
  CurrentState : string;
  DryRunResults : list string
}.
End WorkflowSwitchTrafficResponse.

Module WorkflowDeleteRequest.
Record t := {
  Keyspace : string;
  Workflow : string;
  KeepData : bool;
  KeepRoutingRules : bool;
  Shards : list string;
  DeleteBatchSize : Z;
  IgnoreSourceKeyspace : bool
}.
End WorkflowDeleteRequest.

Module WorkflowDeleteResponse.
Record TabletInfo := { Tablet : string; Deleted : bool }.
Record t := { Summary : string; Details : list TabletInfo }.
End WorkflowDeleteResponse.

Module MoveTablesCompleteRequest.
Record t := {
  Workflow : string;
  TargetKeyspace : string;
  KeepData : bool;
  KeepRoutingRules : bool;
  RenameTables : bool;
  DryRun : bool;
  IgnoreSourceKeyspace : bool
}.
End MoveTablesCompleteRequest.

Module MoveTablesCompleteResponse.
Record t := { Summary : string; DryRunResults : list string }.
End MoveTablesCompleteResponse.

Module WorkflowMirrorTrafficRequest.
Record t := {
  Keyspace : string;
  Workflow : string;
  TabletTypes : list TabletType;
  Percent : Q
}.
End WorkflowMirrorTrafficRequest.

Module WorkflowMirrorTrafficResponse.
Record t := { Summary : string; StartState : string; CurrentState : string }.
End WorkflowMirrorTrafficResponse.

(** [TableRemovalType]. *)
Inductive TableRemovalType : Set := DropTable | RenameTable.

(** ** The world outside the server

    Every call that leaves server.go - to the topology store, to the
    shard agents, to the [iswitcher] and to the other files of the
    package - is an event.  The methods of the [iswitcher] interface: *)
Inductive SwitcherOp : Type :=
| lockKeyspace (keyspace action : string) (ttl : option Duration)
| unlockKeyspace (keyspace : string)
| mirrorTableTraffic (types : list TabletType) (percent : Q)
| switchKeyspaceReads (types : list TabletType)
| switchTableReads (cells : list string) (types : list TabletType)
                   (rebuildSrvVSchema : bool) (direction : TrafficSwitchDirection)
| switchShardReads (cells : list string) (types : list TabletType)
                   (direction : TrafficSwitchDirection)
| cancelMigration
| stopSourceWrites
| stopStreams
| waitForCatchup (filteredReplicationWaitTime : Duration)
| migrateStreams
| resetSequences
| createReverseVReplication
| initializeTargetSequences
| createJournals (sourceWorkflows : list string)
| allowTargetWrites
| changeRouting
| streamMigraterfinalize (sourceWorkflows : list string)
| startReverseVReplication
| freezeTargetVReplication
| dropTargetVReplicationStreams
| addParticipatingTablesToKeyspace (keyspace tableSpecs : string)
| removeTargetTables
| validateWorkflowHasCompleted
| removeSourceTables (removalType : TableRemovalType)
| dropSourceDeniedTables
| dropTargetDeniedTables
| dropSourceShards
| dropSourceReverseVReplicationStreams
| deleteRoutingRules
| deleteShardRoutingRules
| deleteKeyspaceRoutingRules.

(** [Sw dryRun op] is a call of [op] on the [switcher] (or, for a dry
    run, on the [switcherDryRun], which only records what it would do). *)
Inductive Event : Type :=
| Sw (dryRun : bool) (op : SwitcherOp)
| buildTrafficSwitcher (targetKeyspace workflowName : string) (ignoreSourceKeyspace : bool)
| updateKeyspaceRoutingState (sourceKeyspace targetKeyspace : string)
| GetShardRoutingRules
| GetCellsWithTableReadsSwitched (sourceKeyspace targetKeyspace table : string) (tabletType : TabletType)
| GetRoutingRules
| GetCellsWithShardReadsSwitched (keyspace shard : string) (tabletType : TabletType)
| LockName (name action : string)
| UnlockName (name : string)
| GetWorkflows (keyspace workflow : string) (includeLogs : bool) (shards : list string)
| RefreshTabletsByShard (keyspace shard : string)
| GetCellInfoNames
| DoCellsHaveRdonlyTablets (cells : list string)
| checkJournals
| validate
| CheckKeyspaceLocked (keyspace : string)
| ValidateSrvKeyspace (keyspace cells : string)
| validateShardsHaveVReplicationPermissions (keyspace : string)
| areTabletsAvailableToStreamFrom (keyspace : string)
| getTargetSequenceMetadata
| BuildStreamMigrator (cancel : bool)
| executeLockTablesOnSource
| Sleep (d : Duration)
| gatherSourcePositions
| gatherPositions
| RebuildSrvVSchema
| stopWorkflowOnTargets
| buildTenantPredicate
| deleteTableDataOnTargets (batchSize : Z)
| DeleteVReplicationWorkflow (keyspace workflow : string) (shards : list string).

(** The events so far, oldest first. *)
Definition Trace := list Event.

(** A call ends by returning its results or by a run-time panic that
    unwinds the stack. *)
Inductive Outcome (R : Type) : Type :=
| Returned (r : R)
| Panicked (msg : string).
Arguments Returned {R} r. Arguments Panicked {R} msg.

(** The answers of the outside world.  Each answer may depend on all
    that happened before.  A function that returns [(value, error)] and
    lives outside server.go answers with [inl value] or [inr error]. *)
Record Env := {
  (* calls that return only an error *)
  errOf : Trace -> Event -> goerror;
  buildTrafficSwitcherOf : Trace -> string -> string -> bool -> trafficSwitcher + error;
  updateKeyspaceRoutingStateOf : Trace -> string -> string -> State -> State + error;
  (* the same call when it is handed a nil state *)
  updateKeyspaceRoutingStateNilOf : Trace -> string -> string -> Outcome goerror;
  shardRoutingRulesOf : Trace -> list ShardRoutingRule + error;
  cellsWithTableReadsSwitchedOf :
    Trace -> string -> string -> string -> TabletType -> (list string * list string) + error;
  routingRulesOf : Trace -> (string -> list string) + error;
  cellsWithShardReadsSwitchedOf :
    Trace -> string -> ShardInfo -> TabletType -> (list string * list string) + error;
  (* (res, err) of GetWorkflows; res may be nil *)
  getWorkflowsOf : Trace -> string -> string -> list string
                   -> option (list Workflow_) * goerror;
  (* (partial, partialDetails, err) of topotools.RefreshTabletsByShard *)
  refreshTabletsByShardOf : Trace -> ShardInfo -> bool * string * goerror;
  cellInfoNamesOf : Trace -> list string + error;
  rdonlyTabletsExistOf : Trace -> list string -> bool + error;
  (* (journalsExist, sourceWorkflows, err) of ts.checkJournals *)
  checkJournalsOf : Trace -> bool * list string * goerror;
  (* the number of entries of the map of ts.getTargetSequenceMetadata *)
  targetSequenceMetadataOf : Trace -> nat + error;
  stopStreamsOf : Trace -> list string * goerror;
  (* sw.logs(): nil, or the lines recorded so far *)
  logsOf : Trace -> bool -> option (list string);
  (* vx.CallbackContext: per tablet alias, the rows affected *)
  deleteWorkflowOf : Trace -> list (string * Z) + error;
  (* pure helpers of other packages *)
  DurationFromProto : option vttime_Duration -> Duration * bool * goerror;
  parseTabletTypes : list TabletType -> bool * bool * bool * goerror;
  defaultErrorHandler : string -> goerror -> option (list string) * goerror;
  (* topo.IsErrType(err, topo.NoNode) *)
  isNoNode : error -> bool;
  MakeStringTypeCSV : list TabletType -> string;
  State_String : State -> string;
  nowRFC822 : Trace -> string
}.

(** ** Go functions as state transformers with early return

    A call of a function whose results have type [R] ends with an
    [Outcome R].  A statement sequence of such a function either falls
    through with a value or ends the call. *)
Definition M (R A : Type) : Type := Trace -> (A + Outcome R) * Trace.

Definition pure {R A} (a : A) : M R A := fun t => (inl a, t).

Definition Return {R A} (r : R) : M R A := fun t => (inr (Returned r), t).

Definition panic {R A} (msg : string) : M R A := fun t => (inr (Panicked msg), t).

Definition bind {R A B} (c : M R A) (k : A -> M R B) : M R B :=
  fun t => match c t with
           | (inl a, t') => k a t'
           | (inr o, t') => (inr o, t')
           end.

(** A whole function body, whose last statement yields the results. *)
Definition body {R} (c : M R R) : Trace -> Outcome R * Trace :=
  fun t => match c t with
           | (inl r, t') => (Returned r, t')
           | (inr o, t') => (o, t')
           end.

(** A call of another function of the file; its panic goes on up. *)
Definition invoke {R A} (f : Trace -> Outcome A * Trace) : M R A :=
  fun t => match f t with
           | (Returned a, t') => (inl a, t')
           | (Panicked msg, t') => (inr (Panicked msg), t')
           end.

(** A call that leaves the file: the event is recorded, the answer is
    the one the world gives after the events so far. *)
Definition ask {R A} (answer : Trace -> A) (e : Event) : M R A :=
  fun t => (inl (answer t), (t ++ [e])%list).

(** [if cond { return r }]. *)
Definition returnIf {R} (cond : bool) (r : R) : M R unit :=
  if cond then Return r else pure tt.

(** [defer d(&results)] followed by the rest of the function: the rest
    runs to its end, then [d] runs; it sees the results and may change
    them (it does not when the results are unnamed). *)
Definition defer {R A} (d : Outcome R -> Trace -> Outcome R * Trace) (rest : M R R) : M R A :=
  fun t => let '(o, t1) := body rest t in
           let '(o', t2) := d o t1 in
           (inr o', t2).

Declare Scope go_scope.
Delimit Scope go_scope with go.
Notation "x <- c ;; k" := (bind c (fun x => k))
  (at level 61, c at next level, right associativity) : go_scope.
Notation "' pat <- c ;; k" := (bind c (fun x => match x with pat => k end))
  (at level 61, pat pattern, c at next level, right associativity) : go_scope.
Notation "c ;; k" := (bind c (fun _ => k))
  (at level 61, right associativity) : go_scope.

Local Open Scope go_scope.

(** Modelled from the spec: [ReverseWorkflowName] (utils.go is not among
    the sources): the reverse twin of [n] is [n_reverse], and the reverse
    of the reverse is [n] again. *)
Definition reverseSuffix : string := "_reverse".

Definition ReverseWorkflowName (workflow : string) : string :=
  if HasSuffix workflow reverseSuffix
  then substring 0 (String.length workflow - String.length reverseSuffix) workflow
  else workflow ++ reverseSuffix.

Definition VReplicationWorkflowType_eqb (a b : VReplicationWorkflowType) : bool :=
  match a, b with
  | VReplicationWorkflowType_Materialize, VReplicationWorkflowType_Materialize
  | VReplicationWorkflowType_MoveTables, VReplicationWorkflowType_MoveTables
  | VReplicationWorkflowType_CreateLookupIndex, VReplicationWorkflowType_CreateLookupIndex
  | VReplicationWorkflowType_Migrate, VReplicationWorkflowType_Migrate
  | VReplicationWorkflowType_Reshard, VReplicationWorkflowType_Reshard
  | VReplicationWorkflowType_OnlineDDL, VReplicationWorkflowType_OnlineDDL => true
  | _, _ => false
  end.

(** The [String()] methods of the two enumerations. *)
Definition VReplicationWorkflowType_name (a : VReplicationWorkflowType) : string :=
  match a with
  | VReplicationWorkflowType_Materialize => "Materialize"
  | VReplicationWorkflowType_MoveTables => "MoveTables"
  | VReplicationWorkflowType_CreateLookupIndex => "CreateLookupIndex"
  | VReplicationWorkflowType_Migrate => "Migrate"
  | VReplicationWorkflowType_Reshard => "Reshard"
  | VReplicationWorkflowType_OnlineDDL => "OnlineDDL"
  end.

Definition MigrationType_name (a : MigrationType) : string :=
  match a with
  | MigrationType_TABLES => "TABLES"
  | MigrationType_SHARDS => "SHARDS"
  end.

Definition MigrationType_eqb (a b : MigrationType) : bool :=
  match a, b with
  | MigrationType_TABLES, MigrationType_TABLES
  | MigrationType_SHARDS, MigrationType_SHARDS => true
  | _, _ => false
  end.

Section Server.
Variable env : Env.

(** ** [getWorkflowState] (server.go:415) *)

Definition StateResult : Type := option trafficSwitcher * option State * goerror.

(** The loop over the shard routing rules of a partial migration:
    [(ShardsAlreadySwitched, ShardsNotYetSwitched)]. *)
Fixpoint partitionShardRules (sourceKeyspace targetKeyspace : string)
         (rules : list ShardRoutingRule) (already notYet : list string)
  : list string * list string :=
  match rules with
  | [] => (already, notYet)
  | rule :: rest =>
      if String.eqb (ToKeyspace rule) sourceKeyspace then
        partitionShardRules sourceKeyspace targetKeyspace rest already (notYet ++ [Shard rule])
      else if String.eqb (ToKeyspace rule) targetKeyspace then
        partitionShardRules sourceKeyspace targetKeyspace rest (already ++ [Shard rule]) notYet
      else
        partitionShardRules sourceKeyspace targetKeyspace rest already notYet
  end.

(** The loop over the tables: a primary rule that points elsewhere
    means that writes have been switched. *)
Definition primaryRuleSwitched (globalRules : string -> list string)
           (sourceKeyspace : string) (tables : list string) : bool :=
  existsb (fun table =>
             let ruleKey := sourceKeyspace ++ "." ++ table in
             match globalRules ruleKey with
             | [] => false
             | rr0 :: _ => negb (String.eqb rr0 ruleKey)
             end) tables.

Definition getWorkflowState (targetKeyspace workflowName : string)
           (ignoreSourceKeyspace : bool) : Trace -> Outcome StateResult * Trace :=
  body (
    built <- ask (fun t => buildTrafficSwitcherOf env t targetKeyspace workflowName
                              ignoreSourceKeyspace)
                 (buildTrafficSwitcher targetKeyspace workflowName ignoreSourceKeyspace) ;;
    match built with
    | inr err => Return (None, None, Some err)
    | inl ts =>
        let mk (workflowType : string) (isReverse writes : bool)
               (replica replicaNot rdonly rdonlyNot already notYet : list string) : State :=
          {| Workflow := workflowName;
             SourceKeyspace := SourceKeyspaceName ts;
             TargetKeyspace := targetKeyspace;
             WorkflowType := workflowType;
             ReplicaCellsSwitched := replica; ReplicaCellsNotSwitched := replicaNot;
             RdonlyCellsSwitched := rdonly; RdonlyCellsNotSwitched := rdonlyNot;
             WritesSwitched := writes;
             IsPartialMigration_ := isPartialMigration ts;
             ShardsAlreadySwitched := already; ShardsNotYetSwitched := notYet;
             IsReverse := isReverse |} in
        returnIf (VReplicationWorkflowType_eqb (workflowType ts)
                    VReplicationWorkflowType_CreateLookupIndex)
                 (Some ts, Some (mk "" false false [] [] [] [] [] []), None) ;;
        (* We reverse writes by using the source_keyspace.workflowname_reverse
           workflow spec: flip the source and target keyspaces. *)
        let isReverse := HasSuffix workflowName "_reverse" in
        let sourceKeyspace := if isReverse then targetKeyspace else SourceKeyspaceName ts in
        let targetKeyspace' := if isReverse then SourceKeyspaceName ts else targetKeyspace in
        let workflowName' := if isReverse then ReverseWorkflowName workflowName
                             else workflowName in
        state <-
          (if MigrationType_eqb (MigrationType_ ts) MigrationType_TABLES then
             match Tables ts with
             | [] =>
                 Return (None, None,
                         Errorf Code_FAILED_PRECONDITION
                           ("no tables in workflow " ++ targetKeyspace' ++ "." ++ workflowName'))
             | table :: _ =>
                 let state := mk TypeMoveTables isReverse false [] [] [] [] [] [] in
                 if IsMultiTenantMigration ts then
                   (* Deduce which traffic has been switched from the
                      current keyspace routing rules. *)
                   r <- ask (fun t => updateKeyspaceRoutingStateOf env t sourceKeyspace
                                        targetKeyspace' state)
                            (updateKeyspaceRoutingState sourceKeyspace targetKeyspace') ;;
                   match r with
                   | inr err => Return (None, None, Some err)
                   | inl state' => pure state'
                   end
                 else if isPartialMigration ts then
                   r <- ask (shardRoutingRulesOf env) GetShardRoutingRules ;;
                   match r with
                   | inr err => Return (None, None, Some err)
                   | inl rules =>
                       let '(already, notYet) :=
                         partitionShardRules sourceKeyspace targetKeyspace' rules [] [] in
                       pure (mk TypeMoveTables isReverse false [] [] [] [] already notYet)
                   end
                 else
                   r1 <- ask (fun t => cellsWithTableReadsSwitchedOf env t sourceKeyspace
                                         targetKeyspace' table TabletType_RDONLY)
                             (GetCellsWithTableReadsSwitched sourceKeyspace targetKeyspace'
                                table TabletType_RDONLY) ;;
                   match r1 with
                   | inr err => Return (None, None, Some err)
                   | inl (rdonly, rdonlyNot) =>
                       r2 <- ask (fun t => cellsWithTableReadsSwitchedOf env t sourceKeyspace
                                             targetKeyspace' table TabletType_REPLICA)
                                 (GetCellsWithTableReadsSwitched sourceKeyspace targetKeyspace'
                                    table TabletType_REPLICA) ;;
                       match r2 with
                       | inr err => Return (None, None, Some err)
                       | inl (replica, replicaNot) =>
                           r3 <- ask (routingRulesOf env) GetRoutingRules ;;
                           match r3 with
                           | inr err => Return (None, None, Some err)
                           | inl globalRules =>
                               pure (mk TypeMoveTables isReverse
                                       (primaryRuleSwitched globalRules sourceKeyspace (Tables ts))
                                       replica replicaNot rdonly rdonlyNot [] [])
                           end
                       end
                   end
             end
           else
             (* We assume a consistent state, so only choose one shard. *)
             match (if isReverse then TargetShards ts else SourceShards ts) with
             | [] => panic "index out of range [0] with length 0"
             | shard :: _ =>
                 r1 <- ask (fun t => cellsWithShardReadsSwitchedOf env t targetKeyspace' shard
                                       TabletType_RDONLY)
                           (GetCellsWithShardReadsSwitched targetKeyspace' (si_ShardName shard)
                              TabletType_RDONLY) ;;
                 match r1 with
                 | inr err => Return (None, None, Some err)
                 | inl (rdonly, rdonlyNot) =>
                     r2 <- ask (fun t => cellsWithShardReadsSwitchedOf env t targetKeyspace' shard
                                           TabletType_REPLICA)
                               (GetCellsWithShardReadsSwitched targetKeyspace' (si_ShardName shard)
                                  TabletType_REPLICA) ;;
                     match r2 with
                     | inr err => Return (None, None, Some err)
                     | inl (replica, replicaNot) =>
                         pure (mk TypeReshard isReverse (negb (IsPrimaryServing shard))
                                 replica replicaNot rdonly rdonlyNot [] [])
                     end
                 end
             end) ;;
        let state :=
          if VReplicationWorkflowType_eqb (workflowType ts) VReplicationWorkflowType_Migrate
          then {| Workflow := Workflow state; SourceKeyspace := SourceKeyspace state;
                  TargetKeyspace := TargetKeyspace state; WorkflowType := TypeMigrate;
                  ReplicaCellsSwitched := ReplicaCellsSwitched state;
                  ReplicaCellsNotSwitched := ReplicaCellsNotSwitched state;
                  RdonlyCellsSwitched := RdonlyCellsSwitched state;
                  RdonlyCellsNotSwitched := RdonlyCellsNotSwitched state;
                  WritesSwitched := WritesSwitched state;
                  IsPartialMigration_ := IsPartialMigration_ state;
                  ShardsAlreadySwitched := ShardsAlreadySwitched state;
                  ShardsNotYetSwitched := ShardsNotYetSwitched state;
                  IsReverse := IsReverse state |}
          else state in
        pure (Some ts, Some state, None)
    end).

(** ** [GetWorkflow] (server.go:347) *)

Definition GetWorkflow (keyspace workflow : string) (includeLogs : bool)
           (shards : list string) : Trace -> Outcome (option Workflow_ * goerror) * Trace :=
  body (
    '(res, err) <- ask (fun t => getWorkflowsOf env t keyspace workflow shards)
                       (GetWorkflows keyspace workflow includeLogs shards) ;;
    match err with
    | Some e => Return (None, Some e)
    | None =>
        match res with
        | None =>
            Return (None, Errorf Code_NOT_FOUND
                            (workflow ++ " workflow not found in the " ++ keyspace ++ " keyspace"))
        | Some [wf] => pure (Some wf, None)
        | Some workflows =>
            Return (None, Errorf Code_INTERNAL
                            ("unexpected number of workflows returned for " ++ keyspace ++ "."
                               ++ workflow ++ "; expected 1, got "
                               ++ Itoa (Z.of_nat (List.length workflows))))
        end
    end).

(** ** [canSwitch] (server.go:3306) *)

(** The inner loop over the streams of one shard: the reason found,
    or the empty string. *)
Fixpoint streamsReason (streams : list Workflow_Stream) : string :=
  match streams with
  | [] => ""
  | st :: rest =>
      if String.eqb (Message st) Frozen then cannotSwitchFrozen
      else if String.eqb (Stream_State st) "Copying" then cannotSwitchCopyIncomplete
      else if String.eqb (Stream_State st) "Error" then cannotSwitchError
      else streamsReason rest
  end.

(** The outer loop over [wf.ShardStreams]. *)
Fixpoint shardStreamsReason (shardStreams : list (string * Workflow_ShardStream)) : string :=
  match shardStreams with
  | [] => ""
  | (_, stream) :: rest =>
      let reason := streamsReason (Streams stream) in
      if String.eqb reason "" then shardStreamsReason rest else reason
  end.

(** The closure [refreshTablets]: what it appends to [refreshErrors].
    The two goroutines that run it, for the source and for the target
    shards, are run here one after the other. *)
Fixpoint refreshTablets {R} (ts : trafficSwitcher) (shards : list ShardInfo) (stype : string)
         (refreshErrors : string) : M R string :=
  match shards with
  | [] => pure refreshErrors
  | si :: rest =>
      '(partial, partialDetails, err) <-
        ask (fun t => refreshTabletsByShardOf env t si)
            (RefreshTabletsByShard (si_Keyspace si) (si_ShardName si)) ;;
      let failed := match err with Some _ => true | None => partial end in
      if failed then
        let msg := "failed to successfully refresh all tablets in the " ++ si_Keyspace si ++ "/"
                     ++ si_ShardName si ++ " " ++ stype ++ " shard (" ++ show err ++ "):"
                     ++ String (ascii_of_nat 10) ("  " ++ partialDetails
                     ++ String (ascii_of_nat 10) "") in
        if partial && force ts
        then refreshTablets ts rest stype refreshErrors
        else refreshTablets ts rest stype (refreshErrors ++ msg)
      else refreshTablets ts rest stype refreshErrors
  end.

Definition canSwitch (ts : trafficSwitcher) (maxAllowedReplLagSecs : Z)
           (shards : list string) : Trace -> Outcome (string * goerror) * Trace :=
  body (
    '(wf, err) <- invoke (GetWorkflow (targetKeyspace ts) (ts_workflow ts) false shards) ;;
    match wf, err with
    | _, Some e => Return ("", Some e)
    | None, None => panic "invalid memory address or nil pointer dereference"
    | Some wf, None =>
        returnIf (maxAllowedReplLagSecs <? MaxVReplicationTransactionLag wf)
                 (cannotSwitchHighLag (MaxVReplicationTransactionLag wf) maxAllowedReplLagSecs,
                  None) ;;
        let reason := shardStreamsReason (ShardStreams wf) in
        returnIf (negb (String.eqb reason "")) (reason, None) ;;
        (* Ensure that the tablets on both sides are in good shape. *)
        refreshErrors <- refreshTablets ts (SourceShards ts) "source" "" ;;
        refreshErrors <- refreshTablets ts (TargetShards ts) "target" refreshErrors ;;
        returnIf (0 <? String.length refreshErrors)%nat
                 (cannotSwitchFailedTabletRefresh refreshErrors, None) ;;
        pure ("", None)
    end).

(** ** [switchReads] (server.go:2860) *)

Definition ReadsResult : Type := option (list string) * goerror.

(** The closure [confirmKeyspaceLocksHeld] of [switchReads]. *)
Definition confirmSourceLockHeld {R} (dryRun : bool) (ts : trafficSwitcher) : M R goerror :=
  if dryRun then pure None (* We don't actually take locks *)
  else
    err <- ask (fun t => errOf env t (CheckKeyspaceLocked (SourceKeyspaceName ts)))
               (CheckKeyspaceLocked (SourceKeyspaceName ts)) ;;
    pure (Wrapf err (SourceKeyspaceName ts ++ " keyspace lock was lost")).

(** A deferred [unlock(&err)] in a function with unnamed results: the
    lock is released, the results stay as they are. *)
Definition unlockKeyspaceAfter {R} (dryRun : bool) (keyspace : string)
  : Outcome R -> Trace -> Outcome R * Trace :=
  fun o t => (o, (t ++ [Sw dryRun (unlockKeyspace keyspace)])%list).

Definition switchReads (req : WorkflowSwitchTrafficRequest.t) (ts : trafficSwitcher)
           (state : State) (rebuildSrvVSchema : bool) (direction : TrafficSwitchDirection)
  : Trace -> Outcome ReadsResult * Trace :=
  let dryRun := WorkflowSwitchTrafficRequest.DryRun req in
  let sw (op : SwitcherOp) : M ReadsResult goerror :=
    ask (fun t => errOf env t (Sw dryRun op)) (Sw dryRun op) in
  body (
    (* When we are switching all traffic we also get the primary tablet
       type, which we need to filter out for switching reads. *)
    let roTabletTypes :=
      filter (fun tabletType => negb (TabletType_eqb tabletType TabletType_PRIMARY))
             (WorkflowSwitchTrafficRequest.TabletTypes req) in
    let roTypesToSwitchStr := MakeStringTypeCSV env roTabletTypes in
    let switchReplica := existsb (TabletType_eqb TabletType_REPLICA) roTabletTypes in
    let switchRdonly := existsb (TabletType_eqb TabletType_RDONLY) roTabletTypes in
    let cellsStr := Join (WorkflowSwitchTrafficRequest.Cells req) "," in
    returnIf (negb switchReplica && negb switchRdonly)
      (defaultErrorHandler env "invalid tablet types"
         (Errorf Code_INVALID_ARGUMENT
            ("tablet types must be REPLICA or RDONLY: " ++ roTypesToSwitchStr))) ;;
    (* For partial or multi-tenant migrations, traffic for all tablet
       types is expected to be switched at once.  [slices.Sort] sorts
       the cells of the request in place. *)
    '(trafficSwitchingIsAllOrNothing, cells) <-
      (if isPartialMigration ts then
         pure (true, WorkflowSwitchTrafficRequest.Cells req)
       else if MigrationType_eqb (MigrationType_ ts) MigrationType_TABLES
               && IsMultiTenantMigration ts then
         r <- ask (cellInfoNamesOf env) GetCellInfoNames ;;
         match r with
         | inr err => Return (None, Some err)
         | inl allCells =>
             match WorkflowSwitchTrafficRequest.Cells req with
             | [] => pure (false, [])
             | reqCells =>
                 let reqCells := Sort reqCells in
                 let allCells := Sort allCells in
                 returnIf (negb (Equal reqCells allCells))
                   (defaultErrorHandler env "invalid request"
                      (Errorf Code_INVALID_ARGUMENT
                         ("requesting switch of read traffic for multi-tenant migrations must include all cells; all cells: "
                            ++ Join allCells "," ++ ", requested cells: "
                            ++ Join reqCells ","))) ;;
                 pure (false, reqCells)
             end
         end
       else pure (false, WorkflowSwitchTrafficRequest.Cells req)) ;;
    returnIf (negb trafficSwitchingIsAllOrNothing
              && (direction =? DirectionBackward) && switchReplica
              && (List.length (ReplicaCellsSwitched state) =? 0)%nat)
      (defaultErrorHandler env "invalid request"
         (Errorf Code_FAILED_PRECONDITION
            "requesting reversal of read traffic for REPLICAs but REPLICA reads have not been switched")) ;;
    returnIf (negb trafficSwitchingIsAllOrNothing
              && (direction =? DirectionBackward) && switchRdonly
              && (List.length (RdonlyCellsSwitched state) =? 0)%nat)
      (defaultErrorHandler env "invalid request"
         (Errorf Code_FAILED_PRECONDITION
            "requesting reversal of read traffic for RDONLYs but RDONLY reads have not been switched")) ;;
    (* If there are no rdonly tablets in the cells ask to switch rdonly
       tablets as well so that routing rules are updated for rdonly. *)
    roTabletTypes <-
      (if switchReplica && negb switchRdonly then
         r <- ask (fun t => rdonlyTabletsExistOf env t cells) (DoCellsHaveRdonlyTablets cells) ;;
         match r with
         | inr err => Return (None, Some err)
         | inl rdonlyTabletsExist =>
             pure (if rdonlyTabletsExist then roTabletTypes
                   else (roTabletTypes ++ [TabletType_RDONLY])%list)
         end
       else pure roTabletTypes) ;;
    '(journalsExist, _, err) <- ask (checkJournalsOf env) checkJournals ;;
    returnIf (match err with Some _ => negb (WorkflowSwitchTrafficRequest.Force req)
                        | None => false end)
      (defaultErrorHandler env
         ("failed to read journal in the " ++ SourceKeyspaceName ts ++ " keyspace") err) ;;
    err <- ask (fun t => errOf env t validate) validate ;;
    returnIf (notNil err)
      (defaultErrorHandler env "workflow validation failed" err) ;;
    (* For switching reads, locking the source keyspace is sufficient. *)
    let '(ksLockTTL, set, err) :=
      DurationFromProto env (WorkflowSwitchTrafficRequest.Timeout req) in
    returnIf (notNil err)
      (None, Wrapf err "unable to parse Timeout into a valid duration") ;;
    let ksLockTTL := if set then ksLockTTL else DefaultTimeout in
    lockErr <- sw (lockKeyspace (SourceKeyspaceName ts) "SwitchReads" (Some ksLockTTL)) ;;
    returnIf (notNil lockErr)
      (defaultErrorHandler env
         ("failed to lock the " ++ SourceKeyspaceName ts ++ " keyspace") lockErr) ;;
    defer (unlockKeyspaceAfter dryRun (SourceKeyspaceName ts)) (
      (* Remove mirror rules for the specified tablet types. *)
      err <- sw (mirrorTableTraffic roTabletTypes 0) ;;
      returnIf (notNil err)
        (defaultErrorHandler env
           ("failed to remove mirror rules from source keyspace " ++ SourceKeyspaceName ts
              ++ " to target keyspace " ++ TargetKeyspaceName ts ++ ", workflow "
              ++ WorkflowName ts ++ ", for read-only tablet types") err) ;;
      if MigrationType_eqb (MigrationType_ ts) MigrationType_TABLES then
        (if IsMultiTenantMigration ts then
           err <- sw (switchKeyspaceReads roTabletTypes) ;;
           returnIf (notNil err)
             (defaultErrorHandler env
                ("failed to switch read traffic, from source keyspace " ++ SourceKeyspaceName ts
                   ++ " to target keyspace " ++ TargetKeyspaceName ts ++ ", workflow "
                   ++ WorkflowName ts) err)
         else if isPartialMigration ts then
           (* Partial migration, skipping switchTableReads as traffic is
              all or nothing per shard. *)
           pure tt
         else
           err <- sw (switchTableReads cells roTabletTypes rebuildSrvVSchema direction) ;;
           returnIf (notNil err)
             (defaultErrorHandler env "failed to switch read traffic for the tables" err)) ;;
        logs <- (fun t => (inl (logsOf env t dryRun), t)) ;;
        pure (logs, None)
      else
        err <- confirmSourceLockHeld dryRun ts ;;
        returnIf (notNil err)
          (defaultErrorHandler env "locks were lost" err) ;;
        err <- sw (switchShardReads cells roTabletTypes direction) ;;
        returnIf (notNil err)
          (defaultErrorHandler env "failed to switch read traffic for the shards" err) ;;
        err <- confirmSourceLockHeld dryRun ts ;;
        returnIf (notNil err)
          (defaultErrorHandler env "locks were lost" err) ;;
        err <- ask (fun t => errOf env t (ValidateSrvKeyspace (targetKeyspace ts) cellsStr))
                   (ValidateSrvKeyspace (targetKeyspace ts) cellsStr) ;;
        returnIf (notNil err)
          (defaultErrorHandler env "failed to validate SrvKeyspace record"
             (Wrapf err ("after switching shard reads, found SrvKeyspace for "
                           ++ targetKeyspace ts ++ " is corrupt in cell " ++ cellsStr))) ;;
        logs <- (fun t => (inl (logsOf env t dryRun), t)) ;;
        pure (logs, None))).

(** ** [switchWrites] (server.go:3033) *)

Definition WritesResult : Type := Z * option (list string) * goerror.

(** Modelled from the spec: the unlock closure that [lockKeyspace]
    returns (go/vt/topo is not among the sources).  "Closure is always
    invoked, receiving the in-flight error so lock release cannot mask
    it": an error already in the named result stays, otherwise the
    error of the release, if any, becomes the result. *)
Definition unlockKeyspaceNamed (dryRun : bool) (keyspace : string)
  : Outcome WritesResult -> Trace -> Outcome WritesResult * Trace :=
  fun o t =>
    let unlockErr := errOf env t (Sw dryRun (unlockKeyspace keyspace)) in
    let t' := (t ++ [Sw dryRun (unlockKeyspace keyspace)])%list in
    match o with
    | Returned (journalID, dryRunResults, None) =>
        (Returned (journalID, dryRunResults, unlockErr), t')
    | _ => (o, t')
    end.

(** The closure [handleError]. *)
Definition handleError (message : string) (err : goerror) : WritesResult :=
  (0, None, Wrap err message).

(** The closure [confirmKeyspaceLocksHeld] of [switchWrites]. *)
Definition confirmKeyspaceLocksHeld {R} (dryRun : bool) (ts : trafficSwitcher) : M R goerror :=
  if dryRun then pure None (* We don't actually take locks *)
  else
    err <- ask (fun t => errOf env t (CheckKeyspaceLocked (SourceKeyspaceName ts)))
               (CheckKeyspaceLocked (SourceKeyspaceName ts)) ;;
    if notNil err
    then pure (Wrapf err (SourceKeyspaceName ts ++ " keyspace lock was lost"))
    else
      err <- ask (fun t => errOf env t (CheckKeyspaceLocked (TargetKeyspaceName ts)))
                 (CheckKeyspaceLocked (TargetKeyspaceName ts)) ;;
      pure (Wrapf err (TargetKeyspaceName ts ++ " keyspace lock was lost")).

(** [if cerr := sw.cancelMigration(ctx, sm); cerr != nil
     { err = vterrors.Errorf(CANCELED, "%v\n\n%v", err, cerr) }]. *)
Definition cancelAfter {R} (dryRun : bool) (err : goerror) : M R goerror :=
  cerr <- ask (fun t => errOf env t (Sw dryRun cancelMigration)) (Sw dryRun cancelMigration) ;;
  pure (match cerr with
        | Some _ =>
            Errorf Code_CANCELED
              (show err ++ String (ascii_of_nat 10) (String (ascii_of_nat 10) (show cerr)))
        | None => err
        end).

(** The LOCK TABLES cycles, [cnt] running from 1 to [lockTablesCycles];
    [n] cycles are left. *)
Fixpoint lockTablesLoop (dryRun : bool) (n : nat) (cnt : Z) : M WritesResult unit :=
  match n with
  | O => pure tt
  | S n' =>
      err <- ask (fun t => errOf env t executeLockTablesOnSource) executeLockTablesOnSource ;;
      (if notNil err then
         err <- cancelAfter dryRun err ;;
         Return (handleError ("failed to execute LOCK TABLES (attempt " ++ Itoa cnt ++ " of "
                                ++ Itoa lockTablesCycles ++ ") on sources") err)
       else pure tt) ;;
      (* No need to UNLOCK the tables as the connection was closed. *)
      ask (fun _ => tt) (Sleep lockTablesCycleDelay) ;;
      lockTablesLoop dryRun n' (cnt + 1)
  end.

Definition switchWrites (req : WorkflowSwitchTrafficRequest.t) (ts : trafficSwitcher)
           (waitTimeout : Duration) (cancel : bool)
  : Trace -> Outcome WritesResult * Trace :=
  let dryRun := WorkflowSwitchTrafficRequest.DryRun req in
  let sw (op : SwitcherOp) : M WritesResult goerror :=
    ask (fun t => errOf env t (Sw dryRun op)) (Sw dryRun op) in
  let logs : M WritesResult (option (list string)) :=
    fun t => (inl (logsOf env t dryRun), t) in
  let call (e : Event) : M WritesResult goerror := ask (fun t => errOf env t e) e in
  (* [if err := step; err != nil { return handleError(message, err) }] *)
  let step (c : M WritesResult goerror) (message : string) : M WritesResult unit :=
    err <- c ;; returnIf (notNil err) (handleError message err) in
  (* the same with the migration cancelled first *)
  let stepOrCancel (c : M WritesResult goerror) (message : string) : M WritesResult unit :=
    err <- c ;;
    if notNil err then err <- cancelAfter dryRun err ;; Return (handleError message err)
    else pure tt in
  body (
    (if frozen ts then
       (* Writes have already been switched, nothing to do here. *)
       l <- logs ;; Return (0, l, None)
     else pure tt) ;;
    step (call validate) "workflow validation failed" ;;
    (if WorkflowSwitchTrafficRequest.EnableReverseReplication req then
       step (call (validateShardsHaveVReplicationPermissions (SourceKeyspaceName ts)))
            ("primary tablets are not able to fully manage the reverse vreplication workflow in the "
               ++ SourceKeyspaceName ts ++ " keyspace") ;;
       step (call (areTabletsAvailableToStreamFrom (TargetKeyspaceName ts)))
            ("no tablets were available to stream from in the " ++ TargetKeyspaceName ts
               ++ " keyspace")
     else pure tt) ;;
    (* We need to hold the keyspace locks longer than waitTimeout*X. *)
    let ksLockTTL := waitTimeout * 3 in
    (* Need to lock both source and target keyspaces. *)
    step (sw (lockKeyspace (SourceKeyspaceName ts) "SwitchWrites" (Some ksLockTTL)))
         ("failed to lock the " ++ SourceKeyspaceName ts ++ " keyspace") ;;
    defer (unlockKeyspaceNamed dryRun (SourceKeyspaceName ts)) (
    let locked : M WritesResult WritesResult :=
      (* Remove mirror rules for the primary tablet type. *)
      step (sw (mirrorTableTraffic [TabletType_PRIMARY] 0))
           ("failed to remove mirror rules from source keyspace " ++ SourceKeyspaceName ts
              ++ " to target keyspace " ++ TargetKeyspaceName ts ++ ", workflow "
              ++ WorkflowName ts ++ ", for primary tablet type") ;;
      (* Find out if the target is using any sequence tables. *)
      sequenceMetadata <-
        (if WorkflowSwitchTrafficRequest.InitializeTargetSequences req
            && VReplicationWorkflowType_eqb (workflowType ts) VReplicationWorkflowType_MoveTables
            && sourceUnsharded ts then
           r <- ask (targetSequenceMetadataOf env) getTargetSequenceMetadata ;;
           match r with
           | inr err =>
               Return (handleError ("failed to get the sequence information in the "
                                      ++ TargetKeyspaceName ts ++ " keyspace") (Some err))
           | inl n => pure n
           end
         else pure O) ;;
      (* If no journals exist, sourceWorkflows will be initialized by
         sm.MigrateStreams. *)
      '(journalsExist, sourceWorkflows, err) <- ask (checkJournalsOf env) checkJournals ;;
      returnIf (notNil err)
        (handleError ("failed to read journal in the " ++ SourceKeyspaceName ts ++ " keyspace")
           err) ;;
      sourceWorkflows <-
        (if negb journalsExist then
           (* No previous journals were found. Proceeding normally. *)
           step (call (BuildStreamMigrator cancel)) "failed to migrate the workflow streams" ;;
           (if cancel then
              err <- cancelAfter dryRun None ;;
              l <- logs ;;
              Return (0, l, err)
            else pure tt) ;;
           (* We stop writes on the source before stopping the source streams. *)
           stepOrCancel (sw stopSourceWrites)
             ("failed to stop writes in the " ++ SourceKeyspaceName ts ++ " keyspace") ;;
           '(sourceWorkflows, err) <- ask (stopStreamsOf env) (Sw dryRun stopStreams) ;;
           (if notNil err then
              err <- cancelAfter dryRun err ;;
              Return (handleError ("failed to stop the workflow streams in the "
                                     ++ SourceKeyspaceName ts ++ " keyspace") err)
            else pure tt) ;;
           (if MigrationType_eqb (MigrationType_ ts) MigrationType_TABLES then
              (* Doing this twice with a pause in-between to catch any
                 writes that may have raced in. *)
              lockTablesLoop dryRun (Z.to_nat lockTablesCycles) 1
            else pure tt) ;;
           (* Get the source positions now that writes are stopped. *)
           step (call gatherSourcePositions)
                "failed to gather replication positions on migration sources" ;;
           step (confirmKeyspaceLocksHeld dryRun ts) "locks were lost" ;;
           stepOrCancel (sw (waitForCatchup waitTimeout))
             "failed to sync up replication between the source and target" ;;
           step (confirmKeyspaceLocksHeld dryRun ts) "locks were lost" ;;
           stepOrCancel (sw migrateStreams) "failed to migrate the workflow streams" ;;
           step (confirmKeyspaceLocksHeld dryRun ts) "locks were lost" ;;
           stepOrCancel (sw resetSequences) "failed to reset the sequences" ;;
           step (confirmKeyspaceLocksHeld dryRun ts) "locks were lost" ;;
           stepOrCancel (sw createReverseVReplication)
             "failed to create the reverse vreplication streams" ;;
           step (confirmKeyspaceLocksHeld dryRun ts) "locks were lost" ;;
           (* Initialize any target sequences, if there are any, before
              allowing new writes. *)
           (if WorkflowSwitchTrafficRequest.InitializeTargetSequences req
               && (0 <? sequenceMetadata)%nat then
              stepOrCancel (sw initializeTargetSequences)
                ("failed to initialize the sequences used in the " ++ TargetKeyspaceName ts
                   ++ " keyspace")
            else pure tt) ;;
           pure sourceWorkflows
         else
           returnIf cancel
             (handleError "invalid cancel"
                (Errorf Code_FAILED_PRECONDITION
                   "traffic switching has reached the point of no return, cannot cancel")) ;;
           (* Journals were found. Completing the left over steps.
              Need to gather positions in case all journals were not created. *)
           step (call gatherPositions) "failed to gather replication positions" ;;
           pure sourceWorkflows) ;;
      (* This is the point of no return. Once a journal is created,
         traffic can be redirected to target shards. *)
      step (confirmKeyspaceLocksHeld dryRun ts) "locks were lost" ;;
      step (sw (createJournals sourceWorkflows)) "failed to create the journal" ;;
      step (sw allowTargetWrites)
           ("failed to allow writes in the " ++ TargetKeyspaceName ts ++ " keyspace") ;;
      step (sw changeRouting) "failed to update the routing rules" ;;
      step (sw (streamMigraterfinalize sourceWorkflows)) "failed to finalize the traffic switch" ;;
      (if WorkflowSwitchTrafficRequest.EnableReverseReplication req then
         step (sw startReverseVReplication) "failed to start the reverse workflow"
       else pure tt) ;;
      step (sw freezeTargetVReplication)
           ("failed to freeze the workflow in the " ++ TargetKeyspaceName ts ++ " keyspace") ;;
      l <- logs ;;
      pure (id ts, l, None) in
    if negb (String.eqb (TargetKeyspaceName ts) (SourceKeyspaceName ts)) then
      step (sw (lockKeyspace (TargetKeyspaceName ts) "SwitchWrites" (Some ksLockTTL)))
           ("failed to lock the " ++ TargetKeyspaceName ts ++ " keyspace") ;;
      defer (unlockKeyspaceNamed dryRun (TargetKeyspaceName ts)) locked
    else locked)).

(** ** [WorkflowSwitchTraffic] (server.go:2681) *)

Definition SwitchResult : Type := option WorkflowSwitchTrafficResponse.t * goerror.

(** The local variables that are live when the workflow lock is
    taken (line 2770). *)
Record SwitchLocals := {
  l_ts : trafficSwitcher;
  l_startState : State;
  l_direction : TrafficSwitchDirection;
  l_timeout : Duration;
  l_maxReplicationLagAllowed : Duration;
  l_switchReplica : bool;
  l_switchRdonly : bool;
  l_switchPrimary : bool;
  l_writesAlreadySwitched : bool
}.

(** A [(ts, state, err)] triple of [getWorkflowState] with a nil error
    has both pointers set. *)
Definition stateOrReturn {R} (r : StateResult) (onErr : goerror -> R)
  : M R (trafficSwitcher * State) :=
  match r with
  | (_, _, Some e) => Return (onErr (Some e))
  | (Some ts, Some state, None) => pure (ts, state)
  | (_, _, None) => panic "invalid memory address or nil pointer dereference"
  end.

(** Lines 2698-2767: the request is parsed, the state of the workflow
    is fetched and the direction is settled. *)
Definition switchTrafficPrelude (req : WorkflowSwitchTrafficRequest.t)
  : M SwitchResult SwitchLocals :=
  let '(timeout, set, err) := DurationFromProto env (WorkflowSwitchTrafficRequest.Timeout req) in
  returnIf (notNil err) (None, Wrapf err "unable to parse Timeout into a valid duration") ;;
  let timeout := if set then timeout else DefaultTimeout in
  (* We enforce the 1 second minimum as some things that use it, such
     as Etcd, only takes a seconds value. *)
  returnIf (Qltb (Seconds timeout) 1) (None, Wrap err "timeout must be at least 1 second") ;;
  let '(maxReplicationLagAllowed, set, err) :=
    DurationFromProto env (WorkflowSwitchTrafficRequest.MaxReplicationLagAllowed req) in
  returnIf (notNil err)
    (None, Wrapf err "unable to parse MaxReplicationLagAllowed into a valid duration") ;;
  let maxReplicationLagAllowed := if set then maxReplicationLagAllowed else DefaultTimeout in
  let direction : TrafficSwitchDirection := WorkflowSwitchTrafficRequest.Direction req in
  let '(switchReplica, switchRdonly, switchPrimary, err) :=
    parseTabletTypes env (WorkflowSwitchTrafficRequest.TabletTypes req) in
  returnIf (notNil err) (None, err) ;;
  r <- invoke (getWorkflowState (WorkflowSwitchTrafficRequest.Keyspace req)
                 (WorkflowSwitchTrafficRequest.Workflow req) false) ;;
  '(ts, startState) <- stateOrReturn r (fun err => (None, err)) ;;
  returnIf (String.eqb (WorkflowType startState) TypeMigrate)
    (None, Errorf Code_INVALID_ARGUMENT "invalid action for Migrate workflow: SwitchTraffic") ;;
  startState <-
    (if IsMultiTenantMigration ts then
       (* Multi-tenant migrations use keyspace routing rules, so we
          need to update the state using them. *)
       r <- ask (fun t => updateKeyspaceRoutingStateOf env t (sourceKeyspace ts)
                            (targetKeyspace ts) startState)
                (updateKeyspaceRoutingState (sourceKeyspace ts) (targetKeyspace ts)) ;;
       match r with
       | inr err =>
           Return (None, Wrap (Some err)
                           "failed to update multi-tenant workflow state using keyspace routing rules")
       | inl startState' => pure startState'
       end
     else pure startState) ;;
  (* We need this to know when there isn't a (non-FROZEN) reverse
     workflow to use. *)
  let onlySwitchingReads := negb (WritesSwitched startState) && negb switchPrimary in
  (* We need this for idempotency and to avoid unnecessary work and
     resulting risk. *)
  let writesAlreadySwitched :=
    ((direction =? DirectionForward) && WritesSwitched startState)
    || ((direction =? DirectionBackward) && negb (WritesSwitched startState)) in
  '(ts, startState, direction) <-
    (if (direction =? DirectionBackward) && negb onlySwitchingReads then
       returnIf (IsMultiTenantMigration ts)
         (None, Errorf Code_INVALID_ARGUMENT
                  "cannot reverse write traffic for multi-tenant migrations") ;;
       (* The main workflow is FROZEN and the reverse workflow exists:
          move forward from the reverse workflow's perspective. *)
       r <- invoke (getWorkflowState (sourceKeyspace ts) (reverseWorkflow ts) false) ;;
       '(ts, startState) <- stateOrReturn r (fun err => (None, err)) ;;
       pure (ts, startState, DirectionForward)
     else pure (ts, startState, direction)) ;;
  pure {| l_ts := ts; l_startState := startState; l_direction := direction;
          l_timeout := timeout; l_maxReplicationLagAllowed := maxReplicationLagAllowed;
          l_switchReplica := switchReplica; l_switchRdonly := switchRdonly;
          l_switchPrimary := switchPrimary;
          l_writesAlreadySwitched := writesAlreadySwitched |}.

(** Lines 2780-2792: the validation gate. *)
Definition switchTrafficGate (req : WorkflowSwitchTrafficRequest.t) (ts : trafficSwitcher)
           (L : SwitchLocals) : M SwitchResult unit :=
  if l_writesAlreadySwitched L then
    (* Writes already switched no need to check lag. *)
    pure tt
  else
    '(reason, err) <- invoke (canSwitch ts
                                (int64_of_Q (Seconds (l_maxReplicationLagAllowed L)))
                                (WorkflowSwitchTrafficRequest.Shards req)) ;;
    returnIf (notNil err) (None, err) ;;
    returnIf (negb (String.eqb reason ""))
      (None, Errorf Code_FAILED_PRECONDITION
               ("cannot switch traffic for workflow " ++ Workflow (l_startState L)
                  ++ " at this time: " ++ reason)).

(** Lines 2794-2856: the switching and the response. *)
Definition switchTrafficSwitch (req : WorkflowSwitchTrafficRequest.t) (ts : trafficSwitcher)
           (L : SwitchLocals) : M SwitchResult SwitchResult :=
  let startState := l_startState L in
  let switchPrimary := l_switchPrimary L in
  rdDryRunResults <-
    (if l_switchReplica L || l_switchRdonly L then
       (* If we're going to switch writes immediately after then we
          don't need to rebuild the SrvVSchema here. *)
       '(rdDryRunResults, err) <-
         invoke (switchReads req ts startState (negb switchPrimary) (l_direction L)) ;;
       returnIf (notNil err) (None, err) ;;
       pure rdDryRunResults
     else pure None) ;;
  let dryRunResults := match rdDryRunResults with Some l => l | None => [] end in
  wrDryRunResults <-
    (if switchPrimary then
       '(_, wrDryRunResults, err) <- invoke (switchWrites req ts (l_timeout L) false) ;;
       returnIf (notNil err) (None, err) ;;
       pure wrDryRunResults
     else pure None) ;;
  let dryRunResults :=
    match wrDryRunResults with Some l => (dryRunResults ++ l)%list | None => dryRunResults end in
  let dryRunResults :=
    if WorkflowSwitchTrafficRequest.DryRun req && (List.length dryRunResults =? 0)%nat
    then (dryRunResults ++ ["No changes required"])%list else dryRunResults in
  (* We must check the original direction requested. *)
  let cmd := if WorkflowSwitchTrafficRequest.Direction req =? DirectionBackward
             then "ReverseTraffic" else "SwitchTraffic" in
  let keyspace := WorkflowSwitchTrafficRequest.Keyspace req in
  let workflow := WorkflowSwitchTrafficRequest.Workflow req in
  if WorkflowSwitchTrafficRequest.DryRun req then
    now <- (fun t => (inl (nowRFC822 env t), t)) ;;
    pure (Some {| WorkflowSwitchTrafficResponse.Summary :=
                    cmd ++ " dry run results for workflow " ++ keyspace ++ "." ++ workflow
                        ++ " at " ++ now;
                  WorkflowSwitchTrafficResponse.StartState := "";
                  WorkflowSwitchTrafficResponse.CurrentState := "";
                  WorkflowSwitchTrafficResponse.DryRunResults := dryRunResults |}, None)
  else
    (* Reload the state after the SwitchTraffic operation and return
       that as a string. *)
    '(_, currentState, err) <- invoke (getWorkflowState (targetKeyspace ts) (ts_workflow ts) false) ;;
    '(currentState, err) <-
      (if IsMultiTenantMigration ts then
         let '(sourceKs, targetKs) :=
           if WorkflowSwitchTrafficRequest.Direction req =? DirectionBackward
           then (targetKeyspace ts, sourceKeyspace ts)
           else (sourceKeyspace ts, targetKeyspace ts) in
         match currentState with
         | Some st =>
             r <- ask (fun t => updateKeyspaceRoutingStateOf env t sourceKs targetKs st)
                      (updateKeyspaceRoutingState sourceKs targetKs) ;;
             pure (match r with
                   | inl st' => (Some st', None)
                   | inr e => (Some st, Some e)
                   end)
         | None =>
             o <- ask (fun t => updateKeyspaceRoutingStateNilOf env t sourceKs targetKs)
                      (updateKeyspaceRoutingState sourceKs targetKs) ;;
             match o with
             | Returned e => pure (None, e)
             | Panicked msg => panic msg
             end
         end
       else pure (currentState, err)) ;;
    current <-
      match err, currentState with
      | Some e, _ =>
          pure ("Error reloading workflow state after switching traffic: " ++ Error e)
      | None, Some st => pure (State_String env st)
      | None, None => panic "invalid memory address or nil pointer dereference"
      end ;;
    pure (Some {| WorkflowSwitchTrafficResponse.Summary :=
                    cmd ++ " was successful for workflow " ++ keyspace ++ "." ++ workflow;
                  WorkflowSwitchTrafficResponse.StartState := State_String env startState;
                  WorkflowSwitchTrafficResponse.CurrentState := current;
                  WorkflowSwitchTrafficResponse.DryRunResults := [] |}, None).

(** A deferred [workflowUnlock(&err)]: the verbs have unnamed
    results, which the closure cannot reach. *)
Definition unlockNameAfter {R} (lockName : string)
  : Outcome R -> Trace -> Outcome R * Trace :=
  fun o t => (o, (t ++ [UnlockName lockName])%list).

Definition WorkflowSwitchTraffic (req : WorkflowSwitchTrafficRequest.t)
  : Trace -> Outcome SwitchResult * Trace :=
  body (
    L <- switchTrafficPrelude req ;;
    let ts := l_ts L in
    (* Lock the workflow for the traffic switching work. *)
    let lockName := TargetKeyspaceName ts ++ "/" ++ WorkflowName ts in
    lockErr <- ask (fun t => errOf env t (LockName lockName "WorkflowSwitchTraffic"))
                   (LockName lockName "WorkflowSwitchTraffic") ;;
    returnIf (notNil lockErr)
      (None, Wrapf lockErr ("failed to lock the " ++ lockName ++ " workflow")) ;;
    defer (unlockNameAfter lockName) (
      let ts := set_force ts (WorkflowSwitchTrafficRequest.Force req) in
      switchTrafficGate req ts L ;;
      switchTrafficSwitch req ts L)).

(** ** Cleaning up: [finalizeMigrateWorkflow], [dropTargets],
    [dropSources] and their helpers *)

Definition LogsResult : Type := option (list string) * goerror.

(** [if err := step; err != nil { return nil, err }]. *)
Definition orReturn {A} (c : M (option A * goerror) goerror) : M (option A * goerror) unit :=
  err <- c ;; returnIf (notNil err) (None, err).

Definition swCall {R} (dryRun : bool) (op : SwitcherOp) : M R goerror :=
  ask (fun t => errOf env t (Sw dryRun op)) (Sw dryRun op).

Definition swLogs {R} (dryRun : bool) : M R (option (list string)) :=
  fun t => (inl (logsOf env t dryRun), t).

(** [finalizeMigrateWorkflow] (server.go:2642). *)
Definition finalizeMigrateWorkflow (ts : trafficSwitcher) (tableSpecs : string)
           (cancel keepData keepRoutingRules dryRun : bool)
  : Trace -> Outcome LogsResult * Trace :=
  body (
    (* Lock the target keyspace. *)
    lockErr <- swCall dryRun (lockKeyspace (TargetKeyspaceName ts) "completeMigrateWorkflow" None) ;;
    returnIf (notNil lockErr)
      (defaultErrorHandler env
         ("failed to lock the " ++ TargetKeyspaceName ts ++ " keyspace") lockErr) ;;
    defer (unlockKeyspaceAfter dryRun (TargetKeyspaceName ts)) (
      orReturn (swCall dryRun dropTargetVReplicationStreams) ;;
      (if negb cancel then
         orReturn (swCall dryRun (addParticipatingTablesToKeyspace (targetKeyspace ts) tableSpecs)) ;;
         orReturn (ask (fun t => errOf env t RebuildSrvVSchema) RebuildSrvVSchema)
       else pure tt) ;;
      (if cancel && negb keepData then orReturn (swCall dryRun removeTargetTables)
       else pure tt) ;;
      l <- swLogs dryRun ;;
      pure (l, None))).

(** The keyspace locks of [dropTargets] and [dropSources], with the
    rest of the function under them. *)
Definition withDropLocks (dryRun ignoreSourceKeyspace : bool) (ts : trafficSwitcher)
           (action : string) (rest : M LogsResult LogsResult) : M LogsResult LogsResult :=
  let lockTarget : M LogsResult LogsResult :=
    lockErr <- swCall dryRun (lockKeyspace (TargetKeyspaceName ts) action None) ;;
    returnIf (notNil lockErr)
      (defaultErrorHandler env
         ("failed to lock the " ++ TargetKeyspaceName ts ++ " keyspace") lockErr) ;;
    defer (unlockKeyspaceAfter dryRun (TargetKeyspaceName ts)) rest in
  if ignoreSourceKeyspace then
    (* Lock only the target keyspace. *)
    lockTarget
  else
    (* Lock the source and target keyspaces. *)
    lockErr <- swCall dryRun (lockKeyspace (SourceKeyspaceName ts) action None) ;;
    returnIf (notNil lockErr)
      (defaultErrorHandler env
         ("failed to lock the " ++ SourceKeyspaceName ts ++ " keyspace") lockErr) ;;
    defer (unlockKeyspaceAfter dryRun (SourceKeyspaceName ts))
      (if negb (String.eqb (TargetKeyspaceName ts) (SourceKeyspaceName ts))
       then lockTarget else rest).

(** [dropRelatedArtifacts] (server.go:2369). *)
Definition dropRelatedArtifacts (keepRoutingRules dryRun ignoreSourceKeyspace : bool)
  : Trace -> Outcome goerror * Trace :=
  let step (op : SwitcherOp) : M goerror unit :=
    err <- swCall dryRun op ;; returnIf (notNil err) err in
  body (
    (if negb ignoreSourceKeyspace then step dropSourceReverseVReplicationStreams
     else pure tt) ;;
    (if negb keepRoutingRules then
       step deleteRoutingRules ;;
       step deleteShardRoutingRules ;;
       step deleteKeyspaceRoutingRules
     else pure tt) ;;
    pure None).

(** [dropArtifacts] (server.go:2467). *)
Definition dropArtifacts (keepRoutingRules dryRun ignoreSourceKeyspace : bool)
  : Trace -> Outcome goerror * Trace :=
  let step (op : SwitcherOp) : M goerror unit :=
    err <- swCall dryRun op ;; returnIf (notNil err) err in
  body (
    (if negb ignoreSourceKeyspace then step dropSourceReverseVReplicationStreams
     else pure tt) ;;
    step dropTargetVReplicationStreams ;;
    (if negb keepRoutingRules then
       step deleteRoutingRules ;;
       step deleteShardRoutingRules ;;
       step deleteKeyspaceRoutingRules
     else pure tt) ;;
    pure None).

(** [dropTargets] (server.go:2096).  The closure given to
    [ts.ForAllTargets], which stops the workflow on every target
    primary, is one event. *)
Definition dropTargets (ts : trafficSwitcher) (keepData keepRoutingRules dryRun : bool)
           (ignoreSourceKeyspace : bool) : Trace -> Outcome LogsResult * Trace :=
  let ts := set_keepRoutingRules ts keepRoutingRules in
  body (
    withDropLocks dryRun ignoreSourceKeyspace ts "DropTargets" (
      (* Stop the workflow before we delete the artifacts. *)
      orReturn (ask (fun t => errOf env t stopWorkflowOnTargets) stopWorkflowOnTargets) ;;
      (if negb keepData then
         match MigrationType_ ts with
         | MigrationType_TABLES =>
             (if negb (IsMultiTenantMigration ts)
              then orReturn (swCall dryRun removeTargetTables) else pure tt) ;;
             (if negb ignoreSourceKeyspace
              then orReturn (swCall dryRun dropSourceDeniedTables) else pure tt) ;;
             orReturn (swCall dryRun dropTargetDeniedTables)
         | MigrationType_SHARDS =>
             orReturn (swCall dryRun removeTargetTables)
         end
       else pure tt) ;;
      orReturn (invoke (dropRelatedArtifacts keepRoutingRules dryRun ignoreSourceKeyspace)) ;;
      orReturn (ask (fun t => errOf env t RebuildSrvVSchema) RebuildSrvVSchema) ;;
      l <- swLogs dryRun ;;
      pure (l, None))).

(** [dropSources] (server.go:2393).  [dropArtifacts] is called
    without the options, so that it never ignores the source keyspace. *)
Definition dropSources (ts : trafficSwitcher) (removalType : TableRemovalType)
           (keepData keepRoutingRules force dryRun : bool) (ignoreSourceKeyspace : bool)
  : Trace -> Outcome LogsResult * Trace :=
  body (
    withDropLocks dryRun ignoreSourceKeyspace ts "DropSources" (
      (if negb force then orReturn (swCall dryRun validateWorkflowHasCompleted)
       else pure tt) ;;
      (if negb keepData then
         match MigrationType_ ts with
         | MigrationType_TABLES =>
             (if negb ignoreSourceKeyspace then
                orReturn (swCall dryRun (removeSourceTables removalType)) ;;
                orReturn (swCall dryRun dropSourceDeniedTables)
              else pure tt) ;;
             orReturn (swCall dryRun dropTargetDeniedTables)
         | MigrationType_SHARDS =>
             orReturn (swCall dryRun dropSourceShards)
         end
       else pure tt) ;;
      orReturn (invoke (dropArtifacts keepRoutingRules dryRun false)) ;;
      orReturn (ask (fun t => errOf env t RebuildSrvVSchema) RebuildSrvVSchema) ;;
      l <- swLogs dryRun ;;
      pure (l, None))).

(** [deleteTenantData] (server.go:2190).  A nil [ts.options] is a
    [tenantId] that is empty; the closure given to [ts.ForAllTargets]
    is one event. *)
Definition deleteTenantData (ts : trafficSwitcher) (batchSize : Z)
  : Trace -> Outcome goerror * Trace :=
  body (
    returnIf (negb (VReplicationWorkflowType_eqb (workflowType ts)
                      VReplicationWorkflowType_MoveTables))
      (Errorf Code_FAILED_PRECONDITION
         ("unsupported workflow type "
            ++ quote (VReplicationWorkflowType_name (workflowType ts))
            ++ " for multi-tenant migration")) ;;
    returnIf (isBlank (tenantId ts))
      (Errorf Code_FAILED_PRECONDITION "missing tenant ID in the workflow options") ;;
    returnIf (List.length (tables ts) =? 0)%nat None ;; (* Nothing to delete *)
    err <- ask (fun t => errOf env t buildTenantPredicate) buildTenantPredicate ;;
    returnIf (notNil err) (Wrap err "failed to build delete filter") ;;
    ask (fun t => errOf env t (deleteTableDataOnTargets batchSize))
        (deleteTableDataOnTargets batchSize)).

(** ** [MoveTablesComplete] (server.go:1410) *)

Definition CompleteResult : Type := option MoveTablesCompleteResponse.t * goerror.

(** Lines 1433-1477 of [MoveTablesComplete], which run under the lock
    of the workflow. *)
Definition completeLocked (req : MoveTablesCompleteRequest.t) (ts : trafficSwitcher)
           (state : State) : M CompleteResult CompleteResult :=
  let ignoreSourceKeyspace := MoveTablesCompleteRequest.IgnoreSourceKeyspace req in
  let dryRun := MoveTablesCompleteRequest.DryRun req in
  summary <-
    (if dryRun then
       now <- (fun t => (inl (nowRFC822 env t), t)) ;;
       pure ("Complete dry run results for workflow "
               ++ MoveTablesCompleteRequest.TargetKeyspace req ++ "."
               ++ MoveTablesCompleteRequest.Workflow req ++ " at " ++ now)
     else
       pure ("Successfully completed the " ++ MoveTablesCompleteRequest.Workflow req
               ++ " workflow in the " ++ MoveTablesCompleteRequest.TargetKeyspace req
               ++ " keyspace")) ;;
  let respond (dryRunResults : option (list string)) : CompleteResult :=
    (Some {| MoveTablesCompleteResponse.Summary := summary;
             MoveTablesCompleteResponse.DryRunResults :=
               match dryRunResults with Some l => l | None => [] end |}, None) in
  (if String.eqb (WorkflowType state) TypeMigrate then
     '(dryRunResults, err) <-
       invoke (finalizeMigrateWorkflow ts (Join (tables ts) ",") false
                 (MoveTablesCompleteRequest.KeepData req)
                 (MoveTablesCompleteRequest.KeepRoutingRules req) dryRun) ;;
     returnIf (notNil err)
       (None, Wrapf err ("failed to finalize the " ++ MoveTablesCompleteRequest.Workflow req
                           ++ " workflow in the "
                           ++ MoveTablesCompleteRequest.TargetKeyspace req ++ " keyspace")) ;;
     Return (respond dryRunResults)
   else pure tt) ;;
  returnIf (negb (WritesSwitched state)
            || (0 <? List.length (ReplicaCellsNotSwitched state))%nat
            || (0 <? List.length (RdonlyCellsNotSwitched state))%nat)
    (None, Some ErrWorkflowCompleteNotFullySwitched) ;;
  let renameTable :=
    if MoveTablesCompleteRequest.RenameTables req then RenameTable else DropTable in
  '(dryRunResults, err) <-
    invoke (dropSources ts renameTable (MoveTablesCompleteRequest.KeepData req)
              (MoveTablesCompleteRequest.KeepRoutingRules req) false dryRun
              ignoreSourceKeyspace) ;;
  returnIf (notNil err) (None, err) ;;
  pure (respond dryRunResults).

Definition MoveTablesComplete (req : MoveTablesCompleteRequest.t)
  : Trace -> Outcome CompleteResult * Trace :=
  let ignoreSourceKeyspace := MoveTablesCompleteRequest.IgnoreSourceKeyspace req in
  let dryRun := MoveTablesCompleteRequest.DryRun req in
  body (
    r <- invoke (getWorkflowState (MoveTablesCompleteRequest.TargetKeyspace req)
                   (MoveTablesCompleteRequest.Workflow req) ignoreSourceKeyspace) ;;
    '(ts, state) <- stateOrReturn r (fun err => (None, err)) ;;
    (* Lock the workflow while we complete it. *)
    let lockName := TargetKeyspaceName ts ++ "/" ++ WorkflowName ts in
    lockErr <- ask (fun t => errOf env t (LockName lockName "MoveTablesComplete"))
                   (LockName lockName "MoveTablesComplete") ;;
    returnIf (notNil lockErr)
      (None, Wrapf lockErr ("failed to lock the " ++ lockName ++ " workflow")) ;;
    defer (unlockNameAfter lockName) (completeLocked req ts state)).

(** ** [WorkflowDelete] (server.go:1535) *)

Definition DeleteResult : Type := option WorkflowDeleteResponse.t * goerror.

(** [sort.Slice] of the details by the alias of the tablet. *)
Fixpoint insertDetail (d : WorkflowDeleteResponse.TabletInfo)
         (l : list WorkflowDeleteResponse.TabletInfo) : list WorkflowDeleteResponse.TabletInfo :=
  match l with
  | [] => [d]
  | d' :: rest =>
      if String.ltb (WorkflowDeleteResponse.Tablet d') (WorkflowDeleteResponse.Tablet d)
      then d' :: insertDetail d rest
      else d :: l
  end.

Definition sortDetails (l : list WorkflowDeleteResponse.TabletInfo)
  : list WorkflowDeleteResponse.TabletInfo :=
  fold_right insertDetail [] l.

(** Lines 1574-1647 of [WorkflowDelete]: the deletion, which runs
    under the lock of the workflow. *)
Definition deleteLocked (req : WorkflowDeleteRequest.t) (ts : trafficSwitcher)
           (state : State) : M DeleteResult DeleteResult :=
  let ignoreSourceKeyspace := WorkflowDeleteRequest.IgnoreSourceKeyspace req in
  (if String.eqb (WorkflowType state) TypeMigrate then
     '(_, err) <- invoke (finalizeMigrateWorkflow ts "" true
                            (WorkflowDeleteRequest.KeepData req)
                            (WorkflowDeleteRequest.KeepRoutingRules req) false) ;;
     Return (None, err)
   else pure tt) ;;
  (* Multi-tenant migrations delete only that tenant's records from
     the target tables. *)
  (if IsMultiTenantMigration ts then
     returnIf (negb (VReplicationWorkflowType_eqb (workflowType ts)
                       VReplicationWorkflowType_MoveTables)) (* Should never happen *)
       (None, Errorf Code_FAILED_PRECONDITION
                ("unsupported workflow type "
                   ++ quote (VReplicationWorkflowType_name (workflowType ts))
                   ++ " for multi-tenant migration")) ;;
     if negb (WorkflowDeleteRequest.KeepData req) then
       err <- invoke (deleteTenantData ts (WorkflowDeleteRequest.DeleteBatchSize req)) ;;
       returnIf (notNil err)
         (None, Wrapf err ("failed to fully delete all migrated data for tenant "
                             ++ tenantId ts ++ ", please retry the operation"))
     else pure tt
   else pure tt) ;;
  (* Cleanup related data and artifacts. There are none for a
     LookupVindex workflow. *)
  (if negb (VReplicationWorkflowType_eqb (workflowType ts)
              VReplicationWorkflowType_CreateLookupIndex) then
     '(_, err) <- invoke (dropTargets ts (WorkflowDeleteRequest.KeepData req)
                            (WorkflowDeleteRequest.KeepRoutingRules req) false
                            ignoreSourceKeyspace) ;;
     match err with
     | Some e =>
         if isNoNode env e
         then Return (None, Wrapf err (WorkflowDeleteRequest.Keyspace req
                                         ++ " keyspace does not exist"))
         else Return (None, err)
     | None => pure tt
     end
   else pure tt) ;;
  (* Now that we've succesfully cleaned up everything else, we can
     finally delete the workflow. *)
  res <- ask (deleteWorkflowOf env)
             (DeleteVReplicationWorkflow (WorkflowDeleteRequest.Keyspace req)
                (WorkflowDeleteRequest.Workflow req) (WorkflowDeleteRequest.Shards req)) ;;
  match res with
  | inr err => Return (None, Some err)
  | inl res =>
      let details :=
        map (fun '(alias, rowsAffected) =>
               {| WorkflowDeleteResponse.Tablet := alias;
                  (* Can be more than one with shard merges *)
                  WorkflowDeleteResponse.Deleted := 0 <? rowsAffected |}) res in
      pure (Some {| WorkflowDeleteResponse.Summary :=
                      "Successfully cancelled the " ++ WorkflowDeleteRequest.Workflow req
                        ++ " workflow in the " ++ WorkflowDeleteRequest.Keyspace req
                        ++ " keyspace";
                    WorkflowDeleteResponse.Details := sortDetails details |}, None)
  end.

Definition WorkflowDelete (req : WorkflowDeleteRequest.t)
  : Trace -> Outcome DeleteResult * Trace :=
  let ignoreSourceKeyspace := WorkflowDeleteRequest.IgnoreSourceKeyspace req in
  body (
    r <- invoke (getWorkflowState (WorkflowDeleteRequest.Keyspace req)
                   (WorkflowDeleteRequest.Workflow req) ignoreSourceKeyspace) ;;
    '(ts, state) <- stateOrReturn r (fun err => (None, err)) ;;
    (if negb (VReplicationWorkflowType_eqb (workflowType ts)
                VReplicationWorkflowType_CreateLookupIndex) then
       (* Return an error if the write workflow traffic is switched.
          If only reads have been switched, then we can delete the
          workflow and its related artifacts. *)
       returnIf (WritesSwitched state) (None, Some ErrWorkflowDeleteWritesSwitched)
     else pure tt) ;;
    (* Lock the workflow for deletion. *)
    let lockName := TargetKeyspaceName ts ++ "/" ++ WorkflowName ts in
    lockErr <- ask (fun t => errOf env t (LockName lockName "WorkflowDelete"))
                   (LockName lockName "WorkflowDelete") ;;
    returnIf (notNil lockErr)
      (None, Wrapf lockErr ("failed to lock the " ++ lockName ++ " workflow")) ;;
    defer (unlockNameAfter lockName) (deleteLocked req ts state)).

(** ** [WorkflowMirrorTraffic] (server.go:3531) and [mirrorTraffic] *)

Definition MirrorResult : Type := option WorkflowMirrorTrafficResponse.t * goerror.

Definition mirrorTraffic (req : WorkflowMirrorTrafficRequest.t) (ts : trafficSwitcher)
           (state : State) : Trace -> Outcome goerror * Trace :=
  body (
    err <- ask (fun t => errOf env t validate) validate ;;
    returnIf (notNil err) err ;;
    err <- swCall false (mirrorTableTraffic (WorkflowMirrorTrafficRequest.TabletTypes req)
                           (WorkflowMirrorTrafficRequest.Percent req)) ;;
    returnIf (notNil err) err ;;
    pure None).

(** The loop over the requested tablet types: the types whose traffic
    is switched already. *)
Fixpoint cannotSwitchTabletTypes (startState : State) (tabletTypes : list TabletType)
  : list string :=
  match tabletTypes with
  | [] => []
  | tabletType :: rest =>
      ((if TabletType_eqb tabletType TabletType_RDONLY
           && (0 <? List.length (RdonlyCellsSwitched startState))%nat
        then ["rdonly"] else [])
       ++ (if TabletType_eqb tabletType TabletType_REPLICA
              && (0 <? List.length (ReplicaCellsSwitched startState))%nat
           then ["replica"] else [])
       ++ (if TabletType_eqb tabletType TabletType_PRIMARY && WritesSwitched startState
           then ["primary"] else [])
       ++ cannotSwitchTabletTypes startState rest)%list
  end.

Definition WorkflowMirrorTraffic (req : WorkflowMirrorTrafficRequest.t)
  : Trace -> Outcome MirrorResult * Trace :=
  let invalid (msg : string) : MirrorResult := (None, Errorf Code_INVALID_ARGUMENT msg) in
  body (
    r <- invoke (getWorkflowState (WorkflowMirrorTrafficRequest.Keyspace req)
                   (WorkflowMirrorTrafficRequest.Workflow req) false) ;;
    '(ts, startState) <- stateOrReturn r (fun err => (None, err)) ;;
    (* Traffic mirroring was built with basic MoveTables workflows in
       mind.  Until demand for other use cases arises, reject
       everything but basic MoveTables. *)
    returnIf (negb (String.eqb (WorkflowType startState) TypeMoveTables))
      (invalid ("invalid action for " ++ WorkflowType startState ++ " workflow: MirrorTraffic")) ;;
    returnIf (IsReverse startState)
      (invalid "invalid action for reverse workflow: MirrorTraffic") ;;
    returnIf (negb (MigrationType_eqb (MigrationType_ ts) MigrationType_TABLES))
      (invalid ("invalid action for " ++ MigrationType_name (MigrationType_ ts)
                  ++ " migration type: MirrorTraffic")) ;;
    returnIf (IsPartialMigration ts)
      (invalid "invalid action for partial migration: MirrorTraffic") ;;
    returnIf (IsMultiTenantMigration ts)
      (invalid "invalid action for multi-tenant migration: MirrorTraffic") ;;
    (* Don't allow traffic to be mirrored if any traffic has been
       switched over to the target keyspace. *)
    let cannotSwitch :=
      cannotSwitchTabletTypes startState (WorkflowMirrorTrafficRequest.TabletTypes req) in
    returnIf (0 <? List.length cannotSwitch)%nat
      (None, Errorf Code_FAILED_PRECONDITION
               ("cannot mirror [" ++ Join cannotSwitch "," ++ "] traffic for workflow "
                  ++ Workflow startState
                  ++ " at this time: traffic for those tablet types is switched")) ;;
    err <- invoke (mirrorTraffic req ts startState) ;;
    returnIf (notNil err) (None, err) ;;
    (* Reload the state after the MirrorTraffic operation and return
       that as a string. *)
    let keyspace := WorkflowMirrorTrafficRequest.Keyspace req in
    let workflow := WorkflowMirrorTrafficRequest.Workflow req in
    '(_, currentState, err) <- invoke (getWorkflowState keyspace workflow false) ;;
    current <-
      match err, currentState with
      | Some e, _ => pure ("Error reloading workflow state after mirror traffic: " ++ Error e)
      | None, Some st => pure (State_String env st)
      | None, None => panic "invalid memory address or nil pointer dereference"
      end ;;
    pure (Some {| WorkflowMirrorTrafficResponse.Summary :=
                    "MirrorTraffic was successful for workflow " ++ keyspace ++ "." ++ workflow;
                  WorkflowMirrorTrafficResponse.StartState := State_String env startState;
                  WorkflowMirrorTrafficResponse.CurrentState := current |}, None)).

End Server.

(** ** Kinds of events and what a computation emits *)

(** Calls that only read the topology to build the traffic switcher and
    the state of the workflow. *)
Definition observes (e : Event) : bool :=
  match e with
  | buildTrafficSwitcher _ _ _ | updateKeyspaceRoutingState _ _ | GetShardRoutingRules
  | GetCellsWithTableReadsSwitched _ _ _ _ | GetRoutingRules
  | GetCellsWithShardReadsSwitched _ _ _ => true
  | _ => false
  end.

(** The calls of the validation gate [canSwitch]. *)
Definition checksHealth (e : Event) : bool :=
  match e with
  | GetWorkflows _ _ _ _ | RefreshTabletsByShard _ _ => true
  | _ => false
  end.


(** The steps of [switchWrites] from the point of no return on. *)
Definition pastPointOfNoReturn (e : Event) : bool :=
  match e with
  | Sw _ (createJournals _) | Sw _ allowTargetWrites | Sw _ changeRouting
  | Sw _ (streamMigraterfinalize _) | Sw _ startReverseVReplication
  | Sw _ freezeTargetVReplication => true
  | _ => false
  end.

Definition anyEvent (e : Event) : bool := true.

(** The trace of a [switchWrites] in which every call succeeds: the
    calls up to the look at the journals, *)
Definition writesPrologue (req : WorkflowSwitchTrafficRequest.t) (ts : trafficSwitcher)
           (waitTimeout : Duration) : list Event :=
  let dryRun := WorkflowSwitchTrafficRequest.DryRun req in
  ([validate]
   ++ (if WorkflowSwitchTrafficRequest.EnableReverseReplication req
       then [ validateShardsHaveVReplicationPermissions (SourceKeyspaceName ts);
              areTabletsAvailableToStreamFrom (TargetKeyspaceName ts) ]
       else [])
   ++ [Sw dryRun (lockKeyspace (SourceKeyspaceName ts) "SwitchWrites" (Some (waitTimeout * 3)))]
   ++ (if negb (String.eqb (TargetKeyspaceName ts) (SourceKeyspaceName ts))
       then [Sw dryRun (lockKeyspace (TargetKeyspaceName ts) "SwitchWrites"
                          (Some (waitTimeout * 3)))]
       else [])
   ++ [Sw dryRun (mirrorTableTraffic [TabletType_PRIMARY] 0)]
   ++ (if WorkflowSwitchTrafficRequest.InitializeTargetSequences req
          && VReplicationWorkflowType_eqb (workflowType ts) VReplicationWorkflowType_MoveTables
          && sourceUnsharded ts
       then [getTargetSequenceMetadata] else [])
   ++ [checkJournals])%list.

(** the checks that the keyspace locks are still held, *)
Definition locksHeld (dryRun : bool) (ts : trafficSwitcher) : list Event :=
  if dryRun then []
  else [CheckKeyspaceLocked (SourceKeyspaceName ts); CheckKeyspaceLocked (TargetKeyspaceName ts)].


(** and the release of the keyspace locks. *)
Definition writesUnlocks (dryRun : bool) (ts : trafficSwitcher) : list Event :=
  ((if negb (String.eqb (TargetKeyspaceName ts) (SourceKeyspaceName ts))
    then [Sw dryRun (unlockKeyspace (TargetKeyspaceName ts))] else [])
   ++ [Sw dryRun (unlockKeyspace (SourceKeyspaceName ts))])%list.


(** ** What the validation gate looks at *)

(** A world that differs only in what it says of the health of the
    streams and of the tablets. *)
Definition withHealth (env : Env)
           (workflows : Trace -> string -> string -> list string
                        -> option (list Workflow_) * goerror)
           (refresh : Trace -> ShardInfo -> bool * string * goerror) : Env :=
  {| errOf := errOf env;
     buildTrafficSwitcherOf := buildTrafficSwitcherOf env;
     updateKeyspaceRoutingStateOf := updateKeyspaceRoutingStateOf env;
     updateKeyspaceRoutingStateNilOf := updateKeyspaceRoutingStateNilOf env;
     shardRoutingRulesOf := shardRoutingRulesOf env;
     cellsWithTableReadsSwitchedOf := cellsWithTableReadsSwitchedOf env;
     routingRulesOf := routingRulesOf env;
     cellsWithShardReadsSwitchedOf := cellsWithShardReadsSwitchedOf env;
     getWorkflowsOf := workflows;
     refreshTabletsByShardOf := refresh;
     cellInfoNamesOf := cellInfoNamesOf env;
     rdonlyTabletsExistOf := rdonlyTabletsExistOf env;
     checkJournalsOf := checkJournalsOf env;
     targetSequenceMetadataOf := targetSequenceMetadataOf env;
     stopStreamsOf := stopStreamsOf env;
     logsOf := logsOf env;
     deleteWorkflowOf := deleteWorkflowOf env;
     DurationFromProto := DurationFromProto env;
     parseTabletTypes := parseTabletTypes env;
     defaultErrorHandler := defaultErrorHandler env;
     isNoNode := isNoNode env;
     MakeStringTypeCSV := MakeStringTypeCSV env;
     State_String := State_String env;
     nowRFC822 := nowRFC822 env |}.

(** A stream that keeps [canSwitch] from letting the switch go on. *)
Definition notSwitchable (st : Workflow_Stream) : Prop :=
  Message st = Frozen \/ Stream_State st = "Copying" \/ Stream_State st = "Error".

Definition anyStream (shardStreams : list (string * Workflow_ShardStream))
           (P : Workflow_Stream -> Prop) : Prop :=
  exists key shardStream st,
    In (key, shardStream) shardStreams /\ In st (Streams shardStream) /\ P st.

Definition hasStream (wf : Workflow_) (P : Workflow_Stream -> Prop) : Prop :=
  anyStream (ShardStreams wf) P.

(** The reason that [canSwitch] gives is one that holds. *)
Definition reasonHolds (wf : Workflow_) (allowed : Z) (reason : string) : Prop :=
  (reason = cannotSwitchHighLag (MaxVReplicationTransactionLag wf) allowed /\
   allowed < MaxVReplicationTransactionLag wf) \/
  (reason = cannotSwitchFrozen /\ hasStream wf (fun st => Message st = Frozen)) \/
  (reason = cannotSwitchCopyIncomplete /\ hasStream wf (fun st => Stream_State st = "Copying")) \/
  (reason = cannotSwitchError /\ hasStream wf (fun st => Stream_State st = "Error")).

(** Any call but those of the validation gate. *)
Definition skipsHealth (e : Event) : bool := negb (checksHealth e).

(** [emits P c]: whatever happened before, [c] adds only events that
    satisfy [P] to the trace. *)
Definition emits {X : Type} (P : Event -> bool) (c : Trace -> X * Trace) : Prop :=
  forall t, exists evs, snd (c t) = (t ++ evs)%list /\ forallb P evs = true.

(** ** Locks

    The locks that the server takes: the lock of a keyspace, through
    the switcher, and the named lock of a workflow. *)
Inductive LockKey : Type :=
| KeyspaceLock (keyspace : string)
| NamedLock (name : string).

Definition LockKey_eqb (a b : LockKey) : bool :=
  match a, b with
  | KeyspaceLock x, KeyspaceLock y => String.eqb x y
  | NamedLock x, NamedLock y => String.eqb x y
  | _, _ => false
  end.

(** The lock that a call asks for, and the lock that a call gives back. *)
Definition acquires (e : Event) : option LockKey :=
  match e with
  | Sw _ (lockKeyspace keyspace _ _) => Some (KeyspaceLock keyspace)
  | LockName name _ => Some (NamedLock name)
  | _ => None
  end.

Definition releases (e : Event) : option LockKey :=
  match e with
  | Sw _ (unlockKeyspace keyspace) => Some (KeyspaceLock keyspace)
  | UnlockName name => Some (NamedLock name)
  | _ => None
  end.

Definition noLock (e : Event) : bool :=
  match acquires e, releases e with
  | None, None => true
  | _, _ => false
  end.

(** The locks held after the events [evs], which follow the trace [t],
    when [held] were held before, the latest first.  A lock is held from
    the call that asked for it and got no error to the call that gives it
    back; [None] when a lock is given back that is not the latest one
    taken. *)
Fixpoint heldAfter (env : Env) (t : Trace) (evs : list Event) (held : list LockKey)
  : option (list LockKey) :=
  match evs with
  | [] => Some held
  | e :: rest =>
      let t' := (t ++ [e])%list in
      match acquires e, releases e with
      | Some key, _ =>
          if notNil (errOf env t e) then heldAfter env t' rest held
          else heldAfter env t' rest (key :: held)
      | None, Some key =>
          match held with
          | latest :: held' =>
              if LockKey_eqb key latest then heldAfter env t' rest held' else None
          | [] => None
          end
      | None, None => heldAfter env t' rest held
      end
  end.

(** [c] gives back every lock that it takes, in the reverse order, and
    no other. *)
Definition releasesItsLocks {X : Type} (env : Env) (c : Trace -> X * Trace) : Prop :=
  forall t held, exists evs,
    snd (c t) = (t ++ evs)%list /\ heldAfter env t evs held = Some held.

(** ** Dry runs and data

    What a dry run may call: the dry-run switcher, never the real one,
    and no check of a keyspace lock, as none is taken. *)
Definition dryRunOnly (e : Event) : bool :=
  match e with
  | Sw dryRun _ => dryRun
  | CheckKeyspaceLocked _ => false
  | _ => true
  end.

(** The calls that remove tables, shards or rows. *)
Definition removesData (e : Event) : bool :=
  match e with
  | Sw _ removeTargetTables | Sw _ (removeSourceTables _) | Sw _ dropSourceShards
  | deleteTableDataOnTargets _ => true
  | _ => false
  end.

Definition keepsData (e : Event) : bool := negb (removesData e).

(** A refresh of the tablets of a shard that [canSwitch] lets pass:
    all tablets were refreshed without an error, or only some were and the
    switcher is forced. *)
Definition refreshed (force : bool) (refresh : ShardInfo -> bool * string * goerror)
           (si : ShardInfo) : Prop :=
  let '(partial, _, err) := refresh si in
  (partial = false /\ err = None) \/ (partial = true /\ force = true).

(** The steps of a [switchWrites] that finds no journal and in which
    every call succeeds, between the look at the journals and the point
    of no return: [n] is the number of sequences of the target, which
    is only looked up for a MoveTables workflow with an unsharded
    source. *)
Definition writesFresh (req : WorkflowSwitchTrafficRequest.t) (ts : trafficSwitcher)
           (waitTimeout : Duration) (n : nat) : list Event :=
  let dryRun := WorkflowSwitchTrafficRequest.DryRun req in
  ([ BuildStreamMigrator false; Sw dryRun stopSourceWrites; Sw dryRun stopStreams ]
   ++ (if MigrationType_eqb (MigrationType_ ts) MigrationType_TABLES
       then [ executeLockTablesOnSource; Sleep lockTablesCycleDelay;
              executeLockTablesOnSource; Sleep lockTablesCycleDelay ]
       else [])
   ++ [gatherSourcePositions]
   ++ locksHeld dryRun ts ++ [Sw dryRun (waitForCatchup waitTimeout)]
   ++ locksHeld dryRun ts ++ [Sw dryRun migrateStreams]
   ++ locksHeld dryRun ts ++ [Sw dryRun resetSequences]
   ++ locksHeld dryRun ts ++ [Sw dryRun createReverseVReplication]
   ++ locksHeld dryRun ts
   ++ (if WorkflowSwitchTrafficRequest.InitializeTargetSequences req
          && VReplicationWorkflowType_eqb (workflowType ts) VReplicationWorkflowType_MoveTables
          && sourceUnsharded ts
          && (0 <? n)%nat
       then [Sw dryRun initializeTargetSequences] else []))%list.

(** The steps from the point of no return on. *)
Definition writesCommit (req : WorkflowSwitchTrafficRequest.t) (ts : trafficSwitcher)
           (sourceWorkflows : list string) : list Event :=
  let dryRun := WorkflowSwitchTrafficRequest.DryRun req in
  (locksHeld dryRun ts
   ++ [ Sw dryRun (createJournals sourceWorkflows);
        Sw dryRun allowTargetWrites;
        Sw dryRun changeRouting;
        Sw dryRun (streamMigraterfinalize sourceWorkflows) ]
   ++ (if WorkflowSwitchTrafficRequest.EnableReverseReplication req
       then [Sw dryRun startReverseVReplication] else [])
   ++ [Sw dryRun freezeTargetVReplication])%list.

End workflow.

(** ** Test data for the workflow server *)

Module workflow_examples.
Import golang vtrpcpb vterrors workflow.

(** Stand-ins for the two pure helpers of other packages. *)
Definition protoDuration (d : option vttime_Duration) : Duration * bool * goerror :=
  match d with
  | None => (0, false, None)
  | Some d => (Duration_seconds d * Second + Duration_nanos d, true, None)
  end.

Fixpoint tabletTypes (l : list TabletType) : bool * bool * bool * goerror :=
  match l with
  | [] => (false, false, false, None)
  | tabletType :: rest =>
      let '(hasReplica, hasRdonly, hasPrimary, err) := tabletTypes rest in
      match err, tabletType with
      | Some e, _ => (false, false, false, Some e)
      | None, TabletType_REPLICA => (true, hasRdonly, hasPrimary, None)
      | None, TabletType_RDONLY => (hasReplica, true, hasPrimary, None)
      | None, TabletType_PRIMARY => (hasReplica, hasRdonly, true, None)
      | None, _ => (false, false, false, Some (errorString "invalid tablet type passed"))
      end
  end.

Definition shard (keyspace name : string) : ShardInfo :=
  {| si_Keyspace := keyspace; si_ShardName := name; IsPrimaryServing := true |}.

(** A MoveTables workflow [wf] that moves table [t] from [ks1] to [ks2]. *)
Definition moveTables (isFrozen isMultiTenant : bool) : trafficSwitcher :=
  {| ts_workflow := "wf"; reverseWorkflow := "wf_reverse"; id := 42;
     targetKeyspace := "ks2"; sourceKeyspace := "ks1"; frozen := isFrozen;
     workflowType := VReplicationWorkflowType_MoveTables;
     migrationType := MigrationType_TABLES; isPartialMigration := false;
     multiTenant := isMultiTenant; tenantId := if isMultiTenant then "tenant1" else "";
     tables := ["t"]; sourceShards := [shard "ks1" "0"]; targetShards := [shard "ks2" "0"];
     sourceUnsharded := true; force := false; keepRoutingRules := false |}.

(** What the world looks like: the workflow, the target of the primary
    routing rule of [ks1.t], the cells whose replica and rdonly reads are
    switched, whether journals exist, and the streams of the workflow. *)
Record Scenario := {
  the_ts : trafficSwitcher;
  primaryRule : list string;
  replicaCells : list string * list string;
  rdonlyCells : list string * list string;
  journals : bool;
  the_workflow : Workflow_
}.

(** A world in which every call succeeds. *)
Definition world (sc : Scenario) : Env :=
  {| errOf := fun _ _ => None;
     buildTrafficSwitcherOf := fun _ _ _ _ => inl (the_ts sc);
     updateKeyspaceRoutingStateOf := fun _ _ _ st => inl st;
     updateKeyspaceRoutingStateNilOf := fun _ _ _ => Returned None;
     shardRoutingRulesOf := fun _ => inl [];
     cellsWithTableReadsSwitchedOf := fun _ _ _ _ tabletType =>
       inl (if TabletType_eqb tabletType TabletType_REPLICA
            then replicaCells sc else rdonlyCells sc);
     routingRulesOf := fun _ =>
       inl (fun key => if String.eqb key "ks1.t" then primaryRule sc else []);
     cellsWithShardReadsSwitchedOf := fun _ _ _ _ => inl ([], ["zone1"]);
     getWorkflowsOf := fun _ _ _ _ => (Some [the_workflow sc], None);
     refreshTabletsByShardOf := fun _ _ => (false, "", None);
     cellInfoNamesOf := fun _ => inl ["zone1"];
     rdonlyTabletsExistOf := fun _ _ => inl true;
     checkJournalsOf := fun _ => (journals sc, [], None);
     targetSequenceMetadataOf := fun _ => inl O;
     stopStreamsOf := fun _ => ([], None);
     logsOf := fun _ _ => None;
     deleteWorkflowOf := fun _ => inl [("zone1-0000000200", 1)];
     DurationFromProto := protoDuration;
     parseTabletTypes := tabletTypes;
     defaultErrorHandler := fun message err => (None, Wrap err message);
     isNoNode := fun _ => false;
     MakeStringTypeCSV := fun _ => "";
     State_String := fun st => if WritesSwitched st then "writes switched"
                               else "writes not switched";
     nowRFC822 := fun _ => "01 Jan 25 00:00 UTC" |}.

Definition healthy : Workflow_ :=
  {| MaxVReplicationTransactionLag := 1;
     ShardStreams := [("0/zone1-0000000200",
                       {| Streams := [ {| Stream_State := "Running"; Message := "" |} ] |})] |}.

(** One stream is in the Error state and the lag is two minutes. *)
Definition erroring : Workflow_ :=
  {| MaxVReplicationTransactionLag := 120;
     ShardStreams := [("0/zone1-0000000200",
                       {| Streams := [ {| Stream_State := "Error"; Message := "boom" |} ] |})] |}.

(** Nothing is switched yet. *)
Definition fresh (wf : Workflow_) : Scenario :=
  {| the_ts := moveTables false false; primaryRule := ["ks1.t"];
     replicaCells := ([], ["zone1"]); rdonlyCells := ([], ["zone1"]);
     journals := false; the_workflow := wf |}.

(** Reads and writes are switched, the workflow is frozen. *)
Definition switched (wf : Workflow_) : Scenario :=
  {| the_ts := moveTables true false; primaryRule := ["ks2.t"];
     replicaCells := (["zone1"], []); rdonlyCells := (["zone1"], []);
     journals := true; the_workflow := wf |}.

(** Writes are switched, the reads of the replicas are not. *)
Definition writesOnly (wf : Workflow_) : Scenario :=
  {| the_ts := moveTables true false; primaryRule := ["ks2.t"];
     replicaCells := ([], ["zone1"]); rdonlyCells := ([], ["zone1"]);
     journals := true; the_workflow := wf |}.

(** Journals were written, the workflow is not frozen yet: a switch of
    the writes that stopped halfway. *)
Definition interrupted : Scenario :=
  {| the_ts := moveTables false false; primaryRule := ["ks1.t"];
     replicaCells := ([], ["zone1"]); rdonlyCells := ([], ["zone1"]);
     journals := true; the_workflow := healthy |}.

Definition multiTenantScenario : Scenario :=
  {| the_ts := moveTables false true; primaryRule := ["ks1.t"];
     replicaCells := ([], ["zone1"]); rdonlyCells := ([], ["zone1"]);
     journals := false; the_workflow := healthy |}.






Definition switchRequest (types : list TabletType) (direction : Z)
           (timeout : option vttime_Duration) : WorkflowSwitchTrafficRequest.t :=
  {| WorkflowSwitchTrafficRequest.Keyspace := "ks2";
     WorkflowSwitchTrafficRequest.Workflow := "wf";
     WorkflowSwitchTrafficRequest.Cells := [];
     WorkflowSwitchTrafficRequest.TabletTypes := types;
     WorkflowSwitchTrafficRequest.MaxReplicationLagAllowed := None;
     WorkflowSwitchTrafficRequest.EnableReverseReplication := true;
     WorkflowSwitchTrafficRequest.Direction := direction;
     WorkflowSwitchTrafficRequest.Timeout := timeout;
     WorkflowSwitchTrafficRequest.DryRun := false;
     WorkflowSwitchTrafficRequest.InitializeTargetSequences := false;
     WorkflowSwitchTrafficRequest.Shards := [];
     WorkflowSwitchTrafficRequest.Force := false |}.

Definition deleteRequest : WorkflowDeleteRequest.t :=
  {| WorkflowDeleteRequest.Keyspace := "ks2"; WorkflowDeleteRequest.Workflow := "wf";
     WorkflowDeleteRequest.KeepData := false; WorkflowDeleteRequest.KeepRoutingRules := false;
     WorkflowDeleteRequest.Shards := []; WorkflowDeleteRequest.DeleteBatchSize := 1000;
     WorkflowDeleteRequest.IgnoreSourceKeyspace := false |}.

Definition completeRequest : MoveTablesCompleteRequest.t :=
  {| MoveTablesCompleteRequest.Workflow := "wf";
     MoveTablesCompleteRequest.TargetKeyspace := "ks2";
     MoveTablesCompleteRequest.KeepData := false;
     MoveTablesCompleteRequest.KeepRoutingRules := false;
     MoveTablesCompleteRequest.RenameTables := false;
     MoveTablesCompleteRequest.DryRun := false;
     MoveTablesCompleteRequest.IgnoreSourceKeyspace := false |}.

Definition mirrorRequest (types : list TabletType) : WorkflowMirrorTrafficRequest.t :=
  {| WorkflowMirrorTrafficRequest.Keyspace := "ks2";
     WorkflowMirrorTrafficRequest.Workflow := "wf";
     WorkflowMirrorTrafficRequest.TabletTypes := types;
     WorkflowMirrorTrafficRequest.Percent := 50 |}.

(** The state that [getWorkflowState] computes in the scenarios. *)
Definition stateOf (writes : bool) (replica rdonly : list string * list string) : State :=
  {| Workflow := "wf"; SourceKeyspace := "ks1"; TargetKeyspace := "ks2";
     WorkflowType := TypeMoveTables;
     ReplicaCellsSwitched := fst replica; ReplicaCellsNotSwitched := snd replica;
     RdonlyCellsSwitched := fst rdonly; RdonlyCellsNotSwitched := snd rdonly;
     WritesSwitched := writes; IsPartialMigration_ := false;
     ShardsAlreadySwitched := []; ShardsNotYetSwitched := []; IsReverse := false |}.

Definition stateReads : Trace :=
  [ buildTrafficSwitcher "ks2" "wf" false;
    GetCellsWithTableReadsSwitched "ks1" "ks2" "t" TabletType_RDONLY;
    GetCellsWithTableReadsSwitched "ks1" "ks2" "t" TabletType_REPLICA;
    GetRoutingRules ].

Definition halfSecond : option vttime_Duration :=
  Some {| Duration_seconds := 0; Duration_nanos := 500000000 |}.

(** The locals of [WorkflowSwitchTraffic] after its prelude, for a
    request to switch the reads of the replicas forward with the default
    timeouts. *)
Definition replicaLocals (ts : trafficSwitcher) (startState : State) : SwitchLocals :=
  {| l_ts := ts; l_startState := startState; l_direction := DirectionForward;
     l_timeout := DefaultTimeout; l_maxReplicationLagAllowed := DefaultTimeout;
     l_switchReplica := true; l_switchRdonly := false; l_switchPrimary := false;
     l_writesAlreadySwitched := WritesSwitched startState |}.

(** Nothing can be learnt of the workflow, and the tablets cannot be
    refreshed. *)
Definition unreachable (env : Env) : Env :=
  withHealth env
    (fun _ _ _ _ => (None, Some (errorString "vttablet: connection refused")))
    (fun _ _ => (true, "zone1-0000000200", Some (errorString "connection refused"))).

(** The request [switchRequest] as a dry run. *)
Definition dryRunRequest (types : list TabletType) (direction : Z)
  : WorkflowSwitchTrafficRequest.t :=
  {| WorkflowSwitchTrafficRequest.Keyspace := "ks2";
     WorkflowSwitchTrafficRequest.Workflow := "wf";
     WorkflowSwitchTrafficRequest.Cells := [];
     WorkflowSwitchTrafficRequest.TabletTypes := types;
     WorkflowSwitchTrafficRequest.MaxReplicationLagAllowed := None;
     WorkflowSwitchTrafficRequest.EnableReverseReplication := true;
     WorkflowSwitchTrafficRequest.Direction := direction;
     WorkflowSwitchTrafficRequest.Timeout := None;
     WorkflowSwitchTrafficRequest.DryRun := true;
     WorkflowSwitchTrafficRequest.InitializeTargetSequences := false;
     WorkflowSwitchTrafficRequest.Shards := [];
     WorkflowSwitchTrafficRequest.Force := false |}.

(** Requests that keep the data. *)
Definition deleteKeepingData : WorkflowDeleteRequest.t :=
  {| WorkflowDeleteRequest.Keyspace := "ks2"; WorkflowDeleteRequest.Workflow := "wf";
     WorkflowDeleteRequest.KeepData := true; WorkflowDeleteRequest.KeepRoutingRules := false;
     WorkflowDeleteRequest.Shards := []; WorkflowDeleteRequest.DeleteBatchSize := 1000;
     WorkflowDeleteRequest.IgnoreSourceKeyspace := false |}.

Definition completeKeepingData (dryRun : bool) : MoveTablesCompleteRequest.t :=
  {| MoveTablesCompleteRequest.Workflow := "wf";
     MoveTablesCompleteRequest.TargetKeyspace := "ks2";
     MoveTablesCompleteRequest.KeepData := true;
     MoveTablesCompleteRequest.KeepRoutingRules := false;
     MoveTablesCompleteRequest.RenameTables := false;
     MoveTablesCompleteRequest.DryRun := dryRun;
     MoveTablesCompleteRequest.IgnoreSourceKeyspace := false |}.

End workflow_examples.

(* ===================================================================== *)
(** * Part II: theorems                                                   *)
(* ===================================================================== *)

(** ** Durations in seconds *)

Module golang_proofs.
Import golang.

Lemma roundHalfEven_le (n : Z) (d : positive) (k : Z) :
  n <= k * Z.pos d -> roundHalfEven n d <= k.
Proof.
  intros Hn. unfold roundHalfEven.
  pose proof (Z.div_mod n (Z.pos d) ltac:(lia)) as Hdm.
  pose proof (Z.mod_pos_bound n (Z.pos d) ltac:(lia)) as Hr.
  assert (Hq : n / Z.pos d <= k) by (apply Z.div_le_upper_bound; lia).
  destruct (2 * (n mod Z.pos d) ?= Z.pos d) eqn:E; [| lia |].
  - destruct (Z.even (n / Z.pos d)); [lia|].
    apply Z.compare_eq in E. nia.
  - apply Z.compare_gt_iff in E. nia.
Qed.

Lemma roundHalfEven_ge (n : Z) (d : positive) (k : Z) :
  k * Z.pos d <= n -> k <= roundHalfEven n d.
Proof.
  intros Hn. unfold roundHalfEven.
  assert (Hq : k <= n / Z.pos d) by (apply Z.div_le_lower_bound; lia).
  destruct (2 * (n mod Z.pos d) ?= Z.pos d); [destruct (Z.even (n / Z.pos d))| |]; lia.
Qed.

Lemma roundHalfEven_nonneg (n : Z) (d : positive) : 0 <= n -> 0 <= roundHalfEven n d.
Proof. intros Hn. apply roundHalfEven_ge. lia. Qed.

(** [exponent n d] is the exponent of [n / d]. *)
Lemma exponent_lower (n : Z) (d : positive) :
  0 < n -> 0 <= exponent n d -> Z.pos d * 2 ^ exponent n d <= n.
Proof.
  intros Hn. unfold exponent.
  pose proof (Z.log2_spec n Hn) as [Hn1 Hn2].
  pose proof (Z.log2_spec (Z.pos d) ltac:(lia)) as [Hd1 Hd2].
  pose proof (Z.log2_nonneg n) as Hln. pose proof (Z.log2_nonneg (Z.pos d)) as Hld.
  set (ln := Z.log2 n) in *. set (ld := Z.log2 (Z.pos d)) in *.
  destruct (0 <=? ln - ld) eqn:E0.
  - apply Z.leb_le in E0.
    destruct (Z.leb_spec (Z.pos d * 2 ^ (ln - ld)) n) as [Hle|Hgt]; intros He; [exact Hle|].
    replace ln with ((ld + 1) + (ln - ld - 1)) in Hn1 by lia.
    rewrite Z.pow_add_r in Hn1 by lia.
    assert (0 < 2 ^ (ln - ld - 1)) by (apply Z.pow_pos_nonneg; lia).
    nia.
  - apply Z.leb_gt in E0. destruct (Z.pos d <=? n * 2 ^ (- (ln - ld))); intros He; lia.
Qed.

Lemma exponent_upper (n : Z) (d : positive) :
  0 < n -> exponent n d < 0 -> n * 2 ^ (- exponent n d - 1) < Z.pos d.
Proof.
  intros Hn. unfold exponent.
  pose proof (Z.log2_spec n Hn) as [Hn1 Hn2].
  pose proof (Z.log2_spec (Z.pos d) ltac:(lia)) as [Hd1 Hd2].
  pose proof (Z.log2_nonneg n) as Hln. pose proof (Z.log2_nonneg (Z.pos d)) as Hld.
  set (ln := Z.log2 n) in *. set (ld := Z.log2 (Z.pos d)) in *.
  destruct (0 <=? ln - ld) eqn:E0.
  - apply Z.leb_le in E0.
    destruct (Z.leb_spec (Z.pos d * 2 ^ (ln - ld)) n) as [Hle|Hgt]; intros He; [lia|].
    assert (ln - ld = 0) as Hz by lia. rewrite Hz in *.
    replace (- (0 - 1) - 1) with 0 by lia. simpl in *. lia.
  - apply Z.leb_gt in E0.
    destruct (Z.leb_spec (Z.pos d) (n * 2 ^ (- (ln - ld)))) as [Hle|Hgt]; intros He.
    + replace ld with ((ln + 1) + (- (ln - ld) - 1)) in Hd1 by lia.
      rewrite Z.pow_add_r in Hd1 by lia.
      assert (0 < 2 ^ (- (ln - ld) - 1)) by (apply Z.pow_pos_nonneg; lia).
      nia.
    + replace (- (ln - ld - 1) - 1) with (- (ln - ld)) by lia. exact Hgt.
Qed.

Lemma exponent_nonneg (n : Z) (d : positive) :
  Z.pos d <= n -> 0 <= exponent n d.
Proof.
  intros Hn. destruct (Z.leb_spec 0 (exponent n d)) as [H|H]; [exact H|].
  pose proof (exponent_upper n d ltac:(lia) H).
  assert (0 < 2 ^ (- exponent n d - 1)) by (apply Z.pow_pos_nonneg; lia).
  nia.
Qed.

Lemma exponent_neg (n : Z) (d : positive) :
  0 < n < Z.pos d -> exponent n d < 0.
Proof.
  intros Hn. destruct (Z.ltb_spec (exponent n d) 0) as [H|H]; [exact H|].
  pose proof (exponent_lower n d ltac:(lia) H).
  assert (0 < 2 ^ exponent n d) by (apply Z.pow_pos_nonneg; lia).
  nia.
Qed.

(** Rounding keeps the sign, *)
Lemma float64_nonneg (x : Q) : (0 <= x)%Q -> (0 <= float64 x)%Q.
Proof.
  intros Hx. unfold float64.
  assert (Hnum : 0 <= Qnum x) by (unfold Qle in Hx; simpl in Hx; lia).
  destruct (Z.eqb_spec (Z.abs (Qnum x)) 0) as [_|Hne]; [apply Qle_refl|].
  destruct (Z.ltb_spec (Qnum x) 0) as [Hneg|_]; [lia|].
  rewrite Z.abs_eq by exact Hnum.
  assert (H2 : forall k, 0 < 2 ^ Z.max 0 k) by (intros k; apply Z.pow_pos_nonneg; lia).
  destruct (exponent (Qnum x) (Qden x) <=? 52); unfold Qle; cbn [Qnum Qden Qopp].
  - assert (0 <= 2 ^ (52 - exponent (Qnum x) (Qden x))) by apply Z.pow_nonneg, Z.le_0_2.
    pose proof (roundHalfEven_nonneg (Qnum x * 2 ^ (52 - exponent (Qnum x) (Qden x))) (Qden x)
                  ltac:(nia)).
    lia.
  - assert (0 <= 2 ^ (exponent (Qnum x) (Qden x) - 52)) by apply Z.pow_nonneg, Z.le_0_2.
    pose proof (roundHalfEven_nonneg (Qnum x)
                  (Qden x * Z.to_pos (2 ^ (exponent (Qnum x) (Qden x) - 52))) Hnum).
    nia.
Qed.

Lemma float64_nonpos (x : Q) : (x <= 0)%Q -> (float64 x <= 0)%Q.
Proof.
  intros Hx. unfold float64.
  assert (Hnum : Qnum x <= 0) by (unfold Qle in Hx; simpl in Hx; lia).
  destruct (Z.eqb_spec (Z.abs (Qnum x)) 0) as [_|Hne]; [apply Qle_refl|].
  destruct (Z.ltb_spec (Qnum x) 0) as [_|Hpos]; [|lia].
  set (n := Z.abs (Qnum x)) in *.
  destruct (exponent n (Qden x) <=? 52); unfold Qle; cbn [Qnum Qden Qopp].
  - assert (0 <= 2 ^ (52 - exponent n (Qden x))) by apply Z.pow_nonneg, Z.le_0_2.
    pose proof (roundHalfEven_nonneg (n * 2 ^ (52 - exponent n (Qden x))) (Qden x)
                  ltac:(unfold n; nia)).
    lia.
  - assert (0 <= 2 ^ (exponent n (Qden x) - 52)) by apply Z.pow_nonneg, Z.le_0_2.
    pose proof (roundHalfEven_nonneg n (Qden x * Z.to_pos (2 ^ (exponent n (Qden x) - 52)))
                  ltac:(unfold n; lia)).
    nia.
Qed.

(** it does not take a number from 1 on below 1, *)
Lemma float64_ge_1 (x : Q) : (1 <= x)%Q -> (1 <= float64 x)%Q.
Proof.
  intros Hx. unfold float64.
  assert (Hnum : Z.pos (Qden x) <= Qnum x) by (unfold Qle in Hx; simpl in Hx; lia).
  destruct (Z.eqb_spec (Z.abs (Qnum x)) 0) as [Hz|_]; [lia|].
  destruct (Z.ltb_spec (Qnum x) 0) as [Hneg|_]; [lia|].
  rewrite Z.abs_eq by lia.
  set (n := Qnum x) in *. set (d := Qden x) in *.
  pose proof (exponent_nonneg n d Hnum) as He.
  pose proof (exponent_lower n d ltac:(lia) He) as Hlow.
  set (e := exponent n d) in *.
  destruct (Z.leb_spec e 52) as [Hs|Hs]; unfold Qle; cbn [Qnum Qden Qopp].
  - assert (Hm : 2 ^ 52 <= roundHalfEven (n * 2 ^ (52 - e)) d).
    { apply roundHalfEven_ge.
      replace (2 ^ 52) with (2 ^ e * 2 ^ (52 - e))
        by (rewrite <- Z.pow_add_r by lia; f_equal; lia).
      assert (0 <= 2 ^ (52 - e)) by apply Z.pow_nonneg, Z.le_0_2. nia. }
    assert (Hp : 0 < 2 ^ (52 - e)) by (apply Z.pow_pos_nonneg; lia).
    rewrite Z2Pos.id by exact Hp.
    assert (2 ^ (52 - e) <= 2 ^ 52) by (apply Z.pow_le_mono_r; lia).
    lia.
  - assert (Hp : 0 < 2 ^ (e - 52)) by (apply Z.pow_pos_nonneg; lia).
    assert (Hm : 2 ^ 52 <= roundHalfEven n (d * Z.to_pos (2 ^ (e - 52)))).
    { apply roundHalfEven_ge. rewrite Pos2Z.inj_mul, Z2Pos.id by exact Hp.
      replace (2 ^ e) with (2 ^ 52 * 2 ^ (e - 52)) in Hlow
        by (rewrite <- Z.pow_add_r by lia; f_equal; lia).
      nia. }
    assert (0 < 2 ^ 52) by reflexivity. nia.
Qed.

(** and it takes no number up to the largest float64 below 1 beyond it. *)
Lemma float64_below_1 (x : Q) :
  (0 <= x)%Q -> (x <= (2 ^ 53 - 1) # (2 ^ 53))%Q ->
  (float64 x <= (2 ^ 53 - 1) # (2 ^ 53))%Q.
Proof.
  intros H0 Hx. unfold float64.
  assert (Hnum : 0 <= Qnum x) by (unfold Qle in H0; simpl in H0; lia).
  assert (Hle : Qnum x * 2 ^ 53 <= (2 ^ 53 - 1) * Z.pos (Qden x))
    by (unfold Qle in Hx; simpl in Hx; exact Hx).
  destruct (Z.eqb_spec (Z.abs (Qnum x)) 0) as [_|Hne]; [discriminate|].
  destruct (Z.ltb_spec (Qnum x) 0) as [Hneg|_]; [lia|].
  rewrite Z.abs_eq in * by lia.
  set (n := Qnum x) in *. set (d := Qden x) in *.
  assert (Hlt : 0 < n < Z.pos d) by (change (2 ^ 53) with 9007199254740992 in Hle; lia).
  pose proof (exponent_neg n d Hlt) as He.
  pose proof (exponent_upper n d ltac:(lia) He) as Hup.
  set (e := exponent n d) in *.
  destruct (Z.leb_spec e 52) as [_|Hs]; [|lia].
  assert (Hp : 0 < 2 ^ (52 - e)) by (apply Z.pow_pos_nonneg; lia).
  unfold Qle; cbn [Qnum Qden Qopp]. rewrite Z2Pos.id by exact Hp.
  change (Z.pos (2 ^ 53)) with (2 ^ 53).
  destruct (Z.eq_dec e (-1)) as [He1|He1].
  - rewrite He1 in *. change (52 - -1) with 53 in *.
    assert (Hm : roundHalfEven (n * 2 ^ 53) d <= 2 ^ 53 - 1)
      by (apply roundHalfEven_le; lia).
    assert (0 < 2 ^ 53) by reflexivity. nia.
  - assert (Hm : roundHalfEven (n * 2 ^ (52 - e)) d <= 2 ^ 53).
    { apply roundHalfEven_le.
      replace (2 ^ (52 - e)) with (2 ^ (- e - 1) * 2 ^ 53)
        by (rewrite <- Z.pow_add_r by lia; f_equal; lia).
      assert (0 < 2 ^ 53) by reflexivity. nia. }
    set (m := roundHalfEven (n * 2 ^ (52 - e)) d) in *.
    replace (2 ^ (52 - e)) with (2 ^ (- e - 2) * 2 ^ 54)
      by (rewrite <- Z.pow_add_r by lia; f_equal; lia).
    assert (0 < 2 ^ (- e - 2)) by (apply Z.pow_pos_nonneg; lia).
    change (2 ^ 54) with 18014398509481984. change (2 ^ 53) with 9007199254740992 in *.
    nia.
Qed.

Lemma Qltb_iff (a b : Q) : Qltb a b = true <-> (a < b)%Q.
Proof. unfold Qltb, Qlt. apply Z.ltb_lt. Qed.

(** A duration is less than a second exactly when the float64 of its
    seconds is less than 1. *)
Lemma Seconds_below_1 (d : Duration) : (Seconds d < 1)%Q <-> d < Second.
Proof.
  unfold Seconds.
  pose proof (Z.quot_rem' d Second) as Hqr.
  assert (HS : Second = 1000000000) by reflexivity.
  destruct (Z.ltb_spec d 0) as [Hneg|Hpos].
  - (* negative: both parts are at most 0 *)
    assert (Hq : Z.quot d Second <= 0) by (apply Z.quot_le_upper_bound; rewrite ?HS; lia).
    assert (Hr : Z.rem d Second <= 0) by (apply Z.rem_nonpos; lia).
    split; [intros _; rewrite HS; lia|intros _].
    apply Qle_lt_trans with 0%Q; [|reflexivity].
    apply float64_nonpos.
    assert (Hy : (float64 (inject_Z (Z.rem d Second) / inject_Z Second) <= 0)%Q).
    { apply float64_nonpos. unfold Qle, Qdiv, Qmult, Qinv, inject_Z; simpl. lia. }
    assert (Hx : (inject_Z (Z.quot d Second) <= 0)%Q) by (unfold Qle; simpl; lia).
    lra.
  - destruct (Z.ltb_spec d Second) as [Hlt|Hge].
    + (* less than a second *)
      rewrite Z.quot_small, Z.rem_small by lia.
      split; [intros _; exact Hlt|intros _].
      assert (Hy0 : (0 <= inject_Z d / inject_Z Second)%Q)
        by (unfold Qle, Qdiv, Qmult, Qinv, inject_Z; simpl; lia).
      assert (Hy1 : (inject_Z d / inject_Z Second <= (2 ^ 53 - 1) # (2 ^ 53))%Q).
      { unfold Qle, Qdiv, Qmult, Qinv, inject_Z; simpl. rewrite HS in Hlt. lia. }
      pose proof (float64_nonneg _ Hy0) as Hf0.
      pose proof (float64_below_1 _ Hy0 Hy1) as Hf1.
      set (y := float64 (inject_Z d / inject_Z Second)) in *.
      assert (Hx0 : (0 <= inject_Z 0 + y)%Q) by (unfold inject_Z; lra).
      assert (Hx1 : (inject_Z 0 + y <= (2 ^ 53 - 1) # (2 ^ 53))%Q) by (unfold inject_Z; lra).
      pose proof (float64_below_1 _ Hx0 Hx1) as Hf.
      eapply Qle_lt_trans; [exact Hf|]. reflexivity.
    + (* a second or more *)
      split; [|lia]. intros Hlt1. exfalso.
      assert (Hq : 1 <= Z.quot d Second) by (apply Z.quot_le_lower_bound; lia).
      assert (Hr : 0 <= Z.rem d Second) by (apply Z.rem_nonneg; lia).
      assert (Hy : (0 <= float64 (inject_Z (Z.rem d Second) / inject_Z Second))%Q).
      { apply float64_nonneg. unfold Qle, Qdiv, Qmult, Qinv, inject_Z; simpl. lia. }
      assert (Hx : (1 <= inject_Z (Z.quot d Second))%Q) by (unfold Qle; simpl; lia).
      assert (H1 : (1 <= float64 (inject_Z (Z.quot d Second)
                               + float64 (inject_Z (Z.rem d Second) / inject_Z Second)))%Q)
        by (apply float64_ge_1; lra).
      lra.
Qed.

(** Rounding shows from 2^24 seconds on: 16777216.999999999 seconds are
    16777217 as a float64, and so as an int64. *)
Example Seconds_rounds_up :
  int64_of_Q (Seconds 16777216999999999) = 16777217 /\
  int64_of_Q (Seconds (30 * Second)) = 30 /\
  int64_of_Q (Seconds (- 1500 * 1000000)) = -1.
Proof. vm_compute. repeat split. Qed.

End golang_proofs.

(** ** go/vt/vterrors *)

Module vterrors_proofs.
Import golang vtrpcpb vterrors.

Lemma Code_eqb_eq (a b : vtrpcpb.Code) : Code_eqb a b = true <-> a = b.
Proof. destruct a, b; simpl; split; intros H; congruence. Qed.

Lemma wrapAll_snoc (e : error) (messages : list string) (m : string) :
  wrapAll e (messages ++ [m]) = wrapping (wrapAll e messages) m.
Proof. unfold wrapAll. rewrite fold_left_app. reflexivity. Qed.

(** However often an error is wrapped, [Code] and [RootCause] see
    through the wrappings: the code is that of the error wrapped, a
    [Wrap] of a non-nil error is never nil, and for an error that is not
    itself a wrapping [RootCause] gives it back; the message lists the
    messages, outermost first. *)
Theorem RootCause_undoes_Wrap :
  forall (e : error) (messages : list string),
    CodeOf (wrapAll e messages) = CodeOf e /\
    RootCause (wrapAll e messages) = RootCause e /\
    (Cause e = None -> RootCause (wrapAll e messages) = e) /\
    Cause (RootCause (wrapAll e messages)) = None /\
    (forall m, Wrap (Some (wrapAll e messages)) m = Some (wrapAll e (messages ++ [m])) /\
               Code (Wrap (Some (wrapAll e messages)) m) = Code (Some e)) /\
    Error (wrapAll e messages) = Join (rev messages ++ [Error e]) ": ".
Proof.
  intros e messages.
  assert (Hroot : forall x, Cause (RootCause x) = None).
  { induction x; simpl; auto. }
  induction messages as [|m messages IH] using rev_ind.
  - simpl. repeat split; auto.
    destruct e; simpl; intros H; try discriminate; reflexivity.
  - destruct IH as (Hcode & Hrc & Hflat & _ & Hwrap & Herr).
    rewrite wrapAll_snoc. simpl. repeat split; auto.
    + rewrite !wrapAll_snoc. reflexivity.
    + rewrite Herr, rev_app_distr. simpl.
      destruct (rev messages ++ [Error e])%list eqn:E; [|reflexivity].
      destruct (rev messages); discriminate.
Qed.

Lemma RootCause_undoes_Wrap_witness :
  RootCause (wrapAll (fundamental "lock lost" Code_ABORTED) ["a"; "b"])
  = fundamental "lock lost" Code_ABORTED.
Proof.
  apply (proj1 (proj2 (proj2 (RootCause_undoes_Wrap
           (fundamental "lock lost" Code_ABORTED) ["a"; "b"])))).
  reflexivity.
Defined.

Lemma length_append (a b : string) :
  String.length (a ++ b) = (String.length a + String.length b)%nat.
Proof. induction a; simpl; auto. Qed.

Lemma length_substring_0 (n : nat) (s : string) :
  (n <= String.length s)%nat -> String.length (substring 0 n s) = n.
Proof.
  revert s. induction n as [|n IH]; intros s Hn.
  - destruct s; reflexivity.
  - destruct s as [|c s]; simpl in *; [lia|]. rewrite IH; [reflexivity|lia].
Qed.

(** [TruncateError] keeps the code of the error and never returns nil
    for a non-nil error.  From [max] = 11 on the message of the result is
    at most [max] bytes long; for [max] between 1 and 10 a message that
    is too long is replaced by the 11 bytes of "[TRUNCATED]", which is
    longer than [max]; [max] <= 0 leaves the error as it is. *)
Theorem TruncateError_bounds :
  forall (e : error) (max : Z),
    Code (TruncateError (Some e) max) = CodeOf e /\
    TruncateError (Some e) max <> None /\
    (11 <= max ->
     Z.of_nat (String.length (show (TruncateError (Some e) max))) <= max) /\
    (0 < max < 11 -> max < Z.of_nat (String.length (Error e)) ->
     show (TruncateError (Some e) max) = "[TRUNCATED]") /\
    (max <= 0 \/ Z.of_nat (String.length (Error e)) <= max ->
     TruncateError (Some e) max = Some e).
Proof.
  intros e max. unfold TruncateError.
  destruct (Z.leb_spec max 0) as [H0|H0]; simpl orb.
  { repeat split; try discriminate; try lia. }
  destruct (Z.leb_spec (Z.of_nat (String.length (Error e))) max) as [Hlen|Hlen].
  { repeat split; try discriminate; try lia. intros _. simpl. exact Hlen. }
  destruct (Z.leb_spec max 12) as [H12|H12].
  - repeat split; try discriminate; try lia. intros H11. simpl. lia.
  - repeat split; try discriminate; try lia.
    intros _. simpl show. rewrite length_append, length_substring_0 by lia.
    simpl String.length. lia.
Qed.

Lemma TruncateError_bounds_witness :
  show (TruncateError (New Code_NOT_FOUND "keyspace commerce not found") 5) = "[TRUNCATED]".
Proof.
  apply (proj1 (proj2 (proj2 (proj2 (TruncateError_bounds
           (fundamental "keyspace commerce not found" Code_NOT_FOUND) 5)))));
    simpl; lia.
Defined.

(** [Equals] is an equivalence on error values that looks only at the
    message and the code: nil equals nothing but nil, and a wrapped
    error equals the flat error with the same text and code. *)
Theorem Equals_equivalence :
  (forall a, Equals a a = true) /\
  (forall a b, Equals a b = Equals b a) /\
  (forall a b c, Equals a b = true -> Equals b c = true -> Equals a c = true) /\
  (forall a b, Equals a b = true -> show a = show b /\ Code a = Code b) /\
  (forall e, Equals None (Some e) = false) /\
  (forall cause message,
      Equals (Wrap (Some cause) message)
             (New (CodeOf cause) (message ++ ": " ++ Error cause)) = true).
Proof.
  assert (Hrefl : forall c, Code_eqb c c = true) by (intros c; apply Code_eqb_eq; reflexivity).
  repeat split.
  - intros [a|]; simpl; [|reflexivity]. rewrite String.eqb_refl, Hrefl. reflexivity.
  - intros [a|] [b|]; simpl; try reflexivity.
    rewrite String.eqb_sym. f_equal.
    destruct (Code_eqb (CodeOf a) (CodeOf b)) eqn:E1, (Code_eqb (CodeOf b) (CodeOf a)) eqn:E2;
      try reflexivity.
    + apply Code_eqb_eq in E1. rewrite E1, Hrefl in E2. discriminate.
    + apply Code_eqb_eq in E2. rewrite E2, Hrefl in E1. discriminate.
  - intros [a|] [b|] [c|]; simpl; try discriminate; auto.
    intros H1 H2. apply andb_true_iff in H1, H2.
    destruct H1 as [H1 H1'], H2 as [H2 H2'].
    apply String.eqb_eq in H1, H2. apply Code_eqb_eq in H1', H2'.
    rewrite H1, H2, H1', H2', String.eqb_refl, Hrefl. reflexivity.
  - destruct a as [a|], b as [b|]; simpl in *; try discriminate; auto.
    apply andb_true_iff in H. destruct H as [H _]. apply String.eqb_eq in H. exact H.
  - destruct a as [a|], b as [b|]; simpl in *; try discriminate; auto.
    apply andb_true_iff in H. destruct H as [_ H]. apply Code_eqb_eq in H. exact H.
  - intros cause message. simpl. rewrite String.eqb_refl, Hrefl. reflexivity.
Qed.

Lemma Equals_equivalence_witness :
  show (Wrap (Some contextCanceled) "lock lost") = "lock lost: context canceled" /\
  Code (Wrap (Some contextCanceled) "lock lost") = Code_CANCELED.
Proof.
  apply (proj1 (proj2 (proj2 (proj2 Equals_equivalence)))
               (Wrap (Some contextCanceled) "lock lost")
               (New Code_CANCELED "lock lost: context canceled")).
  reflexivity.
Defined.

End vterrors_proofs.

Module vtbackup_proofs.
Import golang vterrors vtbackup.

Section Prune.
Context {S : Type} `{BackupStorage S}.
Variable timeParse : string -> Z * goerror.
Variable clock : nat -> Z.
Variable flags : Flags.

(** The loop makes at most [numBackups - minRetentionCount] successful
    removals when it starts above the retention count. *)
Lemma pruneLoop_removed_bound :
  forall dir backups numBackups w err w',
    minRetentionCount flags < numBackups ->
    pruneLoop timeParse clock flags dir backups numBackups w = (err, w') ->
    exists new,
      removed w' = (removed w ++ new)%list /\
      Z.of_nat (List.length new) <= numBackups - minRetentionCount flags /\
      Z.of_nat (List.length new) <= Z.of_nat (List.length backups).
Proof.
  intros dir backups; induction backups as [|b rest IH];
    intros numBackups w err w' Hgt Hrun; simpl in Hrun.
  - inversion Hrun; subst. exists []. rewrite app_nil_r. simpl. split; [reflexivity|lia].
  - destruct (parseBackupTime timeParse (Name b)) as [bt [e|]].
    + inversion Hrun; subst. exists []. rewrite app_nil_r. simpl. split; [reflexivity|lia].
    + unfold Since in Hrun. cbv zeta in Hrun.
      match type of Hrun with
      | context [if ?c then _ else _] => destruct c
      end.
      * inversion Hrun; subst. exists []. simpl. rewrite app_nil_r. split; [reflexivity|lia].
      * simpl in Hrun.
        destruct (RemoveBackup (storage w) dir (Name b)) as [st [e|]].
        -- inversion Hrun; subst. exists []. simpl. rewrite app_nil_r. split; [reflexivity|lia].
        -- destruct (Z.eqb_spec (numBackups - 1) (minRetentionCount flags)) as [Heq|Hne].
           ++ inversion Hrun; subst. exists [Name b]. simpl. split; [reflexivity|lia].
           ++ apply IH in Hrun; [|lia].
              destruct Hrun as (new & Hrem & Hb1 & Hb2). simpl in Hrem.
              exists (Name b :: new). split.
              ** rewrite Hrem, <- app_assoc. reflexivity.
              ** simpl List.length. lia.
Qed.

(** C10.  [pruneBackups] only ever adds to the record of removed
    backups, and what it adds is bounded: with [min_retention_time] at
    zero it removes nothing, whatever the age of the backups; when the
    listing has at most [min_retention_count] backups it removes nothing;
    and in every case the number of backups listed minus the number
    removed is at least the smaller of the number listed and
    [min_retention_count], so no removal takes the location below the
    retention count. *)
Theorem pruneBackups_keeps_min_retention_count :
  forall (dir : string) (w : World S),
    exists new : list string,
      removed (snd (pruneBackups timeParse clock flags dir w)) = (removed w ++ new)%list /\
      (minRetentionTime flags = 0 -> new = []) /\
      (forall backups lerr,
          ListBackups (storage w) dir = (backups, lerr) ->
          (Z.of_nat (List.length backups) <= minRetentionCount flags -> new = []) /\
          Z.min (Z.of_nat (List.length backups)) (minRetentionCount flags)
            <= Z.of_nat (List.length backups) - Z.of_nat (List.length new)).
Proof.
  intros dir w. unfold pruneBackups.
  destruct (Z.eqb_spec (minRetentionTime flags) 0) as [Hz|Hnz].
  - exists []. simpl. rewrite app_nil_r. repeat split; auto. simpl. lia.
  - destruct (ListBackups (storage w) dir) as [backups [e|]] eqn:Hlist.
    + exists []. simpl. rewrite app_nil_r. repeat split; auto.
      inversion H0; subst. simpl. lia.
    + destruct (Z.leb_spec (Z.of_nat (List.length backups)) (minRetentionCount flags))
        as [Hle|Hgt].
      * exists []. simpl. rewrite app_nil_r. repeat split; auto.
        inversion H0; subst. simpl. lia.
      * destruct (pruneLoop timeParse clock flags dir backups
                    (Z.of_nat (List.length backups)) w) as [err w'] eqn:Hrun.
        destruct (pruneLoop_removed_bound _ _ _ _ _ _ Hgt Hrun) as (new & Hrem & Hb1 & Hb2).
        exists new. simpl. split; [exact Hrem|]. split; [intros; lia|].
        intros backups' lerr Heq. inversion Heq; subst. split; [lia|lia].
Qed.

End Prune.

(** Five backups, a retention time of one hour and a retention count of
    two: whatever is removed, two backups are left. *)
Lemma pruneBackups_retention_witness :
  exists new : list string,
    removed (snd (pruneBackups stampParse (fun _ => 100000 * Second)
                    {| minRetentionTime := 60 * Minute; minRetentionCount := 2 |} "ks/0"
                    {| storage := fiveBackups; ticks := 0; removed := [] |}))
    = new /\
    2 <= 5 - Z.of_nat (List.length new).
Proof.
  destruct (pruneBackups_keeps_min_retention_count stampParse (fun _ => 100000 * Second)
              {| minRetentionTime := 60 * Minute; minRetentionCount := 2 |} "ks/0"
              {| storage := fiveBackups; ticks := 0; removed := [] |})
    as (new & Hrem & _ & Hlist).
  exists new. split; [exact Hrem|].
  exact (proj2 (Hlist fiveBackups None eq_refl)).
Defined.

(** A run on the in-memory storage: five backups, a retention time of
    one hour and a retention count of two; the clock stands at 100000
    seconds.  The three oldest are removed. *)
Example pruneBackups_run :
  pruneBackups stampParse (fun _ => 100000 * Second)
    {| minRetentionTime := 60 * Minute; minRetentionCount := 2 |} "ks/0"
    {| storage := fiveBackups; ticks := 0; removed := [] |}
  = (None, {| storage := [ {| Name := "dddd.0.x" |}; {| Name := "eeeee.0.x" |} ];
              ticks := 3; removed := ["a.0.x"; "bb.0.x"; "ccc.0.x"] |}).
Proof. vm_compute. reflexivity. Qed.

Example pruneBackups_disabled :
  pruneBackups stampParse (fun _ => 100000 * Second)
    {| minRetentionTime := 0; minRetentionCount := 2 |} "ks/0"
    {| storage := fiveBackups; ticks := 0; removed := [] |}
  = (None, {| storage := fiveBackups; ticks := 0; removed := [] |}).
Proof. vm_compute. reflexivity. Qed.

(** ** More on pruning and on the decision to back up *)

Lemma Split_length (s : string) (sep : ascii) :
  List.length (Split s sep) = Datatypes.S (Count s sep).
Proof.
  induction s as [|c s IH]; simpl; [reflexivity|].
  destruct (Ascii.eqb c sep); simpl; [rewrite IH; reflexivity|].
  destruct (Split s sep) as [|hd tl]; simpl in *; [discriminate | exact IH].
Qed.

Lemma Split_nonempty (s : string) (sep : ascii) : Split s sep <> [].
Proof.
  intros E. pose proof (Split_length s sep) as H. rewrite E in H. discriminate.
Qed.

(** [strings.Join] after [strings.Split] gives the string back, and no
    part holds the separator. *)
Lemma Join_Split (s : string) (sep : ascii) :
  Join (Split s sep) (String sep "") = s /\
  Forall (fun part => Count part sep = O) (Split s sep).
Proof.
  induction s as [|c s IH]; simpl.
  - split; [reflexivity | repeat constructor].
  - destruct IH as [IHj IHc]. destruct (Ascii.eqb_spec c sep) as [->|Hne].
    + split.
      * destruct (Split s sep) as [|hd tl] eqn:E; [exfalso; eapply Split_nonempty; eauto|].
        simpl in *. rewrite IHj. reflexivity.
      * constructor; [reflexivity | exact IHc].
    + destruct (Split s sep) as [|hd tl] eqn:E; [exfalso; eapply Split_nonempty; eauto|].
      apply Forall_cons_iff in IHc. destruct IHc as [Hhd Htl]. split.
      * simpl in *. destruct tl; simpl in *; rewrite <- IHj; reflexivity.
      * constructor; [|exact Htl]. simpl.
        destruct (Ascii.eqb_spec c sep); [contradiction | exact Hhd].
Qed.

(** [parseBackupTime] takes exactly the names with two dots: any other
    name gives the "not in expected format" error; a name
    "date.time.alias" is parsed by handing "date.time" to the time
    parser, whose time, or whose error, wrapped, is the result. *)
Theorem parseBackupTime_format :
  forall (timeParse : string -> Z * goerror) (name : string),
    (Count name "." <> 2%nat ->
     parseBackupTime timeParse name
     = (0, Some (errorString
                   ("backup name not in expected format (date.time.tablet-alias): " ++ name)))) /\
    (Count name "." = 2%nat ->
     exists date time tabletAlias,
       name = date ++ "." ++ time ++ "." ++ tabletAlias /\
       Count date "." = O /\ Count time "." = O /\ Count tabletAlias "." = O /\
       parseBackupTime timeParse name
       = match timeParse (date ++ "." ++ time) with
         | (_, Some e) =>
             (0, Some (errorString ("can't parse timestamp from backup " ++ quote name
                                      ++ ": " ++ Error e)))
         | (backupTime, None) => (backupTime, None)
         end).
Proof.
  intros timeParse name. unfold parseBackupTime.
  pose proof (Split_length name ".") as Hlen.
  destruct (Join_Split name ".") as [Hjoin Hparts].
  destruct (Split name ".") as [|p0 [|p1 [|p2 [|p3 rest]]]]; simpl in Hlen; split; intros Hc;
    try reflexivity; try (exfalso; lia).
  exists p0, p1, p2.
  apply Forall_cons_iff in Hparts. destruct Hparts as [H0 Hparts].
  apply Forall_cons_iff in Hparts. destruct Hparts as [H1 Hparts].
  apply Forall_cons_iff in Hparts. destruct Hparts as [H2 _].
  simpl in Hjoin. repeat split; auto.
Qed.

Lemma parseBackupTime_format_witness :
  exists date time tabletAlias,
    "2024-01-02.030405.zone1-0000000101" = date ++ "." ++ time ++ "." ++ tabletAlias /\
    parseBackupTime stampParse "2024-01-02.030405.zone1-0000000101" = (100000 * Second, None).
Proof.
  destruct (proj2 (parseBackupTime_format stampParse "2024-01-02.030405.zone1-0000000101")
                  eq_refl)
    as (date & time & tabletAlias & Hname & Hd & Ht & Ha & Hparse).
  exists date, time, tabletAlias. split; [exact Hname|]. reflexivity.
Defined.

Section PruneMore.
Context {S : Type} `{BackupStorage S}.
Variable timeParse : string -> Z * goerror.
Variable clock : nat -> Z.
Variable flags : Flags.

Lemma Since_ageAt (w : World S) (t : Z) :
  Since clock w t
  = (ageAt clock (ticks w) t,
     {| storage := storage w; ticks := Datatypes.S (ticks w); removed := removed w |}).
Proof. reflexivity. Qed.

(** What the loop of [pruneBackups] has done when it ends. *)
Lemma pruneLoop_prefix :
  forall dir backups numBackups w err w',
    pruneLoop timeParse clock flags dir backups numBackups w = (err, w') ->
    exists k : nat,
      (k <= List.length backups)%nat /\
      removed w' = (removed w ++ map Name (firstn k backups))%list /\
      (forall i b, (i < k)%nat -> nth_error backups i = Some b ->
         exists backupTime,
           parseBackupTime timeParse (Name b) = (backupTime, None) /\
           minRetentionTime flags <= ageAt clock (ticks w + i) backupTime) /\
      (err = None ->
       k = List.length backups \/
       numBackups - Z.of_nat k = minRetentionCount flags \/
       exists b backupTime,
         nth_error backups k = Some b /\
         parseBackupTime timeParse (Name b) = (backupTime, None) /\
         ageAt clock (ticks w + k) backupTime < minRetentionTime flags) /\
      (err <> None ->
       exists b, nth_error backups k = Some b /\
                 (snd (parseBackupTime timeParse (Name b)) <> None \/
                  exists st, snd (RemoveBackup st dir (Name b)) <> None)).
Proof.
  intros dir backups. induction backups as [|b rest IH]; intros numBackups w err w' Hrun;
    cbn [pruneLoop] in Hrun.
  - inversion Hrun; subst. exists O. simpl. rewrite app_nil_r.
    repeat split; auto; try lia. intros Hne. contradiction.
  - destruct (parseBackupTime timeParse (Name b)) as [backupTime [e|]] eqn:Hparse.
    { inversion Hrun; subst. exists O. simpl. rewrite app_nil_r.
      repeat split; auto; try lia; try discriminate.
      intros _. exists b. split; [reflexivity|]. left. rewrite Hparse. discriminate. }
    rewrite Since_ageAt in Hrun. cbv beta iota zeta in Hrun.
    destruct (Z.ltb_spec (ageAt clock (ticks w) backupTime) (minRetentionTime flags))
      as [Hyoung|Hold].
    { inversion Hrun; subst. exists O. simpl. rewrite app_nil_r.
      repeat split; auto; try lia.
      - intros _. right. right. exists b, backupTime.
        rewrite Nat.add_0_r. auto.
      - intros Hne. contradiction. }
    cbn [storage ticks removed] in Hrun.
    destruct (RemoveBackup (storage w) dir (Name b)) as [st [e|]] eqn:Hremove.
    { inversion Hrun; subst. exists O. simpl. rewrite app_nil_r.
      repeat split; auto; try lia; try discriminate.
      intros _. exists b. split; [reflexivity|]. right. exists (storage w).
      rewrite Hremove. discriminate. }
    destruct (Z.eqb_spec (numBackups - 1) (minRetentionCount flags)) as [Heq|Hne].
    { inversion Hrun; subst. exists 1%nat. simpl.
      repeat split; auto; try lia.
      - intros i b0 Hi Hb0. assert (i = O) by lia. subst i. simpl in Hb0.
        inversion Hb0; subst. exists backupTime. rewrite Nat.add_0_r. auto.
      - intros Hnn. contradiction. }
    apply IH in Hrun. destruct Hrun as (k & Hk & Hrem & Hold' & Hnil & Herr).
    simpl in Hrem, Hold', Hnil.
    exists (Datatypes.S k). simpl. repeat split.
    + lia.
    + rewrite Hrem, <- app_assoc. reflexivity.
    + intros i b0 Hi Hb0. destruct i as [|i]; simpl in Hb0.
      * inversion Hb0; subst. exists backupTime. rewrite Nat.add_0_r. auto.
      * destruct (Hold' i b0 ltac:(lia) Hb0) as (bt & Hp & Hage).
        exists bt. split; [exact Hp|].
        replace (ticks w + Datatypes.S i)%nat with (Datatypes.S (ticks w) + i)%nat by lia.
        exact Hage.
    + intros Hnone. destruct (Hnil Hnone) as [Hall | [Hcount | (b0 & bt & Hb0 & Hp & Hage)]].
      * left. lia.
      * right. left. lia.
      * right. right. exists b0, bt. repeat split; auto.
        replace (ticks w + Datatypes.S k)%nat with (Datatypes.S (ticks w) + k)%nat by lia.
        exact Hage.
    + exact Herr.
Qed.

(** [pruneBackups] removes the oldest backups only, with no gap: what
    it removes is a prefix of the listing, which is oldest first, and
    every backup that it removes was at least [min_retention_time] old at
    the reading of the clock taken for it. *)
Theorem pruneBackups_removes_oldest_first :
  forall (dir : string) (w : World S) (backups : list BackupHandle) (lerr : goerror),
    ListBackups (storage w) dir = (backups, lerr) ->
    exists k : nat,
      (k <= List.length backups)%nat /\
      removed (snd (pruneBackups timeParse clock flags dir w))
      = (removed w ++ map Name (firstn k backups))%list /\
      forall i b, (i < k)%nat -> nth_error backups i = Some b ->
        exists backupTime,
          parseBackupTime timeParse (Name b) = (backupTime, None) /\
          minRetentionTime flags <= ageAt clock (ticks w + i) backupTime.
Proof.
  intros dir w backups lerr Hlist. unfold pruneBackups. rewrite Hlist.
  assert (Hnothing : forall err : goerror, exists k : nat,
             (k <= List.length backups)%nat /\
             removed (snd (err, w)) = (removed w ++ map Name (firstn k backups))%list /\
             forall i b, (i < k)%nat -> nth_error backups i = Some b ->
               exists backupTime,
                 parseBackupTime timeParse (Name b) = (backupTime, None) /\
                 minRetentionTime flags <= ageAt clock (ticks w + i) backupTime).
  { intros err. exists O. simpl. rewrite app_nil_r. repeat split; auto; lia. }
  destruct (minRetentionTime flags =? 0); [apply Hnothing|].
  destruct lerr as [e|]; [apply Hnothing|].
  destruct (Z.of_nat (List.length backups) <=? minRetentionCount flags); [apply Hnothing|].
  destruct (pruneLoop timeParse clock flags dir backups (Z.of_nat (List.length backups)) w)
    as [err w'] eqn:Hrun.
  destruct (pruneLoop_prefix _ _ _ _ _ _ Hrun) as (k & Hk & Hrem & Hold & _).
  exists k. simpl. auto.
Qed.

(** When [pruneBackups] returns nil it has pruned as far as the policy
    lets it: pruning is disabled, or the listing had no more than
    [min_retention_count] backups, or it removed the [k] oldest and then
    either [min_retention_count] backups were left, or the next backup
    was younger than [min_retention_time], or none was left.  When it
    returns an error, the listing failed, or the name of the next backup
    could not be parsed, or its removal failed. *)
Theorem pruneBackups_stops_for_a_reason :
  forall (dir : string) (w w' : World S) (backups : list BackupHandle) (err : goerror),
    ListBackups (storage w) dir = (backups, None) ->
    minRetentionTime flags <> 0 ->
    pruneBackups timeParse clock flags dir w = (err, w') ->
    exists k : nat,
      removed w' = (removed w ++ map Name (firstn k backups))%list /\
      (k <= List.length backups)%nat /\
      (err = None ->
       (k = O /\ Z.of_nat (List.length backups) <= minRetentionCount flags) \/
       Z.of_nat (List.length backups) - Z.of_nat k = minRetentionCount flags \/
       k = List.length backups \/
       exists b backupTime,
         nth_error backups k = Some b /\
         parseBackupTime timeParse (Name b) = (backupTime, None) /\
         ageAt clock (ticks w + k) backupTime < minRetentionTime flags) /\
      (err <> None ->
       exists b, nth_error backups k = Some b /\
                 (snd (parseBackupTime timeParse (Name b)) <> None \/
                  exists st, snd (RemoveBackup st dir (Name b)) <> None)).
Proof.
  intros dir w w' backups err Hlist Hon Hrun. unfold pruneBackups in Hrun.
  rewrite Hlist in Hrun.
  destruct (Z.eqb_spec (minRetentionTime flags) 0) as [Hz|_]; [contradiction|].
  destruct (Z.leb_spec (Z.of_nat (List.length backups)) (minRetentionCount flags)) as [Hle|Hgt].
  - inversion Hrun; subst. exists O. simpl. rewrite app_nil_r.
    repeat split; auto; try lia. intros Hne. contradiction.
  - destruct (pruneLoop_prefix _ _ _ _ _ _ Hrun) as (k & Hk & Hrem & _ & Hnil & Herr).
    exists k. repeat split; auto.
    intros Hnone. destruct (Hnil Hnone) as [Hall | [Hcount | Hyoung]]; auto.
Qed.

End PruneMore.

Lemma pruneBackups_removes_oldest_first_witness :
  exists k : nat,
    removed (snd (pruneBackups stampParse (fun _ => 100000 * Second)
                    {| minRetentionTime := 60 * Minute; minRetentionCount := 2 |} "ks/0"
                    {| storage := fiveBackups; ticks := 0; removed := [] |}))
    = map Name (firstn k fiveBackups).
Proof.
  destruct (pruneBackups_removes_oldest_first (H := memoryStorage) stampParse (fun _ => 100000 * Second)
              {| minRetentionTime := 60 * Minute; minRetentionCount := 2 |} "ks/0"
              {| storage := fiveBackups; ticks := 0; removed := [] |} fiveBackups None eq_refl)
    as (k & _ & Hrem & _).
  exists k. exact Hrem.
Defined.

Lemma pruneBackups_stops_for_a_reason_witness :
  exists k : nat,
    (k <= 5)%nat /\
    (Z.of_nat 5 - Z.of_nat k = 2 \/ k = 5%nat \/
     exists b backupTime,
       nth_error fiveBackups k = Some b /\
       parseBackupTime stampParse (Name b) = (backupTime, None) /\
       ageAt (fun _ => 100000 * Second) k backupTime < 60 * Minute).
Proof.
  destruct (pruneBackups_stops_for_a_reason (H := memoryStorage) stampParse (fun _ => 100000 * Second)
              {| minRetentionTime := 60 * Minute; minRetentionCount := 2 |} "ks/0"
              {| storage := fiveBackups; ticks := 0; removed := [] |}
              {| storage := [ {| Name := "dddd.0.x" |}; {| Name := "eeeee.0.x" |} ];
                 ticks := 3; removed := ["a.0.x"; "bb.0.x"; "ccc.0.x"] |}
              fiveBackups None eq_refl ltac:(discriminate) ltac:(vm_compute; reflexivity))
    as (k & _ & Hk & Hnil & _).
  exists k. split; [exact Hk|].
  destruct (Hnil eq_refl) as [[_ Hle] | [Hcount | [Hall | Hyoung]]].
  - exfalso. simpl in Hle. lia.
  - left. exact Hcount.
  - right. left. exact Hall.
  - right. right. exact Hyoung.
Defined.

Section BackupMore.
Context {S : Type} `{BackupStorage S}.
Variable timeParse : string -> Z * goerror.
Variable clock : nat -> Z.
Variable getBackupManifest : BackupHandle -> goerror.
Variable bflags : BackupFlags.
Variable topo : Topo.

Lemma lastCompleteFrom_spec (fromLast : list BackupHandle) :
  match lastCompleteFrom getBackupManifest fromLast with
  | Some b =>
      exists newer older,
        fromLast = (newer ++ b :: older)%list /\
        checkBackupComplete getBackupManifest b = None /\
        Forall (fun x => checkBackupComplete getBackupManifest x <> None) newer
  | None => Forall (fun x => checkBackupComplete getBackupManifest x <> None) fromLast
  end.
Proof.
  induction fromLast as [|b rest IH]; simpl; [constructor|].
  destruct (checkBackupComplete getBackupManifest b) as [e|] eqn:Hb.
  - destruct (lastCompleteFrom getBackupManifest rest) as [found|].
    + destruct IH as (newer & older & -> & Hfound & Hnewer).
      exists (b :: newer), older. repeat split; auto.
      constructor; [rewrite Hb; discriminate | exact Hnewer].
    + constructor; [rewrite Hb; discriminate | exact IH].
  - exists [], rest. repeat split; auto.
Qed.

(** [lastCompleteBackup] returns the latest backup of the listing whose
    MANIFEST can be read: every backup after it is incomplete; it
    returns nil exactly when no backup of the listing is complete. *)
Theorem lastCompleteBackup_is_latest_complete :
  forall backups : list BackupHandle,
    match lastCompleteBackup getBackupManifest backups with
    | Some b =>
        exists older newer,
          backups = (older ++ b :: newer)%list /\
          getBackupManifest b = None /\
          Forall (fun x => getBackupManifest x <> None) newer
    | None => Forall (fun x => getBackupManifest x <> None) backups
    end.
Proof.
  intros backups.
  assert (Hsame : forall l,
             Forall (fun x => checkBackupComplete getBackupManifest x <> None) l ->
             Forall (fun x => getBackupManifest x <> None) l).
  { intros l Hl. eapply Forall_impl; [|exact Hl]. intros x Hx. cbv beta in Hx.
    unfold checkBackupComplete in Hx. destruct (getBackupManifest x); congruence. }
  unfold lastCompleteBackup.
  destruct backups as [|b0 rest]; [constructor|].
  cbn [List.length Nat.eqb].
  pose proof (lastCompleteFrom_spec (rev (b0 :: rest))) as Hspec.
  destruct (lastCompleteFrom getBackupManifest (rev (b0 :: rest))) as [b|].
  - destruct Hspec as (newer & older & Hrev & Hb & Hnewer).
    exists (rev older), (rev newer). repeat split.
    + rewrite <- (rev_involutive (b0 :: rest)), Hrev, rev_app_distr. simpl.
      rewrite <- app_assoc. reflexivity.
    + unfold checkBackupComplete in Hb. destruct (getBackupManifest b); congruence.
    + apply Hsame, Forall_rev, Hnewer.
  - apply Hsame. rewrite <- (rev_involutive (b0 :: rest)). apply Forall_rev, Hspec.
Qed.

(** [shouldBackup] says yes only without an error, and only in these
    cases.  In initial-backup mode: no backup of the listing is complete,
    and the shard does not exist or none of its tablets is in the serving
    graph.  Otherwise: no backup is complete and the first backup is
    allowed, or there is a last complete backup and either no minimum
    interval is set or the backup is at least that old.  It changes
    nothing in the storage. *)
Theorem shouldBackup_says_yes_only_when :
  forall (dir : string) (w w' : World S) (err : goerror),
    shouldBackup timeParse clock getBackupManifest bflags topo dir w = ((true, err), w') ->
    err = None /\ storage w' = storage w /\ removed w' = removed w /\
    exists backups,
      ListBackups (storage w) dir = (backups, None) /\
      if initialBackup bflags then
        lastCompleteBackup getBackupManifest backups = None /\
        ((exists shardErr, getShard topo = Some shardErr /\ isNoNode topo shardErr = true) \/
         (getShard topo = None /\
          exists tablets, getTabletMapForShard topo = (tablets, None) /\
                          Forall (fun tablet => snd tablet = false) tablets))
      else
        (lastCompleteBackup getBackupManifest backups = None /\
         allowFirstBackup bflags = true) \/
        (exists last,
            lastCompleteBackup getBackupManifest backups = Some last /\
            (minBackupInterval bflags = 0 \/
             exists lastBackupTime,
               parseBackupTime timeParse (Name last) = (lastBackupTime, None) /\
               minBackupInterval bflags <= ageAt clock (ticks w) lastBackupTime)).
Proof.
  assert (Hserving : forall tablets, firstServing tablets = None ->
                                     Forall (fun tablet => snd tablet = false) tablets).
  { induction tablets as [|[a [|]] rest IH]; simpl; intros Hf;
      [constructor | discriminate | constructor; auto]. }
  intros dir w w' err Hrun. unfold shouldBackup in Hrun.
  destruct (ListBackups (storage w) dir) as [backups [e|]] eqn:Hlist; [discriminate|].
  destruct (initialBackup bflags).
  - destruct (lastCompleteBackup getBackupManifest backups) as [b|] eqn:Hlast; [discriminate|].
    destruct (getShard topo) as [shardErr|] eqn:Hshard.
    + destruct (isNoNode topo shardErr) eqn:Hnn; [|discriminate].
      inversion Hrun; subst. repeat split; auto.
      exists backups. repeat split; auto. left. eauto.
    + destruct (getTabletMapForShard topo) as [tablets [e|]] eqn:Hmap; [discriminate|].
      destruct (firstServing tablets) as [a|] eqn:Hfirst; [discriminate|].
      inversion Hrun; subst. repeat split; auto.
      exists backups. repeat split; auto. right. split; [reflexivity|].
      exists tablets. auto.
  - destruct ((List.length backups =? 0)%nat && negb (allowFirstBackup bflags));
      [discriminate|].
    destruct (lastCompleteBackup getBackupManifest backups) as [last|] eqn:Hlast.
    + destruct (Z.eqb_spec (minBackupInterval bflags) 0) as [Hz|Hnz].
      * inversion Hrun; subst. repeat split; auto.
        exists backups. split; [reflexivity|]. right. exists last. split; [exact Hlast|]. auto.
      * destruct (parseBackupTime timeParse (Name last)) as [lastBackupTime [e|]] eqn:Hparse;
          [discriminate|].
        unfold Since in Hrun. cbv zeta in Hrun.
        match type of Hrun with
        | context [if ?c then _ else _] => destruct c eqn:Hage
        end; [discriminate|].
        inversion Hrun; subst. simpl. repeat split; auto.
        exists backups. split; [reflexivity|]. right. exists last. split; [exact Hlast|].
        right. exists lastBackupTime. split; [exact Hparse|].
        apply Z.ltb_ge in Hage. exact Hage.
    + destruct (allowFirstBackup bflags); [|discriminate].
      inversion Hrun; subst. repeat split; auto.
      exists backups. split; [reflexivity|]. left. auto.
Qed.

(** In initial-backup mode, when [GetShard] fails with an error other
    than "no node", [shouldBackup] refuses, and the message that it
    returns does not name that error: it is formatted with the error of
    [ListBackups], which is nil, and ends in "<nil>". *)
Theorem shouldBackup_hides_the_shard_error :
  forall (dir : string) (w : World S) (backups : list BackupHandle) (shardErr : error),
    initialBackup bflags = true ->
    ListBackups (storage w) dir = (backups, None) ->
    lastCompleteBackup getBackupManifest backups = None ->
    getShard topo = Some shardErr ->
    isNoNode topo shardErr = false ->
    shouldBackup timeParse clock getBackupManifest bflags topo dir w
    = ((false,
        Some (errorString
                ("failed to check whether shard "
                   ++ (initKeyspace bflags ++ "/" ++ initShard bflags)
                   ++ " exists before doing initial backup: <nil>"))),
       w).
Proof.
  intros dir w backups shardErr Hinit Hlist Hlast Hshard Hnn.
  unfold shouldBackup. rewrite Hlist, Hinit, Hlast, Hshard, Hnn. reflexivity.
Qed.

End BackupMore.

Lemma lastCompleteBackup_witness :
  exists older newer,
    fiveBackups = (older ++ {| Name := "dddd.0.x" |} :: newer)%list /\
    Forall (fun x => (if String.eqb (Name x) "eeeee.0.x"
                      then Some (errorString "no MANIFEST") else None) <> None) newer.
Proof.
  pose proof (lastCompleteBackup_is_latest_complete
                (fun b => if String.eqb (Name b) "eeeee.0.x"
                          then Some (errorString "no MANIFEST") else None)
                fiveBackups) as Hlast.
  cbv beta in Hlast.
  change (lastCompleteBackup _ fiveBackups) with (Some {| Name := "dddd.0.x" |}) in Hlast.
  cbv iota in Hlast.
  destruct Hlast as (older & newer & Hsplit & _ & Hnewer).
  exists older, newer. split; [exact Hsplit | exact Hnewer].
Defined.

Lemma shouldBackup_says_yes_witness :
  lastCompleteBackup (fun _ => None) fiveBackups = Some {| Name := "eeeee.0.x" |} /\
  exists lastBackupTime,
    parseBackupTime stampParse "eeeee.0.x" = (lastBackupTime, None) /\
    60 * Minute <= ageAt (fun _ => 100000 * Second) 0 lastBackupTime.
Proof.
  destruct (shouldBackup_says_yes_only_when (H := memoryStorage)
              stampParse (fun _ => 100000 * Second) (fun _ => None)
              {| minBackupInterval := 60 * Minute; initialBackup := false;
                 allowFirstBackup := false; initKeyspace := "ks"; initShard := "0" |}
              {| getShard := None; getTabletMapForShard := ([], None);
                 isNoNode := fun _ => false |}
              "ks/0"
              {| storage := fiveBackups; ticks := 0; removed := [] |}
              {| storage := fiveBackups; ticks := 1; removed := [] |}
              None ltac:(vm_compute; reflexivity))
    as (_ & _ & _ & backups & Hlist & Hcase).
  cbn [initialBackup] in Hcase. inversion Hlist; subst backups.
  split; [reflexivity|].
  destruct Hcase as [[Hnone _] | (last & Hlast & [Hzero | Hold])].
  - exfalso. vm_compute in Hnone. discriminate.
  - exfalso. vm_compute in Hzero. discriminate.
  - vm_compute in Hlast. inversion Hlast; subst last. exact Hold.
Defined.

Lemma shouldBackup_hides_the_shard_error_witness :
  shouldBackup (H := memoryStorage) stampParse (fun _ => 0) (fun _ => None)
    {| minBackupInterval := 0; initialBackup := true; allowFirstBackup := false;
       initKeyspace := "commerce"; initShard := "-80" |}
    {| getShard := Some contextDeadlineExceeded; getTabletMapForShard := ([], None);
       isNoNode := fun _ => false |}
    "commerce/-80" {| storage := []; ticks := 0; removed := [] |}
  = ((false,
      Some (errorString
              "failed to check whether shard commerce/-80 exists before doing initial backup: <nil>")),
     {| storage := []; ticks := 0; removed := [] |}).
Proof.
  exact (shouldBackup_hides_the_shard_error (H := memoryStorage) stampParse (fun _ => 0)
           (fun _ => None)
           {| minBackupInterval := 0; initialBackup := true; allowFirstBackup := false;
              initKeyspace := "commerce"; initShard := "-80" |}
           {| getShard := Some contextDeadlineExceeded; getTabletMapForShard := ([], None);
              isNoNode := fun _ => false |}
           "commerce/-80" {| storage := []; ticks := 0; removed := [] |}
           [] contextDeadlineExceeded eq_refl eq_refl eq_refl eq_refl eq_refl).
Defined.

End vtbackup_proofs.

Module vtadmin_proofs.
Import golang vtadmin.













(** The clock stands at 1000 seconds; a stream throttled at second 941
    counts, one throttled at second 940 does not. *)
Example renderStreamState_run :
  renderStreamState 1000000 "Running"
    [ streamNeverThrottled "Running"; streamThrottledAt "Running" 941;
      streamThrottledAt "Running" 940 ]
  = {| pipState := "Throttled"; pipCount := 3;
       pipTooltip := "3 running streams (1 throttled in vcopier)";
       pipThrottled := 1 |}.
Proof. vm_compute. reflexivity. Qed.

Example renderStreamState_stopped :
  renderStreamState 1000000 "Stopped" [ streamThrottledAt "Stopped" 999 ]
  = {| pipState := "Stopped"; pipCount := 1;
       pipTooltip := "1 stopped stream "; pipThrottled := 0 |}.
Proof. vm_compute. reflexivity. Qed.





End vtadmin_proofs.

Module workflow_runs.
Import golang vtrpcpb vterrors workflow workflow_examples.

(** A forward switch of all traffic on a fresh, healthy workflow. *)
Example switch_all_run :
  WorkflowSwitchTraffic (world (fresh healthy))
    (switchRequest [TabletType_REPLICA; TabletType_PRIMARY] DirectionForward None) []
  = (Returned (Some {| WorkflowSwitchTrafficResponse.Summary :=
                         "SwitchTraffic was successful for workflow ks2.wf";
                       WorkflowSwitchTrafficResponse.StartState := "writes not switched";
                       WorkflowSwitchTrafficResponse.CurrentState := "writes not switched";
                       WorkflowSwitchTrafficResponse.DryRunResults := [] |}, None),
     [ buildTrafficSwitcher "ks2" "wf" false;
       GetCellsWithTableReadsSwitched "ks1" "ks2" "t" TabletType_RDONLY;
       GetCellsWithTableReadsSwitched "ks1" "ks2" "t" TabletType_REPLICA;
       GetRoutingRules;
       LockName "ks2/wf" "WorkflowSwitchTraffic";
       GetWorkflows "ks2" "wf" false [];
       RefreshTabletsByShard "ks1" "0";
       RefreshTabletsByShard "ks2" "0";
       DoCellsHaveRdonlyTablets [];
       checkJournals;
       validate;
       Sw false (lockKeyspace "ks1" "SwitchReads" (Some (30 * Second)));
       Sw false (mirrorTableTraffic [TabletType_REPLICA] 0);
       Sw false (switchTableReads [] [TabletType_REPLICA] false DirectionForward);
       Sw false (unlockKeyspace "ks1");
       validate;
       validateShardsHaveVReplicationPermissions "ks1";
       areTabletsAvailableToStreamFrom "ks2";
       Sw false (lockKeyspace "ks1" "SwitchWrites" (Some (90 * Second)));
       Sw false (lockKeyspace "ks2" "SwitchWrites" (Some (90 * Second)));
       Sw false (mirrorTableTraffic [TabletType_PRIMARY] 0);
       checkJournals;
       BuildStreamMigrator false;
       Sw false stopSourceWrites;
       Sw false stopStreams;
       executeLockTablesOnSource; Sleep (100 * Millisecond);
       executeLockTablesOnSource; Sleep (100 * Millisecond);
       gatherSourcePositions;
       CheckKeyspaceLocked "ks1"; CheckKeyspaceLocked "ks2";
       Sw false (waitForCatchup (30 * Second));
       CheckKeyspaceLocked "ks1"; CheckKeyspaceLocked "ks2";
       Sw false migrateStreams;
       CheckKeyspaceLocked "ks1"; CheckKeyspaceLocked "ks2";
       Sw false resetSequences;
       CheckKeyspaceLocked "ks1"; CheckKeyspaceLocked "ks2";
       Sw false createReverseVReplication;
       CheckKeyspaceLocked "ks1"; CheckKeyspaceLocked "ks2";
       CheckKeyspaceLocked "ks1"; CheckKeyspaceLocked "ks2";
       Sw false (createJournals []);
       Sw false allowTargetWrites;
       Sw false changeRouting;
       Sw false (streamMigraterfinalize []);
       Sw false startReverseVReplication;
       Sw false freezeTargetVReplication;
       Sw false (unlockKeyspace "ks2");
       Sw false (unlockKeyspace "ks1");
       buildTrafficSwitcher "ks2" "wf" false;
       GetCellsWithTableReadsSwitched "ks1" "ks2" "t" TabletType_RDONLY;
       GetCellsWithTableReadsSwitched "ks1" "ks2" "t" TabletType_REPLICA;
       GetRoutingRules;
       UnlockName "ks2/wf" ]).
Proof. vm_compute. reflexivity. Qed.

End workflow_runs.

Module workflow_proofs.
Import golang vtrpcpb vterrors workflow workflow_examples.
Local Open Scope go_scope.

(* Messages are kept as they are written while the code is executed. *)
#[local] Arguments String.append : simpl never.

(** *** Durations *)

Lemma Seconds_lt_1 (d : Duration) : Qltb (Seconds d) 1 = true <-> d < Second.
Proof.
  rewrite golang_proofs.Qltb_iff. apply golang_proofs.Seconds_below_1.
Qed.

(** *** What computations emit *)

Section Emits.
Variable P : Event -> bool.

Lemma emits_pure {R A} (a : A) : emits P (@pure R A a).
Proof. intros t. exists []. rewrite app_nil_r. auto. Qed.

Lemma emits_Return {R A} (r : R) : emits P (@Return R A r).
Proof. intros t. exists []. rewrite app_nil_r. auto. Qed.

Lemma emits_panic {R A} (msg : string) : emits P (@panic R A msg).
Proof. intros t. exists []. rewrite app_nil_r. auto. Qed.

Lemma emits_local {R A} (f : Trace -> A) : emits P (fun t => (@inl A (Outcome R) (f t), t)).
Proof. intros t. exists []. rewrite app_nil_r. auto. Qed.

Lemma emits_ask {R A} (f : Trace -> A) (e : Event) :
  P e = true -> emits P (@ask R A f e).
Proof. intros He t. exists [e]. simpl. rewrite He. auto. Qed.

Lemma emits_returnIf {R} (c : bool) (r : R) : emits P (returnIf c r).
Proof. destruct c; [apply emits_Return | apply emits_pure]. Qed.

Lemma emits_bind {R A B} (c : M R A) (k : A -> M R B) :
  emits P c -> (forall a, emits P (k a)) -> emits P (bind c k).
Proof.
  intros Hc Hk t. unfold bind. destruct (Hc t) as (evs & Ht & Hevs).
  destruct (c t) as [[a|o] t1]; simpl in Ht; subst t1.
  - destruct (Hk a (t ++ evs)%list) as (evs' & Ht' & Hevs').
    exists (evs ++ evs')%list. rewrite Ht', app_assoc, forallb_app, Hevs, Hevs'. auto.
  - exists evs. auto.
Qed.

Lemma emits_body {R} (c : M R R) : emits P c -> emits P (body c).
Proof.
  intros Hc t. unfold body. destruct (Hc t) as (evs & Ht & Hevs).
  destruct (c t) as [[r|o] t1]; simpl in *; exists evs; auto.
Qed.

Lemma emits_invoke {R A} (f : Trace -> Outcome A * Trace) :
  emits P f -> emits P (@invoke R A f).
Proof.
  intros Hf t. unfold invoke. destruct (Hf t) as (evs & Ht & Hevs).
  destruct (f t) as [[a|msg] t1]; simpl in *; exists evs; auto.
Qed.

Lemma emits_defer {R A} (d : Outcome R -> Trace -> Outcome R * Trace) (rest : M R R) :
  emits P rest -> (forall o, emits P (d o)) -> emits P (@defer R A d rest).
Proof.
  intros Hr Hd t. unfold defer.
  destruct (emits_body rest Hr t) as (evs & Ht & Hevs).
  destruct (body rest t) as [o t1]; simpl in Ht; subst t1.
  destruct (Hd o (t ++ evs)%list) as (evs' & Ht' & Hevs').
  destruct (d o (t ++ evs)%list) as [o' t2]; simpl in *; subst t2.
  exists (evs ++ evs')%list. rewrite app_assoc, forallb_app, Hevs, Hevs'. auto.
Qed.

End Emits.

Lemma emits_weaken {X} (P Q : Event -> bool) (c : Trace -> X * Trace) :
  (forall e, P e = true -> Q e = true) -> emits P c -> emits Q c.
Proof.
  intros HPQ Hc t. destruct (Hc t) as (evs & Ht & Hevs). exists evs. split; [exact Ht|].
  rewrite forallb_forall in *. auto.
Qed.

Create HintDb emits.

(** One step of the proof that a statement sequence emits only [P]:
    follow the structure of the code, split on what the code tests. *)
Ltac emits_step :=
  match goal with
  | |- emits _ (bind _ _) => apply emits_bind; [| intros ?]
  | |- emits _ (pure _) => apply emits_pure
  | |- emits _ (Return _) => apply emits_Return
  | |- emits _ (panic _) => apply emits_panic
  | |- emits _ (returnIf _ _) => apply emits_returnIf
  | |- emits _ (ask _ _) => apply emits_ask; reflexivity
  | |- emits _ (body _) => apply emits_body
  | |- emits _ (invoke _) => apply emits_invoke; auto with emits
  | |- emits _ (defer _ _) => apply emits_defer; [| intros ?]
  | |- emits _ (fun t => (inl _, t)) => apply emits_local
  | |- emits _ (match ?x with _ => _ end) => destruct x
  | |- emits _ (let '(_, _) := ?x in _) => destruct x
  end.

(** [getWorkflowState] only reads. *)
Lemma getWorkflowState_observes (env : Env) (targetKeyspace workflowName : string)
      (ignoreSourceKeyspace : bool) :
  emits observes (getWorkflowState env targetKeyspace workflowName ignoreSourceKeyspace).
Proof.
  unfold getWorkflowState. cbv zeta.
  repeat emits_step.
Qed.

(** *** The state of a workflow *)

(** Split on whatever the code under execution tests next. *)
Ltac split_match_in H :=
  match type of H with
  | context [match ?x with _ => _ end] =>
      lazymatch x with
      | context [match _ with _ => _ end] => fail
      | _ => let E := fresh "E" in destruct x eqn:E; simpl in H
      end
  end.



(** *** C1 *)

(** C1, what the code does.  When the [Timeout] of the request is set
    to less than one second, [WorkflowSwitchTraffic] returns at line
    2710 with [vterrors.Wrap(err, ...)] where [err] is nil: the response
    is nil and so is the error, whose code is therefore OK and not
    INVALID_ARGUMENT.  Nothing has been called by then. *)
Theorem WorkflowSwitchTraffic_short_timeout_returns_nil :
  forall (env : Env) (req : WorkflowSwitchTrafficRequest.t) (t : Trace) (d : Duration),
    DurationFromProto env (WorkflowSwitchTrafficRequest.Timeout req) = (d, true, None) ->
    d < Second ->
    WorkflowSwitchTraffic env req t = (Returned (None, None), t).
Proof.
  intros env req t d Hparse Hlt.
  unfold WorkflowSwitchTraffic, switchTrafficPrelude, body, bind.
  rewrite Hparse. simpl.
  apply Seconds_lt_1 in Hlt. rewrite Hlt. reflexivity.
Qed.

Lemma WorkflowSwitchTraffic_short_timeout_witness :
  let env := world (fresh healthy) in
  let req := switchRequest [TabletType_PRIMARY] DirectionForward halfSecond in
  DurationFromProto env (WorkflowSwitchTrafficRequest.Timeout req) = (500000000, true, None) /\
  500000000 < Second /\
  WorkflowSwitchTraffic env req [] = (Returned (None, None), []).
Proof.
  intros env req. split; [reflexivity|]. split; [reflexivity|].
  apply (WorkflowSwitchTraffic_short_timeout_returns_nil env req [] 500000000);
    reflexivity.
Defined.

(** *** C4 *)



Lemma unlockKeyspaceAfter_emits {R} dryRun keyspace (o : Outcome R) :
  emits anyEvent (unlockKeyspaceAfter dryRun keyspace o).
Proof. intros t. exists [Sw dryRun (unlockKeyspace keyspace)]. auto. Qed.

Lemma unlockNameAfter_emits {R} lockName (o : Outcome R) :
  emits anyEvent (unlockNameAfter lockName o).
Proof. intros t. exists [UnlockName lockName]. auto. Qed.

Lemma finalizeMigrateWorkflow_emits env ts tableSpecs cancel keepData keepRoutingRules dryRun :
  emits anyEvent (finalizeMigrateWorkflow env ts tableSpecs cancel keepData keepRoutingRules dryRun).
Proof.
  unfold finalizeMigrateWorkflow, orReturn, swCall, swLogs. cbv zeta.
  repeat (emits_step || apply unlockKeyspaceAfter_emits).
Qed.

#[local] Hint Resolve finalizeMigrateWorkflow_emits @unlockKeyspaceAfter_emits
  @unlockNameAfter_emits : emits.

Lemma dropRelatedArtifacts_emits env keepRoutingRules dryRun ignoreSourceKeyspace :
  emits anyEvent (dropRelatedArtifacts env keepRoutingRules dryRun ignoreSourceKeyspace).
Proof.
  unfold dropRelatedArtifacts, swCall. cbv zeta. repeat emits_step.
Qed.

Lemma dropArtifacts_emits env keepRoutingRules dryRun ignoreSourceKeyspace :
  emits anyEvent (dropArtifacts env keepRoutingRules dryRun ignoreSourceKeyspace).
Proof.
  unfold dropArtifacts, swCall. cbv zeta. repeat emits_step.
Qed.

#[local] Hint Resolve dropRelatedArtifacts_emits dropArtifacts_emits : emits.

Lemma withDropLocks_emits env dryRun ignoreSourceKeyspace ts action rest :
  emits anyEvent rest ->
  emits anyEvent (withDropLocks env dryRun ignoreSourceKeyspace ts action rest).
Proof.
  intros Hrest. unfold withDropLocks, swCall. cbv zeta.
  repeat (emits_step || assumption || apply unlockKeyspaceAfter_emits).
Qed.

Lemma dropTargets_emits env ts keepData keepRoutingRules dryRun ignoreSourceKeyspace :
  emits anyEvent (dropTargets env ts keepData keepRoutingRules dryRun ignoreSourceKeyspace).
Proof.
  unfold dropTargets, orReturn, swCall, swLogs. cbv zeta.
  apply emits_body, withDropLocks_emits. repeat emits_step.
Qed.

Lemma dropSources_emits env ts removalType keepData keepRoutingRules force dryRun ign :
  emits anyEvent (dropSources env ts removalType keepData keepRoutingRules force dryRun ign).
Proof.
  unfold dropSources, orReturn, swCall, swLogs. cbv zeta.
  apply emits_body, withDropLocks_emits. repeat emits_step.
Qed.

Lemma deleteTenantData_emits env ts batchSize :
  emits anyEvent (deleteTenantData env ts batchSize).
Proof.
  unfold deleteTenantData. repeat emits_step.
Qed.

#[local] Hint Resolve dropTargets_emits dropSources_emits deleteTenantData_emits : emits.



Ltac unfold_go :=
  repeat (progress unfold defer, body, bind, invoke, ask, returnIf, Return, pure, panic).












(** A delete before any traffic is switched. *)
Example WorkflowDelete_run :
  WorkflowDelete (world (fresh healthy)) deleteRequest []
  = (Returned (Some {| WorkflowDeleteResponse.Summary :=
                         "Successfully cancelled the wf workflow in the ks2 keyspace";
                       WorkflowDeleteResponse.Details :=
                         [ {| WorkflowDeleteResponse.Tablet := "zone1-0000000200";
                              WorkflowDeleteResponse.Deleted := true |} ] |}, None),
     (stateReads ++
      [ LockName "ks2/wf" "WorkflowDelete";
        Sw false (lockKeyspace "ks1" "DropTargets" None);
        Sw false (lockKeyspace "ks2" "DropTargets" None);
        stopWorkflowOnTargets;
        Sw false removeTargetTables;
        Sw false dropSourceDeniedTables;
        Sw false dropTargetDeniedTables;
        Sw false dropSourceReverseVReplicationStreams;
        Sw false deleteRoutingRules;
        Sw false deleteShardRoutingRules;
        Sw false deleteKeyspaceRoutingRules;
        RebuildSrvVSchema;
        Sw false (unlockKeyspace "ks2");
        Sw false (unlockKeyspace "ks1");
        DeleteVReplicationWorkflow "ks2" "wf" [];
        UnlockName "ks2/wf" ])%list).
Proof. vm_compute. reflexivity. Qed.

(** *** C5 *)

Lemma completeLocked_emits env req ts st : emits anyEvent (completeLocked env req ts st).
Proof.
  unfold completeLocked. cbv zeta. repeat emits_step.
Qed.

(** C5.  Once [getWorkflowState] has given the state of a workflow that
    is not a Migrate workflow and the workflow is locked:
    [MoveTablesComplete] returns [ErrWorkflowCompleteNotFullySwitched]
    and does nothing but release the lock whenever writes are not
    switched or some cell has replica or rdonly reads that are not
    switched; when all three are switched, it runs [dropSources] and its
    result is made of the result of [dropSources]. *)
Theorem MoveTablesComplete_requires_all_traffic_switched :
  forall (env : Env) (req : MoveTablesCompleteRequest.t) (t t1 : Trace)
         (ts : trafficSwitcher) (st : State),
    getWorkflowState env (MoveTablesCompleteRequest.TargetKeyspace req)
      (MoveTablesCompleteRequest.Workflow req)
      (MoveTablesCompleteRequest.IgnoreSourceKeyspace req) t
    = (Returned (Some ts, Some st, None), t1) ->
    let lockName := TargetKeyspaceName ts ++ "/" ++ WorkflowName ts in
    let lock := LockName lockName "MoveTablesComplete" in
    errOf env t1 lock = None ->
    WorkflowType st <> TypeMigrate ->
    (WritesSwitched st = false \/ ReplicaCellsNotSwitched st <> [] \/
     RdonlyCellsNotSwitched st <> [] ->
     MoveTablesComplete env req t
     = (Returned (None, Some ErrWorkflowCompleteNotFullySwitched),
        (t1 ++ [lock; UnlockName lockName])%list) /\
     Error ErrWorkflowCompleteNotFullySwitched
     = "cannot complete workflow because you have not yet switched all read and write traffic") /\
    (WritesSwitched st = true -> ReplicaCellsNotSwitched st = [] ->
     RdonlyCellsNotSwitched st = [] ->
     exists (o : Outcome LogsResult) (t2 : Trace),
       dropSources env ts
         (if MoveTablesCompleteRequest.RenameTables req then RenameTable else DropTable)
         (MoveTablesCompleteRequest.KeepData req)
         (MoveTablesCompleteRequest.KeepRoutingRules req) false
         (MoveTablesCompleteRequest.DryRun req)
         (MoveTablesCompleteRequest.IgnoreSourceKeyspace req) (t1 ++ [lock])%list
       = (o, t2) /\
       snd (MoveTablesComplete env req t) = (t2 ++ [UnlockName lockName])%list /\
       match o, fst (MoveTablesComplete env req t) with
       | Returned (_, Some e), r => r = Returned (None, Some e)
       | Returned (_, None), Returned (Some _, None) => True
       | Panicked msg, r => r = Panicked msg
       | _, _ => False
       end).
Proof.
  intros env req t t1 ts st Hstate lockName lock Hlock Hmig.
  apply String.eqb_neq in Hmig.
  assert (Hrun : MoveTablesComplete env req t
                 = let '(o, t2) := body (completeLocked env req ts st) (t1 ++ [lock])%list in
                   (o, (t2 ++ [UnlockName lockName])%list)).
  { unfold MoveTablesComplete, body at 1, bind, invoke. rewrite Hstate. simpl.
    unfold ask, defer, unlockNameAfter. fold lockName. fold lock. rewrite Hlock. simpl.
    destruct (body (completeLocked env req ts st) (t1 ++ [lock])%list); reflexivity. }
  split.
  - intros Hnot. split; [|reflexivity]. rewrite Hrun.
    assert (Hc : negb (WritesSwitched st)
                 || (0 <? List.length (ReplicaCellsNotSwitched st))%nat
                 || (0 <? List.length (RdonlyCellsNotSwitched st))%nat = true).
    { destruct Hnot as [Hw | [Hr | Hr]].
      - rewrite Hw. reflexivity.
      - destruct (ReplicaCellsNotSwitched st); [congruence|].
        simpl. rewrite orb_true_r. reflexivity.
      - destruct (RdonlyCellsNotSwitched st); [congruence|].
        simpl. rewrite orb_true_r. reflexivity. }
    unfold completeLocked. cbv zeta. unfold_go. rewrite Hmig, Hc.
    destruct (MoveTablesCompleteRequest.DryRun req); simpl;
      rewrite <- app_assoc; reflexivity.
  - intros Hw Hr Hro. rewrite Hrun.
    unfold completeLocked. cbv zeta. unfold_go. rewrite Hmig, Hw, Hr, Hro. simpl.
    destruct (MoveTablesCompleteRequest.DryRun req) eqn:Hdry; simpl;
      match goal with
      | |- context [dropSources ?e ?a ?b ?c ?d ?f ?g ?h ?T] =>
          destruct (dropSources e a b c d f g h T) as [[[l [e'|]]|msg] t2] eqn:Hd
      end; simpl; eexists; eexists; (split; [reflexivity|]); simpl; auto.
Qed.

Lemma MoveTablesComplete_refused_witness :
  let env := world (fresh healthy) in
  let ts := moveTables false false in
  let st := stateOf false ([], ["zone1"]) ([], ["zone1"]) in
  getWorkflowState env "ks2" "wf" false [] = (Returned (Some ts, Some st, None), stateReads) /\
  errOf env stateReads (LockName "ks2/wf" "MoveTablesComplete") = None /\
  WorkflowType st <> TypeMigrate /\
  WritesSwitched st = false /\
  MoveTablesComplete env completeRequest []
  = (Returned (None, Some ErrWorkflowCompleteNotFullySwitched),
     (stateReads ++ [LockName "ks2/wf" "MoveTablesComplete"; UnlockName "ks2/wf"])%list).
Proof.
  intros env ts st.
  assert (H : getWorkflowState env "ks2" "wf" false []
              = (Returned (Some ts, Some st, None), stateReads)) by (vm_compute; reflexivity).
  assert (Hm : WorkflowType st <> TypeMigrate) by discriminate.
  split; [exact H|]. split; [reflexivity|]. split; [exact Hm|]. split; [reflexivity|].
  apply (proj1 (MoveTablesComplete_requires_all_traffic_switched
                  env completeRequest [] stateReads ts st H eq_refl Hm)).
  left. reflexivity.
Defined.

(** A complete after all traffic is switched. *)
Example MoveTablesComplete_run :
  MoveTablesComplete (world (switched healthy)) completeRequest []
  = (Returned (Some {| MoveTablesCompleteResponse.Summary :=
                         "Successfully completed the wf workflow in the ks2 keyspace";
                       MoveTablesCompleteResponse.DryRunResults := [] |}, None),
     (stateReads ++
      [ LockName "ks2/wf" "MoveTablesComplete";
        Sw false (lockKeyspace "ks1" "DropSources" None);
        Sw false (lockKeyspace "ks2" "DropSources" None);
        Sw false validateWorkflowHasCompleted;
        Sw false (removeSourceTables DropTable);
        Sw false dropSourceDeniedTables;
        Sw false dropTargetDeniedTables;
        Sw false dropSourceReverseVReplicationStreams;
        Sw false dropTargetVReplicationStreams;
        Sw false deleteRoutingRules;
        Sw false deleteShardRoutingRules;
        Sw false deleteKeyspaceRoutingRules;
        RebuildSrvVSchema;
        Sw false (unlockKeyspace "ks2");
        Sw false (unlockKeyspace "ks1");
        UnlockName "ks2/wf" ])%list).
Proof. vm_compute. reflexivity. Qed.

(** *** C7 *)









(** Mirroring half of the replica traffic of a fresh workflow. *)
Example WorkflowMirrorTraffic_run :
  WorkflowMirrorTraffic (world (fresh healthy)) (mirrorRequest [TabletType_REPLICA]) []
  = (Returned (Some {| WorkflowMirrorTrafficResponse.Summary :=
                         "MirrorTraffic was successful for workflow ks2.wf";
                       WorkflowMirrorTrafficResponse.StartState := "writes not switched";
                       WorkflowMirrorTrafficResponse.CurrentState := "writes not switched" |},
               None),
     (stateReads ++ [validate; Sw false (mirrorTableTraffic [TabletType_REPLICA] 50)]
        ++ stateReads)%list).
Proof. vm_compute. reflexivity. Qed.

(** *** C2 *)


Lemma unlockKeyspaceNamed_emits (P : Event -> bool) env dryRun keyspace o :
  P (Sw dryRun (unlockKeyspace keyspace)) = true ->
  emits P (unlockKeyspaceNamed env dryRun keyspace o).
Proof.
  intros HP t. exists [Sw dryRun (unlockKeyspace keyspace)]. unfold unlockKeyspaceNamed.
  simpl. rewrite HP. destruct o as [[[j l] [e|]]|msg]; auto.
Qed.



(** *** Running the code step by step *)

Lemma run_bind {R A B} (c : M R A) (k : A -> M R B) t a t1 res :
  c t = (inl a, t1) -> k a t1 = res -> bind c k t = res.
Proof. intros Hc Hk. unfold bind. rewrite Hc. exact Hk. Qed.

Lemma run_bind_exit {R A B} (c : M R A) (k : A -> M R B) t o t1 :
  c t = (inr o, t1) -> bind c k t = (inr o, t1).
Proof. intros Hc. unfold bind. rewrite Hc. reflexivity. Qed.

Lemma run_body {R} (c : M R R) t r t1 :
  c t = (inl r, t1) -> body c t = (Returned r, t1).
Proof. intros Hc. unfold body. rewrite Hc. reflexivity. Qed.

Lemma run_body_exit {R} (c : M R R) t o t1 :
  c t = (inr o, t1) -> body c t = (o, t1).
Proof. intros Hc. unfold body. rewrite Hc. reflexivity. Qed.

Lemma run_defer {R A} (d : Outcome R -> Trace -> Outcome R * Trace) (rest : M R R)
      t o t1 o' t2 :
  body rest t = (o, t1) -> d o t1 = (o', t2) -> @defer R A d rest t = (inr o', t2).
Proof. intros Hr Hd. unfold defer. rewrite Hr, Hd. reflexivity. Qed.

Lemma run_invoke {R A} (f : Trace -> Outcome A * Trace) t a t1 :
  f t = (Returned a, t1) -> @invoke R A f t = (inl a, t1).
Proof. intros Hf. unfold invoke. rewrite Hf. reflexivity. Qed.

Lemma run_bind_answer {R A B} (c : M R A) (k : A -> M R B) t a a' t1 res :
  c t = (inl a, t1) -> a = a' -> k a' t1 = res -> bind c k t = res.
Proof. intros Hc <- Hk. unfold bind. rewrite Hc. exact Hk. Qed.

Lemma run_defer_answer {R A} (d : Outcome R -> Trace -> Outcome R * Trace) (rest : M R R)
      t o t1 o' t2 :
  body rest t = (o, t1) -> d o t1 = (o', t2) -> @defer R A d rest t = (inr o', t2).
Proof. apply run_defer. Qed.


(** The runs of [switchWrites] in a world where every call succeeds. *)
Section WritesRuns.
Variable env : Env.
Variable req : WorkflowSwitchTrafficRequest.t.
Variable ts : trafficSwitcher.
Variable waitTimeout : Duration.
Variable journalsExist : bool.
Variable sourceWorkflows : list string.
Hypothesis Herr : forall t e, errOf env t e = None.
Variable sequences : Trace -> nat.
Hypothesis Hseq : forall t, targetSequenceMetadataOf env t = inl (sequences t).
Hypothesis Hjournals : forall t, checkJournalsOf env t = (journalsExist, sourceWorkflows, None).
Hypothesis Hfrozen : frozen ts = false.

Let dryRun := WorkflowSwitchTrafficRequest.DryRun req.






End WritesRuns.



(** The resumed switch of the writes of the interrupted workflow. *)
Example switchWrites_resume_example :
  switchWrites (world interrupted)
    (switchRequest [TabletType_PRIMARY] DirectionForward None)
    (moveTables false false) (30 * Second) false []
  = (Returned (42, None, None),
     [ validate;
       validateShardsHaveVReplicationPermissions "ks1";
       areTabletsAvailableToStreamFrom "ks2";
       Sw false (lockKeyspace "ks1" "SwitchWrites" (Some (90 * Second)));
       Sw false (lockKeyspace "ks2" "SwitchWrites" (Some (90 * Second)));
       Sw false (mirrorTableTraffic [TabletType_PRIMARY] 0);
       checkJournals;
       gatherPositions;
       CheckKeyspaceLocked "ks1"; CheckKeyspaceLocked "ks2";
       Sw false (createJournals []);
       Sw false allowTargetWrites;
       Sw false changeRouting;
       Sw false (streamMigraterfinalize []);
       Sw false startReverseVReplication;
       Sw false freezeTargetVReplication;
       Sw false (unlockKeyspace "ks2");
       Sw false (unlockKeyspace "ks1") ]).
Proof. vm_compute. reflexivity. Qed.

(** As [run], with a second look at a statement that only shows once
    an answer of the world is known. *)
Ltac run_through rw :=
  cbv beta iota zeta; cbn [negb andb orb notNil returnIf Nat.ltb Nat.leb];
  lazymatch goal with
  | |- bind _ _ _ = _ =>
      first [ eapply run_bind_answer;
              [run_through rw | cbv beta; rw; reflexivity | run_through rw]
            | eapply run_bind_exit; run_through rw ]
  | |- body _ _ = _ =>
      first [ eapply run_body; run_through rw | eapply run_body_exit; run_through rw ]
  | |- defer _ _ _ = _ => eapply run_defer; [run_through rw | run_through rw]
  | |- invoke _ _ = _ => eapply run_invoke; run_through rw
  | |- _ =>
      rw; cbv beta iota zeta; cbn [negb andb orb notNil returnIf Nat.ltb Nat.leb];
      lazymatch goal with
      | |- bind _ _ _ = _ => run_through rw
      | |- body _ _ = _ => run_through rw
      | |- defer _ _ _ = _ => run_through rw
      | |- invoke _ _ = _ => run_through rw
      | |- _ => reflexivity
      end
  end.

(** *** The prelude of [WorkflowSwitchTraffic] *)

#[local] Hint Resolve getWorkflowState_observes : emits.

Lemma stateOrReturn_emits {R} (P : Event -> bool) r (onErr : goerror -> R) :
  emits P (stateOrReturn r onErr).
Proof.
  unfold stateOrReturn. destruct r as [[[ts|] [st|]] [e|]]; repeat emits_step.
Qed.

Lemma switchTrafficPrelude_observes (env : Env) (req : WorkflowSwitchTrafficRequest.t) :
  emits observes (switchTrafficPrelude env req).
Proof.
  unfold switchTrafficPrelude. cbv zeta.
  repeat (emits_step || apply stateOrReturn_emits).
Qed.

Lemma prelude_extends env req t x t1 :
  switchTrafficPrelude env req t = (x, t1) ->
  exists evs, t1 = (t ++ evs)%list /\ forallb observes evs = true.
Proof.
  intros H. destruct (switchTrafficPrelude_observes env req t) as (evs & Ht & Hevs).
  rewrite H in Ht. simpl in Ht. eauto.
Qed.

(** *** C6 *)

(** C6.  For a request that passes the parsing of its two durations
    (the timeout being at least one second) and of its tablet types,
    on a workflow whose state is fetched, whose type is not Migrate and
    whose keyspace routing state is read: when the workflow is a
    multi-tenant migration, the direction is backward and the primary
    tablet type is among the requested ones, [WorkflowSwitchTraffic]
    returns the INVALID_ARGUMENT error "cannot reverse write traffic for
    multi-tenant migrations"; all that it called by then are the reads
    of the state. *)
Theorem WorkflowSwitchTraffic_multi_tenant_reverse_writes :
  forall (env : Env) (req : WorkflowSwitchTrafficRequest.t) (t t0 : Trace)
         (timeout lag : Duration) (set setLag switchReplica switchRdonly : bool)
         (ts : trafficSwitcher) (st st' : State),
    DurationFromProto env (WorkflowSwitchTrafficRequest.Timeout req) = (timeout, set, None) ->
    Second <= (if set then timeout else DefaultTimeout) ->
    DurationFromProto env (WorkflowSwitchTrafficRequest.MaxReplicationLagAllowed req)
    = (lag, setLag, None) ->
    parseTabletTypes env (WorkflowSwitchTrafficRequest.TabletTypes req)
    = (switchReplica, switchRdonly, true, None) ->
    getWorkflowState env (WorkflowSwitchTrafficRequest.Keyspace req)
      (WorkflowSwitchTrafficRequest.Workflow req) false t
    = (Returned (Some ts, Some st, None), t0) ->
    WorkflowType st <> TypeMigrate ->
    IsMultiTenantMigration ts = true ->
    updateKeyspaceRoutingStateOf env t0 (sourceKeyspace ts) (targetKeyspace ts) st = inl st' ->
    WorkflowSwitchTrafficRequest.Direction req = DirectionBackward ->
    WorkflowSwitchTraffic env req t
    = (Returned (None,
                 Some (fundamental "cannot reverse write traffic for multi-tenant migrations"
                         Code_INVALID_ARGUMENT)),
       (t0 ++ [updateKeyspaceRoutingState (sourceKeyspace ts) (targetKeyspace ts)])%list) /\
    exists evs,
      (t0 ++ [updateKeyspaceRoutingState (sourceKeyspace ts) (targetKeyspace ts)])%list
      = (t ++ evs)%list /\
      forallb observes evs = true.
Proof.
  intros env req t t0 timeout lag set setLag switchReplica switchRdonly ts st st'
         Htimeout Hmin Hlag Htypes Hstate Hmig Hmt Hupdate Hdir.
  assert (Hq : Qltb (Seconds (if set then timeout else DefaultTimeout)) 1 = false).
  { destruct (Qltb (Seconds (if set then timeout else DefaultTimeout)) 1) eqn:E;
      [|reflexivity].
    apply Seconds_lt_1 in E. destruct set; lia. }
  apply String.eqb_neq in Hmig.
  assert (Hprelude : switchTrafficPrelude env req t
                     = (inr (Returned (None,
                                       Some (fundamental
                                               "cannot reverse write traffic for multi-tenant migrations"
                                               Code_INVALID_ARGUMENT))),
                        (t0 ++ [updateKeyspaceRoutingState (sourceKeyspace ts)
                                  (targetKeyspace ts)])%list)).
  { unfold switchTrafficPrelude. rewrite Htimeout, Hlag, Htypes. cbv zeta.
    run_through ltac:(rewrite ?Hq, ?Hstate, ?Hmig, ?Hmt, ?Hupdate, ?Hdir, ?andb_false_r,
               ?Z.eqb_refl). }
  split.
  - unfold WorkflowSwitchTraffic. erewrite run_body_exit; [reflexivity|].
    eapply run_bind_exit. exact Hprelude.
  - eapply prelude_extends. exact Hprelude.
Qed.

(** *** C3 *)

(** What the loop over the streams of a shard finds. *)
Lemma streamsReason_cases (streams : list Workflow_Stream) :
  (streamsReason streams = "" /\ Forall (fun st => ~ notSwitchable st) streams) \/
  (streamsReason streams = cannotSwitchFrozen /\
   Exists (fun st => Message st = Frozen) streams) \/
  (streamsReason streams = cannotSwitchCopyIncomplete /\
   Exists (fun st => Stream_State st = "Copying") streams) \/
  (streamsReason streams = cannotSwitchError /\
   Exists (fun st => Stream_State st = "Error") streams).
Proof.
  induction streams as [|st rest IH]; simpl.
  - left. split; [reflexivity | constructor].
  - destruct (String.eqb_spec (Message st) Frozen) as [Hf|Hf].
    { right. left. split; [reflexivity | now constructor]. }
    destruct (String.eqb_spec (Stream_State st) "Copying") as [Hc|Hc].
    { right. right. left. split; [reflexivity | now constructor]. }
    destruct (String.eqb_spec (Stream_State st) "Error") as [He|He].
    { right. right. right. split; [reflexivity | now constructor]. }
    destruct IH as [[H1 H2] | [[H1 H2] | [[H1 H2] | [H1 H2]]]].
    + left. split; [exact H1|]. constructor; [|exact H2].
      unfold notSwitchable. tauto.
    + right. left. split; [exact H1 | now constructor 2].
    + right. right. left. split; [exact H1 | now constructor 2].
    + right. right. right. split; [exact H1 | now constructor 2].
Qed.

Lemma anyStream_here key ss rest (P : Workflow_Stream -> Prop) :
  Exists P (Streams ss) -> anyStream ((key, ss) :: rest) P.
Proof.
  intros HE. apply Exists_exists in HE. destruct HE as (st & Hin & HP).
  exists key, ss, st. split; [left; reflexivity | auto].
Qed.

Lemma anyStream_later key ss rest (P : Workflow_Stream -> Prop) :
  anyStream rest P -> anyStream ((key, ss) :: rest) P.
Proof.
  intros (k & s' & st & Hin & Hin' & HP). exists k, s', st. split; [right; exact Hin | auto].
Qed.

(** What the loop over the shards finds. *)
Lemma shardStreamsReason_cases (shardStreams : list (string * Workflow_ShardStream)) :
  (shardStreamsReason shardStreams = "" /\ ~ anyStream shardStreams notSwitchable) \/
  (shardStreamsReason shardStreams = cannotSwitchFrozen /\
   anyStream shardStreams (fun st => Message st = Frozen)) \/
  (shardStreamsReason shardStreams = cannotSwitchCopyIncomplete /\
   anyStream shardStreams (fun st => Stream_State st = "Copying")) \/
  (shardStreamsReason shardStreams = cannotSwitchError /\
   anyStream shardStreams (fun st => Stream_State st = "Error")).
Proof.
  induction shardStreams as [|[key ss] rest IH]; simpl.
  - left. split; [reflexivity|]. intros (k & s' & st & Hin & _). inversion Hin.
  - destruct (streamsReason_cases (Streams ss)) as [[H1 H2] | [[H1 H2] | [[H1 H2] | [H1 H2]]]];
      rewrite H1; simpl.
    + destruct IH as [[I1 I2] | [[I1 I2] | [[I1 I2] | [I1 I2]]]].
      * left. split; [exact I1|]. intros (k & s' & st & [Hin|Hin] & Hin' & HP).
        -- inversion Hin; subst. rewrite Forall_forall in H2. exact (H2 st Hin' HP).
        -- apply I2. exists k, s', st. auto.
      * right. left. split; [exact I1 | now apply anyStream_later].
      * right. right. left. split; [exact I1 | now apply anyStream_later].
      * right. right. right. split; [exact I1 | now apply anyStream_later].
    + right. left. split; [reflexivity | now apply anyStream_here].
    + right. right. left. split; [reflexivity | now apply anyStream_here].
    + right. right. right. split; [reflexivity | now apply anyStream_here].
Qed.

(** [canSwitch] gives a reason as soon as the lag is too high or a
    stream is frozen, copying or in error; it has only asked for the
    workflow by then. *)
Lemma canSwitch_refuses (env : Env) (ts : trafficSwitcher) (allowed : Z)
      (shards : list string) (T : Trace) (wf : Workflow_) :
  getWorkflowsOf env T (targetKeyspace ts) (ts_workflow ts) shards = (Some [wf], None) ->
  allowed < MaxVReplicationTransactionLag wf \/ hasStream wf notSwitchable ->
  exists reason,
    canSwitch env ts allowed shards T
    = (Returned (reason, None),
       (T ++ [GetWorkflows (targetKeyspace ts) (ts_workflow ts) false shards])%list) /\
    String.eqb reason "" = false /\
    reasonHolds wf allowed reason.
Proof.
  intros Hwf Hbad.
  assert (Hget : GetWorkflow env (targetKeyspace ts) (ts_workflow ts) false shards T
                 = (Returned (Some wf, None),
                    (T ++ [GetWorkflows (targetKeyspace ts) (ts_workflow ts) false shards])%list)).
  { unfold GetWorkflow, body, bind, ask. rewrite Hwf. reflexivity. }
  unfold canSwitch, body, bind, invoke. rewrite Hget. cbv beta iota zeta.
  destruct (Z.ltb_spec allowed (MaxVReplicationTransactionLag wf)) as [Hlag|Hlag].
  - simpl. eexists. split; [reflexivity|]. split; [reflexivity|].
    left. split; [reflexivity | exact Hlag].
  - simpl.
    destruct (shardStreamsReason_cases (ShardStreams wf))
      as [[H1 H2] | [[H1 H2] | [[H1 H2] | [H1 H2]]]]; rewrite H1; simpl.
    + exfalso. destruct Hbad as [Hbad|Hbad]; [lia | exact (H2 Hbad)].
    + eexists. split; [reflexivity|]. split; [reflexivity|]. right. left. auto.
    + eexists. split; [reflexivity|]. split; [reflexivity|]. right. right. left. auto.
    + eexists. split; [reflexivity|]. split; [reflexivity|]. right. right. right. auto.
Qed.

(** Once the prelude is through and the workflow is locked, the verb is
    the gate followed by the switching, and then the unlock. *)
Lemma WorkflowSwitchTraffic_locked (env : Env) (req : WorkflowSwitchTrafficRequest.t)
      (t t1 : Trace) (L : SwitchLocals) :
  switchTrafficPrelude env req t = (inl L, t1) ->
  errOf env t1 (LockName (TargetKeyspaceName (l_ts L) ++ "/" ++ WorkflowName (l_ts L))
                  "WorkflowSwitchTraffic") = None ->
  WorkflowSwitchTraffic env req t
  = let ts := set_force (l_ts L) (WorkflowSwitchTrafficRequest.Force req) in
    let lockName := TargetKeyspaceName (l_ts L) ++ "/" ++ WorkflowName (l_ts L) in
    let '(o, t2) :=
      body (bind (switchTrafficGate env req ts L) (fun _ => switchTrafficSwitch env req ts L))
           (t1 ++ [LockName lockName "WorkflowSwitchTraffic"])%list in
    (o, (t2 ++ [UnlockName lockName])%list).
Proof.
  intros Hprelude Hlock.
  unfold WorkflowSwitchTraffic, body at 1, bind at 1. rewrite Hprelude.
  cbv beta iota zeta. unfold bind at 1, ask at 1. rewrite Hlock.
  unfold bind at 1, returnIf, notNil, pure, defer, unlockNameAfter.
  destruct (body _ _) as [o t2]. reflexivity.
Qed.

(** C3, as the code has it.  For a request that got through the
    prelude and locked the workflow, and for which writes are not
    already switched in the requested direction: if the lag of the
    workflow exceeds the allowed lag, which is
    [int64(maxReplicationLagAllowed.Seconds())], or a stream is frozen,
    copying or in error, [WorkflowSwitchTraffic] returns the
    FAILED_PRECONDITION error "cannot switch traffic for workflow ... at
    this time: ..." that names a reason which holds; beyond the reads of
    the prelude it has locked the workflow, fetched it and unlocked it,
    nothing else. *)
Theorem WorkflowSwitchTraffic_gate_refuses :
  forall (env : Env) (req : WorkflowSwitchTrafficRequest.t) (t t1 : Trace)
         (L : SwitchLocals) (wf : Workflow_),
    let ts := l_ts L in
    let lockName := TargetKeyspaceName ts ++ "/" ++ WorkflowName ts in
    let lock := LockName lockName "WorkflowSwitchTraffic" in
    let fetch := GetWorkflows (targetKeyspace ts) (ts_workflow ts) false
                   (WorkflowSwitchTrafficRequest.Shards req) in
    let allowed := int64_of_Q (Seconds (l_maxReplicationLagAllowed L)) in
    switchTrafficPrelude env req t = (inl L, t1) ->
    errOf env t1 lock = None ->
    l_writesAlreadySwitched L = false ->
    getWorkflowsOf env (t1 ++ [lock])%list (targetKeyspace ts) (ts_workflow ts)
      (WorkflowSwitchTrafficRequest.Shards req) = (Some [wf], None) ->
    allowed < MaxVReplicationTransactionLag wf \/ hasStream wf notSwitchable ->
    exists reason,
      WorkflowSwitchTraffic env req t
      = (Returned (None,
                   Some (fundamental
                           ("cannot switch traffic for workflow " ++ Workflow (l_startState L)
                              ++ " at this time: " ++ reason)
                           Code_FAILED_PRECONDITION)),
         (t1 ++ [lock; fetch; UnlockName lockName])%list) /\
      reasonHolds wf allowed reason /\
      exists evs, t1 = (t ++ evs)%list /\ forallb observes evs = true.
Proof.
  intros env req t t1 L wf ts lockName lock fetch allowed Hprelude Hlock Hnot Hwf Hbad.
  destruct (canSwitch_refuses env (set_force ts (WorkflowSwitchTrafficRequest.Force req))
              allowed (WorkflowSwitchTrafficRequest.Shards req) (t1 ++ [lock])%list wf Hwf Hbad)
    as (reason & Hcan & Hne & Hholds).
  exists reason. split; [|split; [exact Hholds | eapply prelude_extends; eauto]].
  rewrite (WorkflowSwitchTraffic_locked env req t t1 L Hprelude Hlock).
  cbv zeta. fold ts. fold lockName. fold lock.
  unfold switchTrafficGate. rewrite Hnot.
  unfold body, bind, invoke. fold allowed. rewrite Hcan.
  cbv beta iota zeta. unfold returnIf, notNil, pure, Return. rewrite Hne.
  cbn [negb]. cbv beta iota zeta.
  unfold Errorf. rewrite <- !app_assoc. reflexivity.
Qed.

(** *** C9 *)

(** Outside [canSwitch], nothing reads the workflow's streams or
    refreshes the tablets. *)
Lemma switchTrafficPrelude_withHealth env workflows refresh req :
  switchTrafficPrelude (withHealth env workflows refresh) req = switchTrafficPrelude env req.
Proof. reflexivity. Qed.

Lemma switchTrafficSwitch_withHealth env workflows refresh req ts L :
  switchTrafficSwitch (withHealth env workflows refresh) req ts L
  = switchTrafficSwitch env req ts L.
Proof. reflexivity. Qed.

Lemma observes_skipsHealth (e : Event) : observes e = true -> skipsHealth e = true.
Proof. destruct e; simpl; intros H; try discriminate; reflexivity. Qed.

Lemma getWorkflowState_skipsHealth env ks wf ign :
  emits skipsHealth (getWorkflowState env ks wf ign).
Proof.
  eapply emits_weaken; [exact observes_skipsHealth | apply getWorkflowState_observes].
Qed.

Lemma unlockKeyspaceAfter_skipsHealth {R} dryRun keyspace (o : Outcome R) :
  emits skipsHealth (unlockKeyspaceAfter dryRun keyspace o).
Proof. intros t. exists [Sw dryRun (unlockKeyspace keyspace)]. auto. Qed.

Lemma switchReads_skipsHealth env req ts state rebuildSrvVSchema direction :
  emits skipsHealth (switchReads env req ts state rebuildSrvVSchema direction).
Proof.
  unfold switchReads, confirmSourceLockHeld. cbv zeta.
  repeat (emits_step || apply unlockKeyspaceAfter_skipsHealth).
Qed.

Lemma lockTablesLoop_skipsHealth env dryRun n cnt :
  emits skipsHealth (lockTablesLoop env dryRun n cnt).
Proof.
  revert cnt. induction n as [|n IH]; intros cnt; cbn [lockTablesLoop]; unfold cancelAfter;
    repeat (emits_step || apply IH).
Qed.

Lemma switchWrites_skipsHealth env req ts waitTimeout cancel :
  emits skipsHealth (switchWrites env req ts waitTimeout cancel).
Proof.
  unfold switchWrites, confirmKeyspaceLocksHeld, handleError, cancelAfter. cbv zeta.
  repeat (emits_step
          || apply lockTablesLoop_skipsHealth
          || (apply unlockKeyspaceNamed_emits; reflexivity)).
Qed.

Lemma switchTrafficSwitch_skipsHealth env req ts L :
  emits skipsHealth (switchTrafficSwitch env req ts L).
Proof.
  pose proof switchReads_skipsHealth. pose proof switchWrites_skipsHealth.
  pose proof getWorkflowState_skipsHealth.
  unfold switchTrafficSwitch. cbv zeta.
  repeat (emits_step; auto).
Qed.

(** What the prelude makes of [writesAlreadySwitched]. *)
Lemma prelude_writesAlreadySwitched env req t t0 t1 ts st st' L :
  getWorkflowState env (WorkflowSwitchTrafficRequest.Keyspace req)
    (WorkflowSwitchTrafficRequest.Workflow req) false t
  = (Returned (Some ts, Some st, None), t0) ->
  (if IsMultiTenantMigration ts
   then updateKeyspaceRoutingStateOf env t0 (sourceKeyspace ts) (targetKeyspace ts) st = inl st'
   else st' = st) ->
  switchTrafficPrelude env req t = (inl L, t1) ->
  l_writesAlreadySwitched L
  = ((WorkflowSwitchTrafficRequest.Direction req =? DirectionForward) && WritesSwitched st')
    || ((WorkflowSwitchTrafficRequest.Direction req =? DirectionBackward)
        && negb (WritesSwitched st')).
Proof.
  intros Hstate Hst' Hprelude.
  unfold switchTrafficPrelude in Hprelude.
  destruct (DurationFromProto env (WorkflowSwitchTrafficRequest.Timeout req))
    as [[timeout set] err].
  destruct (DurationFromProto env (WorkflowSwitchTrafficRequest.MaxReplicationLagAllowed req))
    as [[lag setLag] lagErr].
  destruct (parseTabletTypes env (WorkflowSwitchTrafficRequest.TabletTypes req))
    as [[[switchReplica switchRdonly] switchPrimary] typesErr].
  unfold stateOrReturn in Hprelude.
  unfold bind, returnIf, invoke, pure, Return, ask in Hprelude.
  cbv zeta in Hprelude.
  destruct (notNil err); [discriminate|].
  destruct (Qltb _ _); [discriminate|].
  destruct (notNil lagErr); [discriminate|].
  destruct (notNil typesErr); [discriminate|].
  cbv beta iota in Hprelude. rewrite Hstate in Hprelude. cbv beta iota in Hprelude.
  destruct (String.eqb (WorkflowType st) TypeMigrate);
    cbv beta iota in Hprelude; [discriminate|].
  destruct (IsMultiTenantMigration ts) eqn:Hmt.
  - rewrite Hst' in Hprelude. cbv beta iota in Hprelude.
    repeat (split_match_in Hprelude; try discriminate);
      inversion Hprelude; subst; reflexivity.
  - subst st'. cbv beta iota in Hprelude.
    repeat (split_match_in Hprelude; try discriminate);
      inversion Hprelude; subst; reflexivity.
Qed.

(** With writes switched already, the verb goes from the lock straight
    to the switching. *)
Lemma WorkflowSwitchTraffic_gate_skipped env req t t1 L :
  switchTrafficPrelude env req t = (inl L, t1) ->
  l_writesAlreadySwitched L = true ->
  WorkflowSwitchTraffic env req t
  = body (let ts := l_ts L in
          let lockName := TargetKeyspaceName ts ++ "/" ++ WorkflowName ts in
          lockErr <- ask (fun t => errOf env t (LockName lockName "WorkflowSwitchTraffic"))
                         (LockName lockName "WorkflowSwitchTraffic") ;;
          returnIf (notNil lockErr)
            (None, Wrapf lockErr ("failed to lock the " ++ lockName ++ " workflow")) ;;
          defer (unlockNameAfter lockName)
            (switchTrafficSwitch env req
               (set_force ts (WorkflowSwitchTrafficRequest.Force req)) L)) t1.
Proof.
  intros Hprelude Hskip.
  unfold WorkflowSwitchTraffic, body at 1, bind at 1. rewrite Hprelude.
  unfold switchTrafficGate. rewrite Hskip. reflexivity.
Qed.

Lemma unlockNameAfter_skipsHealth {R} lockName (o : Outcome R) :
  emits skipsHealth (unlockNameAfter lockName o).
Proof. intros t. exists [UnlockName lockName]. auto. Qed.

(** C9.  Take a [WorkflowSwitchTraffic] request on a workflow whose
    state is fetched, and let writes be switched already in the
    requested direction: forward with writes switched, or backward with
    writes not switched.  Then the validation gate is skipped: what the
    verb returns and what it calls do not depend on what [GetWorkflows]
    says of the lag and the streams, nor on what the refresh of the
    tablets says, and none of the calls that the verb makes is one of
    [canSwitch]. *)
Theorem WorkflowSwitchTraffic_skips_gate_when_writes_already_switched :
  forall (env : Env) (req : WorkflowSwitchTrafficRequest.t) (t t0 : Trace)
         (ts : trafficSwitcher) (st st' : State),
    getWorkflowState env (WorkflowSwitchTrafficRequest.Keyspace req)
      (WorkflowSwitchTrafficRequest.Workflow req) false t
    = (Returned (Some ts, Some st, None), t0) ->
    (if IsMultiTenantMigration ts
     then updateKeyspaceRoutingStateOf env t0 (sourceKeyspace ts) (targetKeyspace ts) st
          = inl st'
     else st' = st) ->
    (WorkflowSwitchTrafficRequest.Direction req = DirectionForward /\
     WritesSwitched st' = true) \/
    (WorkflowSwitchTrafficRequest.Direction req = DirectionBackward /\
     WritesSwitched st' = false) ->
    (forall workflows refresh,
        WorkflowSwitchTraffic (withHealth env workflows refresh) req t
        = WorkflowSwitchTraffic env req t) /\
    (exists evs,
        snd (WorkflowSwitchTraffic env req t) = (t ++ evs)%list /\
        forallb skipsHealth evs = true).
Proof.
  intros env req t t0 ts st st' Hstate Hst' Hdir.
  destruct (switchTrafficPrelude env req t) as [[L|o] t1] eqn:Hprelude.
  - assert (Hskip : l_writesAlreadySwitched L = true).
    { rewrite (prelude_writesAlreadySwitched env req t t0 t1 ts st st' L Hstate Hst' Hprelude).
      destruct Hdir as [[-> ->] | [-> ->]]; reflexivity. }
    split.
    + intros workflows refresh.
      rewrite (WorkflowSwitchTraffic_gate_skipped env req t t1 L Hprelude Hskip).
      rewrite (WorkflowSwitchTraffic_gate_skipped (withHealth env workflows refresh)
                 req t t1 L Hprelude Hskip).
      reflexivity.
    + rewrite (WorkflowSwitchTraffic_gate_skipped env req t t1 L Hprelude Hskip).
      destruct (prelude_extends env req t _ t1 Hprelude) as (evs1 & -> & Hevs1).
      match goal with
      | |- context [body ?c (t ++ evs1)%list] =>
          assert (Hc : emits skipsHealth (body c))
      end.
      { pose proof switchTrafficSwitch_skipsHealth. cbv zeta.
        repeat (emits_step || apply unlockNameAfter_skipsHealth); auto. }
      destruct (Hc (t ++ evs1)%list) as (evs2 & Hevs & Hevs2).
      exists (evs1 ++ evs2)%list. rewrite app_assoc. split; [exact Hevs|].
      rewrite forallb_app, Hevs2, andb_true_r.
      rewrite forallb_forall in *. intros e He. apply observes_skipsHealth. auto.
  - split.
    + intros workflows refresh.
      unfold WorkflowSwitchTraffic, body, bind.
      rewrite switchTrafficPrelude_withHealth, Hprelude. reflexivity.
    + destruct (prelude_extends env req t _ t1 Hprelude) as (evs1 & -> & Hevs1).
      exists evs1. split.
      * unfold WorkflowSwitchTraffic, body, bind. rewrite Hprelude. destruct o; reflexivity.
      * rewrite forallb_forall in *. intros e He. apply observes_skipsHealth. auto.
Qed.

Lemma WorkflowSwitchTraffic_multi_tenant_witness :
  WorkflowSwitchTraffic (world multiTenantScenario)
    (switchRequest [TabletType_PRIMARY] DirectionBackward None) []
  = (Returned (None,
               Some (fundamental "cannot reverse write traffic for multi-tenant migrations"
                       Code_INVALID_ARGUMENT)),
     [ buildTrafficSwitcher "ks2" "wf" false;
       updateKeyspaceRoutingState "ks1" "ks2";
       updateKeyspaceRoutingState "ks1" "ks2" ]).
Proof.
  refine (proj1 (WorkflowSwitchTraffic_multi_tenant_reverse_writes
                   (world multiTenantScenario)
                   (switchRequest [TabletType_PRIMARY] DirectionBackward None)
                   [] [buildTrafficSwitcher "ks2" "wf" false;
                       updateKeyspaceRoutingState "ks1" "ks2"]
                   0 0 false false false false (moveTables false true)
                   (stateOf false ([], []) ([], [])) (stateOf false ([], []) ([], []))
                   _ _ _ _ _ _ _ _ _)).
  - reflexivity.
  - vm_compute. discriminate.
  - reflexivity.
  - reflexivity.
  - vm_compute. reflexivity.
  - discriminate.
  - reflexivity.
  - reflexivity.
  - reflexivity.
Defined.

Lemma WorkflowSwitchTraffic_gate_refuses_witness :
  exists reason,
    WorkflowSwitchTraffic (world (fresh erroring))
      (switchRequest [TabletType_REPLICA] DirectionForward None) []
    = (Returned (None,
                 Some (fundamental
                         ("cannot switch traffic for workflow wf at this time: " ++ reason)
                         Code_FAILED_PRECONDITION)),
       (stateReads ++ [ LockName "ks2/wf" "WorkflowSwitchTraffic";
                        GetWorkflows "ks2" "wf" false [];
                        UnlockName "ks2/wf" ])%list) /\
    reasonHolds erroring 30 reason.
Proof.
  destruct (WorkflowSwitchTraffic_gate_refuses
              (world (fresh erroring))
              (switchRequest [TabletType_REPLICA] DirectionForward None)
              [] stateReads
              (replicaLocals (moveTables false false)
                 (stateOf false ([], ["zone1"]) ([], ["zone1"])))
              erroring)
    as (reason & Hrun & Hholds & _).
  - vm_compute. reflexivity.
  - reflexivity.
  - reflexivity.
  - reflexivity.
  - left. vm_compute. reflexivity.
  - exists reason. split; [exact Hrun | exact Hholds].
Defined.

(** C3 as the spec has it fails.  The workflow has a stream in the
    Error state and a lag of 120 seconds, beyond the 30 seconds that the
    request allows; writes are switched already and the request switches
    the reads of the replicas forward.  [WorkflowSwitchTraffic] returns
    no error, it has switched the reads, and [canSwitch] never ran. *)
Lemma WorkflowSwitchTraffic_gate_counterexample :
  getWorkflowsOf (world (writesOnly erroring)) [] "ks2" "wf" [] = (Some [erroring], None) /\
  hasStream erroring (fun st => Stream_State st = "Error") /\
  int64_of_Q (Seconds DefaultTimeout) < MaxVReplicationTransactionLag erroring /\
  exists resp trace,
    WorkflowSwitchTraffic (world (writesOnly erroring))
      (switchRequest [TabletType_REPLICA] DirectionForward None) []
    = (Returned (Some resp, None), trace) /\
    In (Sw false (switchTableReads [] [TabletType_REPLICA] true 0)) trace /\
    forallb skipsHealth trace = true.
Proof.
  split; [reflexivity|]. split.
  - exists "0/zone1-0000000200",
      {| Streams := [ {| Stream_State := "Error"; Message := "boom" |} ] |},
      {| Stream_State := "Error"; Message := "boom" |}.
    simpl. auto.
  - split; [vm_compute; reflexivity|].
    eexists. eexists. split; [vm_compute; reflexivity|].
    split; [simpl; tauto | reflexivity].
Qed.

Lemma WorkflowSwitchTraffic_skips_gate_witness :
    WorkflowSwitchTraffic (unreachable (world (writesOnly erroring)))
      (switchRequest [TabletType_REPLICA] DirectionForward None) []
    = (Returned
         (Some {| WorkflowSwitchTrafficResponse.Summary :=
                    "SwitchTraffic was successful for workflow ks2.wf";
                  WorkflowSwitchTrafficResponse.StartState := "writes switched";
                  WorkflowSwitchTrafficResponse.CurrentState := "writes switched";
                  WorkflowSwitchTrafficResponse.DryRunResults := [] |},
          None),
       (stateReads
        ++ [ LockName "ks2/wf" "WorkflowSwitchTraffic";
             DoCellsHaveRdonlyTablets []; checkJournals; validate;
             Sw false (lockKeyspace "ks1" "SwitchReads" (Some (30 * Second)));
             Sw false (mirrorTableTraffic [TabletType_REPLICA] 0);
             Sw false (switchTableReads [] [TabletType_REPLICA] true 0);
             Sw false (unlockKeyspace "ks1") ]
        ++ stateReads ++ [UnlockName "ks2/wf"])%list).
Proof.
  unfold unreachable.
  rewrite (proj1 (WorkflowSwitchTraffic_skips_gate_when_writes_already_switched
                    (world (writesOnly erroring))
                    (switchRequest [TabletType_REPLICA] DirectionForward None)
                    [] stateReads (moveTables true false)
                    (stateOf true ([], ["zone1"]) ([], ["zone1"]))
                    (stateOf true ([], ["zone1"]) ([], ["zone1"]))
                    eq_refl eq_refl (or_introl (conj eq_refl eq_refl)))).
  vm_compute. reflexivity.
Defined.

(** *** Locks are given back *)

Lemma LockKey_eqb_refl (k : LockKey) : LockKey_eqb k k = true.
Proof. destruct k; simpl; apply String.eqb_refl. Qed.

Lemma heldAfter_app env t evs1 evs2 held :
  heldAfter env t (evs1 ++ evs2) held
  = match heldAfter env t evs1 held with
    | Some held1 => heldAfter env (t ++ evs1)%list evs2 held1
    | None => None
    end.
Proof.
  revert t held. induction evs1 as [|e evs1 IH]; intros t held; simpl.
  - rewrite app_nil_r. reflexivity.
  - assert (Ht : ((t ++ [e]) ++ evs1 = t ++ e :: evs1)%list)
      by (rewrite <- app_assoc; reflexivity).
    destruct (acquires e) as [key|]; [|destruct (releases e) as [key|]].
    + destruct (notNil (errOf env t e)); rewrite IH, Ht; reflexivity.
    + destruct held as [|latest held']; [reflexivity|].
      destruct (LockKey_eqb key latest); [|reflexivity]. rewrite IH, Ht. reflexivity.
    + rewrite IH, Ht. reflexivity.
Qed.

Lemma heldAfter_noLock env t evs held :
  forallb noLock evs = true -> heldAfter env t evs held = Some held.
Proof.
  revert t. induction evs as [|e evs IH]; intros t Hevs; simpl in *; [reflexivity|].
  apply andb_true_iff in Hevs. destruct Hevs as [He Hevs]. unfold noLock in He.
  destruct (acquires e); [discriminate|]. destruct (releases e); [discriminate|]. auto.
Qed.

Section Locks.
Variable env : Env.

Lemma ril_of_emits {X} (c : Trace -> X * Trace) :
  emits noLock c -> releasesItsLocks env c.
Proof.
  intros Hc t held. destruct (Hc t) as (evs & Ht & Hevs). exists evs.
  split; [exact Ht | apply heldAfter_noLock, Hevs].
Qed.

Lemma ril_pure {R A} (a : A) : releasesItsLocks env (@pure R A a).
Proof. apply ril_of_emits, emits_pure. Qed.

Lemma ril_Return {R A} (r : R) : releasesItsLocks env (@Return R A r).
Proof. apply ril_of_emits, emits_Return. Qed.

Lemma ril_panic {R A} (msg : string) : releasesItsLocks env (@panic R A msg).
Proof. apply ril_of_emits, emits_panic. Qed.

Lemma ril_returnIf {R} (c : bool) (r : R) : releasesItsLocks env (returnIf c r).
Proof. apply ril_of_emits, emits_returnIf. Qed.

Lemma ril_local {R A} (f : Trace -> A) :
  releasesItsLocks env (fun t => (@inl A (Outcome R) (f t), t)).
Proof. apply ril_of_emits, emits_local. Qed.

Lemma ril_ask {R A} (f : Trace -> A) (e : Event) :
  noLock e = true -> releasesItsLocks env (@ask R A f e).
Proof. intros He. apply ril_of_emits, emits_ask, He. Qed.

Lemma ril_bind {R A B} (c : M R A) (k : A -> M R B) :
  releasesItsLocks env c -> (forall a, releasesItsLocks env (k a)) ->
  releasesItsLocks env (bind c k).
Proof.
  intros Hc Hk t held. unfold bind.
  destruct (Hc t held) as (evs1 & Ht1 & Hh1).
  destruct (c t) as [[a|o] t1]; simpl in Ht1; subst t1.
  - destruct (Hk a (t ++ evs1)%list held) as (evs2 & Ht2 & Hh2).
    exists (evs1 ++ evs2)%list. rewrite Ht2, app_assoc. split; [reflexivity|].
    rewrite heldAfter_app, Hh1. exact Hh2.
  - exists evs1. auto.
Qed.

Lemma ril_body {R} (c : M R R) : releasesItsLocks env c -> releasesItsLocks env (body c).
Proof.
  intros Hc t held. destruct (Hc t held) as (evs & Ht & Hh). exists evs.
  split; [|exact Hh]. unfold body. destruct (c t) as [[r|o] t1]; exact Ht.
Qed.

Lemma ril_invoke {R A} (f : Trace -> Outcome A * Trace) :
  releasesItsLocks env f -> releasesItsLocks env (@invoke R A f).
Proof.
  intros Hf t held. destruct (Hf t held) as (evs & Ht & Hh). exists evs.
  split; [|exact Hh]. unfold invoke. destruct (f t) as [[a|msg] t1]; exact Ht.
Qed.

(** A lock is asked for; on an error the function returns; otherwise
    the unlock is deferred and the rest runs under the lock. *)
Lemma ril_locked {R A} (eL eU : Event) (key : LockKey) (r : goerror -> R)
      (d : Outcome R -> Trace -> Outcome R * Trace) (rest : M R R) :
  acquires eL = Some key -> releases eU = Some key -> acquires eU = None ->
  (forall o t, snd (d o t) = (t ++ [eU])%list) ->
  releasesItsLocks env rest ->
  releasesItsLocks env
    (bind (ask (fun t => errOf env t eL) eL)
          (fun lockErr => bind (returnIf (notNil lockErr) (r lockErr))
                               (fun _ => @defer R A d rest))).
Proof.
  intros HeL HeU HeU' Hd Hrest t held. unfold bind, ask, returnIf, defer.
  destruct (errOf env t eL) as [e|] eqn:Hlock; simpl.
  - exists [eL]. split; [reflexivity|]. simpl. rewrite HeL, Hlock. reflexivity.
  - destruct (ril_body rest Hrest (t ++ [eL])%list (key :: held)) as (evs & Ht & Hh).
    destruct (body rest (t ++ [eL])%list) as [o t1]. simpl in Ht. subst t1.
    pose proof (Hd o ((t ++ [eL]) ++ evs)%list) as Hd'.
    destruct (d o ((t ++ [eL]) ++ evs)%list) as [o' t2]. simpl in Hd'. subst t2.
    exists (eL :: evs ++ [eU])%list. split.
    + simpl. rewrite <- !app_assoc. reflexivity.
    + simpl. rewrite HeL, Hlock. simpl. rewrite heldAfter_app, Hh. simpl.
      rewrite HeU, HeU', LockKey_eqb_refl. reflexivity.
Qed.

(** The same with the lock taken by a [step] of [switchWrites]. *)
Lemma ril_locked_step {R A} (eL eU : Event) (key : LockKey) (r : goerror -> R)
      (d : Outcome R -> Trace -> Outcome R * Trace) (rest : M R R) :
  acquires eL = Some key -> releases eU = Some key -> acquires eU = None ->
  (forall o t, snd (d o t) = (t ++ [eU])%list) ->
  releasesItsLocks env rest ->
  releasesItsLocks env
    (bind (bind (ask (fun t => errOf env t eL) eL)
                (fun lockErr => returnIf (notNil lockErr) (r lockErr)))
          (fun _ => @defer R A d rest)).
Proof.
  intros HeL HeU HeU' Hd Hrest t held.
  destruct (ril_locked (A := A) eL eU key r d rest HeL HeU HeU' Hd Hrest t held)
    as (evs & Ht & Hh).
  exists evs. split; [|exact Hh]. rewrite <- Ht.
  unfold bind, ask, returnIf. destruct (notNil (errOf env t eL)); reflexivity.
Qed.

End Locks.

(** One step of the proof that a statement sequence gives back its
    locks. *)
Ltac ril_unlock :=
  let o := fresh "o" in
  let t := fresh "t" in
  intros o t; first [reflexivity | destruct o as [[[? ?] [?|]]|?]; reflexivity].

Ltac ril_step :=
  match goal with
  | |- releasesItsLocks _ (bind _ _) =>
      first [ eapply ril_locked; [reflexivity | | | ril_unlock |];
              [reflexivity | reflexivity |]
            | eapply ril_locked_step; [reflexivity | | | ril_unlock |];
              [reflexivity | reflexivity |]
            | apply ril_bind; [| intros ?] ]
  | |- releasesItsLocks _ (pure _) => apply ril_pure
  | |- releasesItsLocks _ (Return _) => apply ril_Return
  | |- releasesItsLocks _ (panic _) => apply ril_panic
  | |- releasesItsLocks _ (returnIf _ _) => apply ril_returnIf
  | |- releasesItsLocks _ (ask _ _) => apply ril_ask; reflexivity
  | |- releasesItsLocks _ (body _) => apply ril_body
  | |- releasesItsLocks _ (invoke _) => apply ril_invoke; auto with locks
  | |- releasesItsLocks _ (fun t => (inl _, t)) => apply ril_local
  | |- releasesItsLocks _ (match ?x with _ => _ end) => destruct x
  | |- releasesItsLocks _ (let '(_, _) := ?x in _) => destruct x
  end.

Create HintDb locks.

Lemma getWorkflowState_ril env ks wf ign :
  releasesItsLocks env (getWorkflowState env ks wf ign).
Proof.
  apply ril_of_emits. eapply emits_weaken; [|apply getWorkflowState_observes].
  intros e He. destruct e; try discriminate; reflexivity.
Qed.

Lemma canSwitch_ril env ts allowed shards :
  releasesItsLocks env (canSwitch env ts allowed shards).
Proof.
  assert (Hrefresh : forall shards stype acc,
             emits noLock (@refreshTablets env (string * goerror) ts shards stype acc)).
  { induction shards0 as [|si rest IH]; intros stype acc; simpl;
      repeat (emits_step || apply IH). }
  apply ril_of_emits. unfold canSwitch, GetWorkflow.
  repeat (emits_step || apply Hrefresh).
Qed.

Lemma lockTablesLoop_ril env dryRun n cnt :
  releasesItsLocks env (lockTablesLoop env dryRun n cnt).
Proof.
  apply ril_of_emits. revert cnt.
  induction n as [|n IH]; intros cnt; cbn [lockTablesLoop]; unfold cancelAfter;
    repeat (emits_step || apply IH).
Qed.

#[local] Hint Resolve getWorkflowState_ril canSwitch_ril lockTablesLoop_ril : locks.

Lemma switchReads_ril env req ts state rebuildSrvVSchema direction :
  releasesItsLocks env (switchReads env req ts state rebuildSrvVSchema direction).
Proof.
  unfold switchReads, confirmSourceLockHeld. cbv beta zeta. repeat ril_step.
Qed.

Lemma switchWrites_ril env req ts waitTimeout cancel :
  releasesItsLocks env (switchWrites env req ts waitTimeout cancel).
Proof.
  unfold switchWrites, confirmKeyspaceLocksHeld, handleError, cancelAfter. cbv beta zeta.
  repeat (ril_step || apply lockTablesLoop_ril).
Qed.

#[local] Hint Resolve switchReads_ril switchWrites_ril : locks.

Lemma stateOrReturn_ril {R} env r (onErr : goerror -> R) :
  releasesItsLocks env (stateOrReturn r onErr).
Proof.
  unfold stateOrReturn. destruct r as [[[ts|] [st|]] [e|]]; repeat ril_step.
Qed.

(** Whatever the outcome of [WorkflowSwitchTraffic] - success, a
    refusal, an error of any call, a panic - it has given back every
    lock that it took, the lock of the workflow and the locks of the
    keyspaces, each after the locks taken under it, and it has given
    back no lock that it did not hold. *)
Theorem WorkflowSwitchTraffic_releases_its_locks :
  forall (env : Env) (req : WorkflowSwitchTrafficRequest.t) (t : Trace),
    exists evs,
      snd (WorkflowSwitchTraffic env req t) = (t ++ evs)%list /\
      heldAfter env t evs [] = Some [].
Proof.
  intros env req t.
  assert (H : releasesItsLocks env (WorkflowSwitchTraffic env req)).
  { unfold WorkflowSwitchTraffic, switchTrafficPrelude, switchTrafficGate,
      switchTrafficSwitch. cbv zeta.
    repeat (ril_step || apply stateOrReturn_ril). }
  exact (H t []).
Qed.

Lemma finalizeMigrateWorkflow_ril env ts tableSpecs cancel keepData keepRoutingRules dryRun :
  releasesItsLocks env
    (finalizeMigrateWorkflow env ts tableSpecs cancel keepData keepRoutingRules dryRun).
Proof.
  unfold finalizeMigrateWorkflow, orReturn, swCall, swLogs. cbv beta zeta. repeat ril_step.
Qed.

Lemma dropRelatedArtifacts_ril env keepRoutingRules dryRun ignoreSourceKeyspace :
  releasesItsLocks env (dropRelatedArtifacts env keepRoutingRules dryRun ignoreSourceKeyspace).
Proof.
  unfold dropRelatedArtifacts, swCall. cbv beta zeta. repeat ril_step.
Qed.

Lemma dropArtifacts_ril env keepRoutingRules dryRun ignoreSourceKeyspace :
  releasesItsLocks env (dropArtifacts env keepRoutingRules dryRun ignoreSourceKeyspace).
Proof.
  unfold dropArtifacts, swCall. cbv beta zeta. repeat ril_step.
Qed.

#[local] Hint Resolve finalizeMigrateWorkflow_ril dropRelatedArtifacts_ril dropArtifacts_ril
  : locks.

Lemma withDropLocks_ril env dryRun ignoreSourceKeyspace ts action rest :
  releasesItsLocks env rest ->
  releasesItsLocks env (withDropLocks env dryRun ignoreSourceKeyspace ts action rest).
Proof.
  intros Hrest. unfold withDropLocks, swCall. cbv beta zeta.
  repeat (ril_step || assumption).
Qed.

Lemma dropTargets_ril env ts keepData keepRoutingRules dryRun ignoreSourceKeyspace :
  releasesItsLocks env
    (dropTargets env ts keepData keepRoutingRules dryRun ignoreSourceKeyspace).
Proof.
  unfold dropTargets, orReturn, swCall, swLogs. cbv beta zeta.
  apply ril_body, withDropLocks_ril. repeat ril_step.
Qed.

Lemma dropSources_ril env ts removalType keepData keepRoutingRules force dryRun ign :
  releasesItsLocks env
    (dropSources env ts removalType keepData keepRoutingRules force dryRun ign).
Proof.
  unfold dropSources, orReturn, swCall, swLogs. cbv beta zeta.
  apply ril_body, withDropLocks_ril. repeat ril_step.
Qed.

Lemma deleteTenantData_ril env ts batchSize :
  releasesItsLocks env (deleteTenantData env ts batchSize).
Proof.
  unfold deleteTenantData. repeat ril_step.
Qed.

#[local] Hint Resolve dropTargets_ril dropSources_ril deleteTenantData_ril : locks.

(** [WorkflowDelete] gives back every lock that it took - the lock of
    the workflow and, under it, the keyspace locks of [dropTargets] or of
    [finalizeMigrateWorkflow] - whatever its outcome. *)
Theorem WorkflowDelete_releases_its_locks :
  forall (env : Env) (req : WorkflowDeleteRequest.t) (t : Trace),
    exists evs,
      snd (WorkflowDelete env req t) = (t ++ evs)%list /\
      heldAfter env t evs [] = Some [].
Proof.
  intros env req t.
  assert (H : releasesItsLocks env (WorkflowDelete env req)).
  { unfold WorkflowDelete, deleteLocked. cbv beta zeta.
    repeat (ril_step || apply stateOrReturn_ril). }
  exact (H t []).
Qed.

(** [MoveTablesComplete] gives back every lock that it took - the lock
    of the workflow and, under it, the keyspace locks of [dropSources] or
    of [finalizeMigrateWorkflow] - whatever its outcome. *)
Theorem MoveTablesComplete_releases_its_locks :
  forall (env : Env) (req : MoveTablesCompleteRequest.t) (t : Trace),
    exists evs,
      snd (MoveTablesComplete env req t) = (t ++ evs)%list /\
      heldAfter env t evs [] = Some [].
Proof.
  intros env req t.
  assert (H : releasesItsLocks env (MoveTablesComplete env req)).
  { unfold MoveTablesComplete, completeLocked. cbv beta zeta.
    repeat (ril_step || apply stateOrReturn_ril). }
  exact (H t []).
Qed.

(** The locks in a run of each verb: the workflow lock outermost. *)
Example WorkflowSwitchTraffic_locks_example :
  let t := snd (WorkflowSwitchTraffic (world (fresh healthy))
                  (switchRequest [TabletType_REPLICA; TabletType_PRIMARY] DirectionForward None)
                  []) in
  filter (fun e => negb (noLock e)) t
  = [ LockName "ks2/wf" "WorkflowSwitchTraffic";
      Sw false (lockKeyspace "ks1" "SwitchReads" (Some (30 * Second)));
      Sw false (unlockKeyspace "ks1");
      Sw false (lockKeyspace "ks1" "SwitchWrites" (Some (30 * Second * 3)));
      Sw false (lockKeyspace "ks2" "SwitchWrites" (Some (30 * Second * 3)));
      Sw false (unlockKeyspace "ks2");
      Sw false (unlockKeyspace "ks1");
      UnlockName "ks2/wf" ] /\
  heldAfter (world (fresh healthy)) [] t [] = Some [].
Proof. vm_compute. split; reflexivity. Qed.

(** *** [GetWorkflow] and [canSwitch] *)

Lemma append_length (a b : string) :
  String.length (a ++ b) = (String.length a + String.length b)%nat.
Proof. induction a; simpl; auto. Qed.

(** [GetWorkflow] makes one call of [GetWorkflows] and returns either
    a workflow or an error, never neither: the workflow when the answer
    holds exactly one, the error of the answer, NOT_FOUND for a nil
    answer, INTERNAL for any other number of workflows. *)
Theorem GetWorkflow_one_workflow_or_an_error :
  forall (env : Env) (keyspace workflow : string) (includeLogs : bool)
         (shards : list string) (t : Trace),
    exists res err,
      GetWorkflow env keyspace workflow includeLogs shards t
      = (Returned (res, err),
         (t ++ [GetWorkflows keyspace workflow includeLogs shards])%list) /\
      (res = None <-> err <> None) /\
      (forall wf, res = Some wf <->
                  getWorkflowsOf env t keyspace workflow shards = (Some [wf], None)) /\
      (forall answer e, getWorkflowsOf env t keyspace workflow shards = (answer, Some e) ->
                        err = Some e) /\
      (getWorkflowsOf env t keyspace workflow shards = (None, None) ->
       Code err = Code_NOT_FOUND) /\
      (forall workflows,
          getWorkflowsOf env t keyspace workflow shards = (Some workflows, None) ->
          List.length workflows <> 1%nat -> Code err = Code_INTERNAL).
Proof.
  intros env keyspace workflow includeLogs shards t.
  unfold GetWorkflow, body, bind, ask.
  destruct (getWorkflowsOf env t keyspace workflow shards) as [res [e|]].
  - exists None, (Some e). simpl. repeat split; try discriminate; try congruence.
  - destruct res as [[|wf [|wf' rest]]|]; simpl;
      [eexists None, _ | exists (Some wf), None | eexists None, _ | eexists None, _];
      (split; [reflexivity|]); repeat split; try discriminate; try congruence;
      intros;
      repeat match goal with
             | H : (_, _) = (_, _) |- _ => inversion H; subst; clear H
             | H : Some _ = Some _ |- _ => inversion H; subst; clear H
             end;
      simpl in *; try reflexivity; try congruence.
Qed.

Lemma GetWorkflow_one_workflow_witness :
  exists res err,
    GetWorkflow (world (fresh healthy)) "ks2" "wf" false [] []
    = (Returned (res, err), [GetWorkflows "ks2" "wf" false []]) /\
    res = Some healthy.
Proof.
  destruct (GetWorkflow_one_workflow_or_an_error (world (fresh healthy)) "ks2" "wf" false [] [])
    as (res & err & Hrun & _ & Hsome & _).
  exists res, err. split; [exact Hrun|]. apply Hsome. reflexivity.
Defined.

Lemma refreshTablets_accumulates {R} env ts (refresh : ShardInfo -> bool * string * goerror) :
  (forall T si, refreshTabletsByShardOf env T si = refresh si) ->
  forall shards stype acc t,
  exists acc' t',
    @refreshTablets env R ts shards stype acc t = (inl acc', t') /\
    (String.length acc <= String.length acc')%nat /\
    (String.length acc' = String.length acc <-> Forall (refreshed (force ts) refresh) shards).
Proof.
  intros Hrefresh shards. induction shards as [|si rest IH]; intros stype acc t.
  - exists acc, t. simpl. repeat split; auto.
  - cbn [refreshTablets]. unfold bind, ask. rewrite Hrefresh.
    destruct (refresh si) as [[partial details] err] eqn:Hsi. cbv beta iota zeta.
    assert (Hcons : forall P : Prop,
               (P <-> Forall (refreshed (force ts) refresh) rest) ->
               refreshed (force ts) refresh si ->
               (P <-> Forall (refreshed (force ts) refresh) (si :: rest))).
    { intros P HP Hok. rewrite Forall_cons_iff. tauto. }
    assert (Hbad : forall P : Prop,
               ~ P -> ~ refreshed (force ts) refresh si ->
               (P <-> Forall (refreshed (force ts) refresh) (si :: rest))).
    { intros P HP Hno. rewrite Forall_cons_iff. tauto. }
    unfold refreshed in Hcons, Hbad. rewrite Hsi in Hcons, Hbad.
    set (msg := ("failed to successfully refresh all tablets in the " ++ si_Keyspace si ++ "/"
                   ++ si_ShardName si ++ " " ++ stype ++ " shard (" ++ show err ++ "):"
                   ++ String (ascii_of_nat 10) ("  " ++ details
                   ++ String (ascii_of_nat 10) ""))).
    assert (Hmsg : (0 < String.length msg)%nat).
    { subst msg. rewrite append_length. simpl. lia. }
    destruct err as [e|]; [|destruct partial]; cbv iota.
    + destruct (partial && force ts) eqn:Hpf.
      * apply andb_true_iff in Hpf. destruct Hpf as [-> Hf].
        destruct (IH stype acc (t ++ [RefreshTabletsByShard (si_Keyspace si) (si_ShardName si)])%list)
          as (acc' & t' & Hrun & Hle & Hiff).
        exists acc', t'. split; [exact Hrun|]. split; [exact Hle|].
        apply Hcons; [exact Hiff | right; auto].
      * destruct (IH stype (acc ++ msg)
                    (t ++ [RefreshTabletsByShard (si_Keyspace si) (si_ShardName si)])%list)
          as (acc' & t' & Hrun & Hle & Hiff).
        rewrite append_length in Hle.
        exists acc', t'. split; [exact Hrun|]. split; [lia|].
        apply Hbad; [lia|].
        intros [[_ Hn] | [Hp Hf]]; [discriminate|]. subst partial. simpl in Hpf. congruence.
    + destruct (force ts) eqn:Hf; simpl andb; cbv iota.
      * destruct (IH stype acc (t ++ [RefreshTabletsByShard (si_Keyspace si) (si_ShardName si)])%list)
          as (acc' & t' & Hrun & Hle & Hiff).
        exists acc', t'. split; [exact Hrun|]. split; [exact Hle|].
        apply Hcons; [exact Hiff | right; auto].
      * destruct (IH stype (acc ++ msg)
                    (t ++ [RefreshTabletsByShard (si_Keyspace si) (si_ShardName si)])%list)
          as (acc' & t' & Hrun & Hle & Hiff).
        rewrite append_length in Hle.
        exists acc', t'. split; [exact Hrun|]. split; [lia|].
        apply Hbad; [lia|]. intros [[Hp _] | [_ Hf']]; discriminate.
    + destruct (IH stype acc (t ++ [RefreshTabletsByShard (si_Keyspace si) (si_ShardName si)])%list)
        as (acc' & t' & Hrun & Hle & Hiff).
      exists acc', t'. split; [exact Hrun|]. split; [exact Hle|].
      apply Hcons; [exact Hiff | left; auto].
Qed.

(** When [GetWorkflows] answers with the one workflow, [canSwitch]
    returns no error, and it lets the switch go on - the reason is empty
    - exactly when the lag of the workflow is within the allowed lag, no
    stream is frozen, copying or in error, and every source and target
    shard was refreshed: in full and without an error, or in part with
    the switcher forced.  Forcing overrides nothing else. *)
Theorem canSwitch_allows_iff :
  forall (env : Env) (ts : trafficSwitcher) (allowed : Z) (shards : list string)
         (t : Trace) (wf : Workflow_) (refresh : ShardInfo -> bool * string * goerror),
    getWorkflowsOf env t (targetKeyspace ts) (ts_workflow ts) shards = (Some [wf], None) ->
    (forall T si, refreshTabletsByShardOf env T si = refresh si) ->
    exists reason t',
      canSwitch env ts allowed shards t = (Returned (reason, None), t') /\
      (reason = "" <->
       MaxVReplicationTransactionLag wf <= allowed /\
       ~ hasStream wf notSwitchable /\
       Forall (refreshed (force ts) refresh) (SourceShards ts ++ TargetShards ts)).
Proof.
  intros env ts allowed shards t wf refresh Hwf Hrefresh.
  destruct (Z.ltb_spec allowed (MaxVReplicationTransactionLag wf)) as [Hlag|Hlag].
  { destruct (canSwitch_refuses env ts allowed shards t wf Hwf (or_introl Hlag))
      as (reason & Hrun & Hne & _).
    exists reason. eexists. split; [exact Hrun|].
    apply String.eqb_neq in Hne. split; [contradiction | lia]. }
  destruct (shardStreamsReason_cases (ShardStreams wf)) as [[Hnone Hok] | Hsome].
  2:{ assert (Hbad : hasStream wf notSwitchable).
      { unfold hasStream, notSwitchable.
        destruct Hsome as [[_ (k & ss & st & H1 & H2 & H3)]
                          | [[_ (k & ss & st & H1 & H2 & H3)]
                            | [_ (k & ss & st & H1 & H2 & H3)]]];
          exists k, ss, st; auto. }
      destruct (canSwitch_refuses env ts allowed shards t wf Hwf (or_intror Hbad))
        as (reason & Hrun & Hne & _).
      exists reason. eexists. split; [exact Hrun|].
      apply String.eqb_neq in Hne. split; [contradiction | tauto]. }
  assert (Hget : GetWorkflow env (targetKeyspace ts) (ts_workflow ts) false shards t
                 = (Returned (Some wf, None),
                    (t ++ [GetWorkflows (targetKeyspace ts) (ts_workflow ts) false shards])%list)).
  { unfold GetWorkflow, body, bind, ask. rewrite Hwf. reflexivity. }
  assert (Hltb : (allowed <? MaxVReplicationTransactionLag wf) = false)
    by (apply Z.ltb_ge; exact Hlag).
  set (T0 := (t ++ [GetWorkflows (targetKeyspace ts) (ts_workflow ts) false shards])%list) in *.
  destruct (refreshTablets_accumulates (R := string * option error) env ts refresh Hrefresh
              (SourceShards ts) "source" "" T0) as (acc1 & T1 & Hrun1 & Hle1 & Hiff1).
  destruct (refreshTablets_accumulates (R := string * option error) env ts refresh Hrefresh
              (TargetShards ts) "target" acc1 T1) as (acc2 & T2 & Hrun2 & Hle2 & Hiff2).
  unfold canSwitch, body, bind, invoke, returnIf, pure, Return.
  rewrite Hget. cbv beta iota zeta. rewrite Hltb, Hnone. cbn [String.eqb negb].
  cbv beta iota. rewrite Hrun1. cbv beta iota. rewrite Hrun2. cbv beta iota.
  simpl String.length in *.
  assert (Hall : Forall (refreshed (force ts) refresh) (SourceShards ts ++ TargetShards ts)
                 <-> String.length acc2 = O).
  { rewrite Forall_app, <- Hiff1, <- Hiff2. lia. }
  destruct (Nat.ltb_spec 0 (String.length acc2)) as [Hpos|Hzero].
  - eexists. eexists. split; [reflexivity|]. split.
    + unfold cannotSwitchFailedTabletRefresh. intros Heq.
      apply (f_equal String.length) in Heq. rewrite append_length in Heq. simpl in Heq. lia.
    + intros (_ & _ & Hf). apply Hall in Hf. lia.
  - eexists. eexists. split; [reflexivity|]. split; [|reflexivity].
    intros _. split; [lia|]. split; [|apply Hall; lia].
    intros Hbad. exact (Hok Hbad).
Qed.

Lemma canSwitch_allows_witness :
  exists reason t',
    canSwitch (world (fresh healthy)) (moveTables false false) 30 [] []
    = (Returned (reason, None), t') /\
    reason = "".
Proof.
  destruct (canSwitch_allows_iff (world (fresh healthy)) (moveTables false false) 30 [] []
              healthy (fun _ => (false, "", None)) eq_refl (fun _ _ => eq_refl))
    as (reason & t' & Hrun & Hiff).
  exists reason, t'. split; [exact Hrun|]. apply Hiff.
  split; [vm_compute; discriminate|]. split.
  - intros (k & ss & st & Hin & Hst & Hbad). simpl in Hin.
    destruct Hin as [Hin|[]]. inversion Hin; subst. simpl in Hst.
    destruct Hst as [Hst|[]]. subst st. unfold notSwitchable in Hbad. simpl in Hbad.
    destruct Hbad as [Hbad | [Hbad | Hbad]]; discriminate.
  - simpl. repeat constructor; left; auto.
Defined.

(** *** Dry runs *)

Lemma observes_dryRunOnly (e : Event) : observes e = true -> dryRunOnly e = true.
Proof. destruct e; simpl; intros H; try discriminate; reflexivity. Qed.

Lemma getWorkflowState_dryRunOnly env ks wf ign :
  emits dryRunOnly (getWorkflowState env ks wf ign).
Proof.
  eapply emits_weaken; [exact observes_dryRunOnly | apply getWorkflowState_observes].
Qed.

Lemma canSwitch_dryRunOnly env ts allowed shards :
  emits dryRunOnly (canSwitch env ts allowed shards).
Proof.
  assert (Hrefresh : forall shards stype acc,
             emits dryRunOnly (@refreshTablets env (string * goerror) ts shards stype acc)).
  { induction shards0 as [|si rest IH]; intros stype acc; simpl;
      repeat (emits_step || apply IH). }
  unfold canSwitch, GetWorkflow. repeat (emits_step || apply Hrefresh).
Qed.

Lemma unlockKeyspaceAfter_dryRunOnly {R} keyspace (o : Outcome R) :
  emits dryRunOnly (unlockKeyspaceAfter true keyspace o).
Proof. intros t. exists [Sw true (unlockKeyspace keyspace)]. auto. Qed.

Lemma unlockNameAfter_dryRunOnly {R} lockName (o : Outcome R) :
  emits dryRunOnly (unlockNameAfter lockName o).
Proof. intros t. exists [UnlockName lockName]. auto. Qed.

Lemma switchReads_dryRunOnly env req ts state rebuildSrvVSchema direction :
  WorkflowSwitchTrafficRequest.DryRun req = true ->
  emits dryRunOnly (switchReads env req ts state rebuildSrvVSchema direction).
Proof.
  intros Hdry. unfold switchReads, confirmSourceLockHeld. rewrite Hdry. cbv beta zeta.
  repeat (emits_step || apply unlockKeyspaceAfter_dryRunOnly).
Qed.

Lemma lockTablesLoop_dryRunOnly env n cnt :
  emits dryRunOnly (lockTablesLoop env true n cnt).
Proof.
  revert cnt. induction n as [|n IH]; intros cnt; cbn [lockTablesLoop]; unfold cancelAfter;
    repeat (emits_step || apply IH).
Qed.

Lemma switchWrites_dryRunOnly env req ts waitTimeout cancel :
  WorkflowSwitchTrafficRequest.DryRun req = true ->
  emits dryRunOnly (switchWrites env req ts waitTimeout cancel).
Proof.
  intros Hdry.
  unfold switchWrites, confirmKeyspaceLocksHeld, handleError, cancelAfter. rewrite Hdry.
  cbv beta zeta.
  repeat (emits_step
          || apply lockTablesLoop_dryRunOnly
          || (apply unlockKeyspaceNamed_emits; reflexivity)).
Qed.

(** A dry run of [WorkflowSwitchTraffic] never calls the real
    switcher: every call of a switcher method goes to the dry-run
    switcher, and no keyspace lock is checked, as none is taken.  What
    the server calls itself - the reads of the state, the workflow lock,
    the validation gate and, in [switchWrites], the stream migrator, LOCK
    TABLES on the sources and the gathering of positions - is called in a
    dry run as well. *)
Theorem WorkflowSwitchTraffic_dry_run_uses_the_dry_run_switcher :
  forall (env : Env) (req : WorkflowSwitchTrafficRequest.t) (t : Trace),
    WorkflowSwitchTrafficRequest.DryRun req = true ->
    exists evs,
      snd (WorkflowSwitchTraffic env req t) = (t ++ evs)%list /\
      forallb dryRunOnly evs = true.
Proof.
  intros env req t Hdry. revert t.
  change (emits dryRunOnly (WorkflowSwitchTraffic env req)).
  pose proof (switchReads_dryRunOnly env req) as Hreads.
  pose proof (switchWrites_dryRunOnly env req) as Hwrites.
  pose proof getWorkflowState_dryRunOnly. pose proof canSwitch_dryRunOnly.
  unfold WorkflowSwitchTraffic, switchTrafficPrelude, switchTrafficGate, switchTrafficSwitch.
  cbv beta zeta.
  repeat (emits_step || apply stateOrReturn_emits || apply unlockNameAfter_dryRunOnly); auto.
Qed.

Lemma WorkflowSwitchTraffic_dry_run_witness :
  snd (WorkflowSwitchTraffic (world (fresh healthy))
         (dryRunRequest [TabletType_PRIMARY] DirectionForward) [])
  = (stateReads
     ++ [ LockName "ks2/wf" "WorkflowSwitchTraffic";
          GetWorkflows "ks2" "wf" false [];
          RefreshTabletsByShard "ks1" "0"; RefreshTabletsByShard "ks2" "0";
          validate;
          validateShardsHaveVReplicationPermissions "ks1";
          areTabletsAvailableToStreamFrom "ks2";
          Sw true (lockKeyspace "ks1" "SwitchWrites" (Some (30 * Second * 3)));
          Sw true (lockKeyspace "ks2" "SwitchWrites" (Some (30 * Second * 3)));
          Sw true (mirrorTableTraffic [TabletType_PRIMARY] 0);
          checkJournals;
          BuildStreamMigrator false;
          Sw true stopSourceWrites; Sw true stopStreams;
          executeLockTablesOnSource; Sleep (100 * Millisecond);
          executeLockTablesOnSource; Sleep (100 * Millisecond);
          gatherSourcePositions;
          Sw true (waitForCatchup (30 * Second));
          Sw true migrateStreams; Sw true resetSequences;
          Sw true createReverseVReplication;
          Sw true (createJournals []); Sw true allowTargetWrites; Sw true changeRouting;
          Sw true (streamMigraterfinalize []); Sw true startReverseVReplication;
          Sw true freezeTargetVReplication;
          Sw true (unlockKeyspace "ks2"); Sw true (unlockKeyspace "ks1");
          UnlockName "ks2/wf" ])%list /\
  forallb dryRunOnly
    (snd (WorkflowSwitchTraffic (world (fresh healthy))
            (dryRunRequest [TabletType_PRIMARY] DirectionForward) [])) = true.
Proof.
  split; [vm_compute; reflexivity|].
  destruct (WorkflowSwitchTraffic_dry_run_uses_the_dry_run_switcher
              (world (fresh healthy)) (dryRunRequest [TabletType_PRIMARY] DirectionForward)
              [] eq_refl) as (evs & Hevs & Hdry).
  rewrite Hevs. exact Hdry.
Defined.

(** *** Keeping the data *)

Lemma observes_keepsData (e : Event) : observes e = true -> keepsData e = true.
Proof. destruct e; simpl; intros H; try discriminate; reflexivity. Qed.

Lemma getWorkflowState_keepsData env ks wf ign :
  emits keepsData (getWorkflowState env ks wf ign).
Proof.
  eapply emits_weaken; [exact observes_keepsData | apply getWorkflowState_observes].
Qed.

Lemma unlockKeyspaceAfter_keepsData {R} dryRun keyspace (o : Outcome R) :
  emits keepsData (unlockKeyspaceAfter dryRun keyspace o).
Proof. intros t. exists [Sw dryRun (unlockKeyspace keyspace)]. auto. Qed.

Lemma unlockNameAfter_keepsData {R} lockName (o : Outcome R) :
  emits keepsData (unlockNameAfter lockName o).
Proof. intros t. exists [UnlockName lockName]. auto. Qed.

Lemma finalizeMigrateWorkflow_keepsData env ts tableSpecs cancel keepRoutingRules dryRun :
  emits keepsData
    (finalizeMigrateWorkflow env ts tableSpecs cancel true keepRoutingRules dryRun).
Proof.
  unfold finalizeMigrateWorkflow, orReturn, swCall, swLogs. cbv beta zeta.
  rewrite andb_false_r.
  repeat (emits_step || apply unlockKeyspaceAfter_keepsData).
Qed.

Lemma dropRelatedArtifacts_keepsData env keepRoutingRules dryRun ignoreSourceKeyspace :
  emits keepsData (dropRelatedArtifacts env keepRoutingRules dryRun ignoreSourceKeyspace).
Proof.
  unfold dropRelatedArtifacts, swCall. cbv beta zeta. repeat emits_step.
Qed.

Lemma dropArtifacts_keepsData env keepRoutingRules dryRun ignoreSourceKeyspace :
  emits keepsData (dropArtifacts env keepRoutingRules dryRun ignoreSourceKeyspace).
Proof.
  unfold dropArtifacts, swCall. cbv beta zeta. repeat emits_step.
Qed.

Lemma withDropLocks_keepsData env dryRun ignoreSourceKeyspace ts action rest :
  emits keepsData rest ->
  emits keepsData (withDropLocks env dryRun ignoreSourceKeyspace ts action rest).
Proof.
  intros Hrest. unfold withDropLocks, swCall. cbv beta zeta.
  repeat (emits_step || assumption || apply unlockKeyspaceAfter_keepsData).
Qed.

Lemma dropTargets_keepsData env ts keepRoutingRules dryRun ignoreSourceKeyspace :
  emits keepsData (dropTargets env ts true keepRoutingRules dryRun ignoreSourceKeyspace).
Proof.
  pose proof dropRelatedArtifacts_keepsData.
  unfold dropTargets, orReturn, swCall, swLogs. cbv beta zeta.
  apply emits_body, withDropLocks_keepsData. cbn [negb]. repeat (emits_step; auto).
Qed.

Lemma dropSources_keepsData env ts removalType keepRoutingRules force dryRun ign :
  emits keepsData (dropSources env ts removalType true keepRoutingRules force dryRun ign).
Proof.
  pose proof dropArtifacts_keepsData.
  unfold dropSources, orReturn, swCall, swLogs. cbv beta zeta.
  apply emits_body, withDropLocks_keepsData. cbn [negb]. repeat (emits_step; auto).
Qed.

(** With [KeepData] set, [WorkflowDelete] removes no data, whatever
    the kind of the workflow and whatever happens: it never asks the
    switcher to remove the target tables, the source tables or the source
    shards, and it never deletes the rows of the tenant on the targets. *)
Theorem WorkflowDelete_keeps_the_data :
  forall (env : Env) (req : WorkflowDeleteRequest.t) (t : Trace),
    WorkflowDeleteRequest.KeepData req = true ->
    exists evs,
      snd (WorkflowDelete env req t) = (t ++ evs)%list /\
      forallb keepsData evs = true.
Proof.
  intros env req t Hkeep. revert t.
  change (emits keepsData (WorkflowDelete env req)).
  pose proof getWorkflowState_keepsData. pose proof finalizeMigrateWorkflow_keepsData.
  pose proof dropTargets_keepsData.
  unfold WorkflowDelete, deleteLocked. rewrite Hkeep. cbv beta zeta. cbn [negb].
  repeat (emits_step || apply stateOrReturn_emits || apply unlockNameAfter_keepsData); auto.
Qed.

(** With [KeepData] set, [MoveTablesComplete] removes no data: the
    source tables are neither dropped nor renamed and no source shard is
    dropped, whether the workflow is completed for real or as a dry
    run. *)
Theorem MoveTablesComplete_keeps_the_data :
  forall (env : Env) (req : MoveTablesCompleteRequest.t) (t : Trace),
    MoveTablesCompleteRequest.KeepData req = true ->
    exists evs,
      snd (MoveTablesComplete env req t) = (t ++ evs)%list /\
      forallb keepsData evs = true.
Proof.
  intros env req t Hkeep. revert t.
  change (emits keepsData (MoveTablesComplete env req)).
  pose proof getWorkflowState_keepsData. pose proof finalizeMigrateWorkflow_keepsData.
  pose proof dropSources_keepsData.
  unfold MoveTablesComplete, completeLocked. rewrite Hkeep. cbv beta zeta.
  repeat (emits_step || apply stateOrReturn_emits || apply unlockNameAfter_keepsData); auto.
Qed.

Lemma WorkflowDelete_keeps_the_data_witness :
  exists evs,
    snd (WorkflowDelete (world (fresh healthy)) deleteKeepingData []) = evs /\
    In (DeleteVReplicationWorkflow "ks2" "wf" []) evs /\
    forallb keepsData evs = true.
Proof.
  destruct (WorkflowDelete_keeps_the_data (world (fresh healthy)) deleteKeepingData []
              eq_refl) as (evs & Hevs & Hkeep).
  exists evs. split; [exact Hevs|]. split; [|exact Hkeep].
  simpl app in Hevs. rewrite <- Hevs. vm_compute. tauto.
Defined.

Lemma MoveTablesComplete_keeps_the_data_witness :
  exists evs,
    snd (MoveTablesComplete (world (switched healthy)) (completeKeepingData false) []) = evs /\
    In (Sw false dropTargetVReplicationStreams) evs /\
    forallb keepsData evs = true.
Proof.
  destruct (MoveTablesComplete_keeps_the_data (world (switched healthy))
              (completeKeepingData false) [] eq_refl) as (evs & Hevs & Hkeep).
  exists evs. split; [exact Hevs|]. split; [|exact Hkeep].
  simpl app in Hevs. rewrite <- Hevs. vm_compute. tauto.
Defined.

(** *** The order of the steps of [switchWrites] *)

(** [switchWrites] on a workflow that is not frozen, without
    [cancel], in a world where no journal exists and every call
    succeeds: the calls are, in this order, those up to the look at the
    journals, then the stream migrator is built, the source writes are
    stopped, the streams are stopped, LOCK TABLES is executed twice with
    a pause after each (for a migration of tables only), the source
    positions are gathered, and - each after a check that the keyspace
    locks are still held, which a dry run leaves out - replication is
    waited for, the streams are migrated, the sequences are reset, the
    reverse streams are created and the target sequences initialised
    (only when the request asks for it, the workflow is a MoveTables
    with an unsharded source and the target has some); then
    come the journals, the target writes, the routing, the end of the
    stream migration, the start of the reverse workflow if asked for,
    the freeze of the target streams, and the release of the locks.
    The function returns the id of the traffic switcher with a nil
    error and the stream names that [stopStreams] gave are those the
    journals are created with. *)
Theorem switchWrites_fresh_switch_in_order
        (env : Env) (req : WorkflowSwitchTrafficRequest.t) (ts : trafficSwitcher)
        (waitTimeout : Duration) (stopped : list string) (n : nat) (t : Trace) :
  (forall t e, errOf env t e = None) ->
  (forall t, targetSequenceMetadataOf env t = inl n) ->
  (forall t, checkJournalsOf env t = (false, [], None)) ->
  (forall t, stopStreamsOf env t = (stopped, None)) ->
  frozen ts = false ->
  exists l,
    switchWrites env req ts waitTimeout false t
    = (Returned (id ts, l, None),
       (t ++ writesPrologue req ts waitTimeout ++ writesFresh req ts waitTimeout n
          ++ writesCommit req ts stopped
          ++ writesUnlocks (WorkflowSwitchTrafficRequest.DryRun req) ts)%list).
Proof.
  intros Herr Hseq Hjournals Hstopped Hfrozen.
  assert (H : exists l T,
             switchWrites env req ts waitTimeout false t = (Returned (id ts, l, None), T) /\
             T = (t ++ writesPrologue req ts waitTimeout ++ writesFresh req ts waitTimeout n
                    ++ writesCommit req ts stopped
                    ++ writesUnlocks (WorkflowSwitchTrafficRequest.DryRun req) ts)%list).
  { unfold switchWrites, confirmKeyspaceLocksHeld, unlockKeyspaceNamed, handleError,
      cancelAfter, writesPrologue, writesFresh, writesCommit, writesUnlocks, locksHeld.
    change (Z.to_nat lockTablesCycles) with 2%nat.
    cbv zeta; rewrite Hfrozen;
      destruct (WorkflowSwitchTrafficRequest.EnableReverseReplication req);
      destruct (String.eqb (TargetKeyspaceName ts) (SourceKeyspaceName ts));
      destruct (WorkflowSwitchTrafficRequest.DryRun req);
      destruct (MigrationType_eqb (MigrationType_ ts) MigrationType_TABLES);
      (destruct (WorkflowSwitchTrafficRequest.InitializeTargetSequences req
                 && VReplicationWorkflowType_eqb (workflowType ts)
                      VReplicationWorkflowType_MoveTables
                 && sourceUnsharded ts) eqn:Hinit);
      destruct (WorkflowSwitchTrafficRequest.InitializeTargetSequences req);
      cbn [andb] in Hinit; try discriminate Hinit;
      destruct n;
      cbn [andb lockTablesLoop];
      eexists; eexists;
      (split; [ run_through ltac:(idtac; rewrite ?Herr, ?Hjournals, ?Hseq, ?Hstopped)
              | rewrite <- ?app_assoc; reflexivity ]). }
  destruct H as (l & T & H1 & H2). exists l. rewrite H1, H2. reflexivity.
Qed.

Lemma switchWrites_fresh_switch_witness :
  exists l,
    switchWrites (world (fresh healthy)) (switchRequest [TabletType_PRIMARY] 0 None)
                 (moveTables false false) (30 * Second) false []
    = (Returned (42, l, None),
       ([] ++ writesPrologue (switchRequest [TabletType_PRIMARY] 0 None)
                (moveTables false false) (30 * Second)
           ++ writesFresh (switchRequest [TabletType_PRIMARY] 0 None)
                (moveTables false false) (30 * Second) 0
           ++ writesCommit (switchRequest [TabletType_PRIMARY] 0 None)
                (moveTables false false) []
           ++ writesUnlocks false (moveTables false false))%list).
Proof.
  apply (switchWrites_fresh_switch_in_order (world (fresh healthy))
           (switchRequest [TabletType_PRIMARY] 0 None) (moveTables false false)
           (30 * Second) [] 0 []); intros; reflexivity.
Defined.

(** *** What [switchReads] refuses before it calls anything *)

(** [switchReads] looks at the request before it reads the
    topology or takes a lock.  A request that names neither REPLICA nor
    RDONLY gets INVALID_ARGUMENT.  For a migration that is neither
    partial nor a multi-tenant migration of tables, a reversal
    ([DirectionBackward]) that names REPLICA while no cell has its
    REPLICA reads switched, or that names RDONLY while no cell has its
    RDONLY reads switched, gets FAILED_PRECONDITION; the REPLICA
    message comes first when both hold.  In all three cases the error
    goes through [defaultErrorHandler] and nothing at all has been
    called.  A partial migration has no such check: its traffic is
    switched all at once. *)
Theorem switchReads_refuses_before_any_call
        (env : Env) (req : WorkflowSwitchTrafficRequest.t) (ts : trafficSwitcher)
        (state : State) (rebuildSrvVSchema : bool) (direction : TrafficSwitchDirection)
        (t : Trace) :
  let roTabletTypes :=
    filter (fun tabletType => negb (TabletType_eqb tabletType TabletType_PRIMARY))
           (WorkflowSwitchTrafficRequest.TabletTypes req) in
  let switchReplica := existsb (TabletType_eqb TabletType_REPLICA) roTabletTypes in
  let switchRdonly := existsb (TabletType_eqb TabletType_RDONLY) roTabletTypes in
  let tableByTable :=
    negb (isPartialMigration ts)
    && negb (MigrationType_eqb (MigrationType_ ts) MigrationType_TABLES
             && IsMultiTenantMigration ts) in
  (switchReplica = false -> switchRdonly = false ->
   switchReads env req ts state rebuildSrvVSchema direction t
   = (Returned
        (defaultErrorHandler env "invalid tablet types"
           (Errorf Code_INVALID_ARGUMENT
              ("tablet types must be REPLICA or RDONLY: "
                 ++ MakeStringTypeCSV env roTabletTypes))), t)) /\
  (tableByTable = true -> direction = DirectionBackward ->
   switchReplica = true -> ReplicaCellsSwitched state = [] ->
   switchReads env req ts state rebuildSrvVSchema direction t
   = (Returned
        (defaultErrorHandler env "invalid request"
           (Errorf Code_FAILED_PRECONDITION
              "requesting reversal of read traffic for REPLICAs but REPLICA reads have not been switched")),
      t)) /\
  (tableByTable = true -> direction = DirectionBackward ->
   switchRdonly = true -> RdonlyCellsSwitched state = [] ->
   (switchReplica = false \/ ReplicaCellsSwitched state <> []) ->
   switchReads env req ts state rebuildSrvVSchema direction t
   = (Returned
        (defaultErrorHandler env "invalid request"
           (Errorf Code_FAILED_PRECONDITION
              "requesting reversal of read traffic for RDONLYs but RDONLY reads have not been switched")),
      t)).
Proof.
  cbv zeta. unfold switchReads.
  set (ro := filter _ _).
  split; [|split].
  - intros Hrep Hrd. rewrite Hrep, Hrd. reflexivity.
  - intros Htbt Hdir Hrep Hcells. rewrite Hrep, Hcells, Hdir.
    apply andb_true_iff in Htbt. destruct Htbt as [Hpart Hmt].
    apply negb_true_iff in Hpart, Hmt. rewrite Hpart, Hmt.
    destruct (existsb (TabletType_eqb TabletType_RDONLY) ro); reflexivity.
  - intros Htbt Hdir Hrd Hcells Hrep. rewrite Hrd, Hcells, Hdir.
    apply andb_true_iff in Htbt. destruct Htbt as [Hpart Hmt].
    apply negb_true_iff in Hpart, Hmt. rewrite Hpart, Hmt.
    destruct Hrep as [Hrep|Hrep].
    + rewrite Hrep. reflexivity.
    + destruct (ReplicaCellsSwitched state) as [|c cs]; [congruence|].
      destruct (existsb (TabletType_eqb TabletType_REPLICA) ro); reflexivity.
Qed.

Lemma switchReads_refuses_witness :
  switchReads (world (fresh healthy)) (switchRequest [TabletType_REPLICA] DirectionBackward None)
              (moveTables false false)
              {| Workflow := "wf"; SourceKeyspace := "ks1"; TargetKeyspace := "ks2";
                 WorkflowType := TypeMoveTables;
                 ReplicaCellsSwitched := []; ReplicaCellsNotSwitched := ["zone1"];
                 RdonlyCellsSwitched := []; RdonlyCellsNotSwitched := ["zone1"];
                 WritesSwitched := false; IsPartialMigration_ := false;
                 ShardsAlreadySwitched := []; ShardsNotYetSwitched := [];
                 IsReverse := false |}
              true DirectionBackward []
  = (Returned
       (None,
        Some (wrapping
                (fundamental
                   "requesting reversal of read traffic for REPLICAs but REPLICA reads have not been switched"
                   Code_FAILED_PRECONDITION)
                "invalid request")), []).
Proof.
  apply (proj1 (proj2 (switchReads_refuses_before_any_call
                         (world (fresh healthy))
                         (switchRequest [TabletType_REPLICA] DirectionBackward None)
                         (moveTables false false) _ true DirectionBackward [])));
    reflexivity.
Defined.

End workflow_proofs.
